(** * E-ballot backend: elections, votes, tally and accounts

    A shallow embedding of the Express route handlers of the voting
    application ([routes/elections.js], [routes/auth.js]) and of the
    Mongoose models they use ([models/Election.js], [models/Vote.js]),
    followed by the properties of these handlers.

    Conventions of the embedding.
    - A JavaScript [Date] that is valid is its millisecond time stamp, an
      integer of [Z]; [new Date(x)] of a missing or unparseable [x] is the
      Invalid Date, [None].
    - An [ObjectId] is its string form ([toString()]).
    - A collection is the list of its documents, in insertion order; the
      database also keeps the journal of the write operations it served.
    - A handler is a function from the request, the clock readings it makes
      and the database to the HTTP response and the database it leaves.
    - [res.status(c).json(b)] is the pair [(c, b)]; [res.json(b)] is
      [(200, b)].
    - A count is a natural number. The percentage of a result row is the
      JavaScript number itself: an IEEE 754 binary64, [float], with the
      kernel's arithmetic (round to nearest, ties to even, as
      JavaScript's). *)

From Stdlib Require Import ZArith QArith Lia Ascii.
From Stdlib Require Import Sorting.Sorted Sorting.Permutation.
From Stdlib Require Import Qround.
From Stdlib Require Import Floats Uint63.
From stdpp Require Import gmap strings list.

Local Open Scope string_scope.

Definition ObjectId := string.
Definition Date := Z.
Bind Scope Z_scope with Date.

(** ** models/Election.js *)

Inductive status := upcoming | active | completed.

Record candidate := {
  candidate_id : ObjectId;
  name : string;
  party : string;
  bio : string
}.

Record election := {
  election_id : ObjectId;
  title : string;
  description : string;
  startDate : Date;
  endDate : Date;
  stored_status : status;
  candidates : list candidate;
  createdBy : ObjectId;
  createdAt : Date
}.

(** The virtual [currentStatus] of the schema. *)
Definition currentStatus (now : Date) (e : election) : status :=
  if (now <? startDate e)%Z then upcoming
  else if (now >? endDate e)%Z then completed
  else active.

(** ** models/Vote.js *)

Record vote := {
  vote_election : ObjectId;
  vote_voter : ObjectId;
  vote_candidate : ObjectId;
  timestamp : Date
}.

(** ** The database *)

Inductive write_op :=
| InsertVote (v : vote)
| DeleteManyVotes (election : ObjectId) (deletedCount : nat)
| DeleteElection (id : ObjectId)
| UpdateElection (id : ObjectId)
| InsertElection (id : ObjectId).

Record db := {
  elections : list election;
  votes : list vote;
  journal : list write_op
}.

#[global] Instance status_eq_dec : EqDecision status.
Proof. solve_decision. Defined.
#[global] Instance candidate_eq_dec : EqDecision candidate.
Proof. solve_decision. Defined.
#[global] Instance election_eq_dec : EqDecision election.
Proof. solve_decision. Defined.
#[global] Instance vote_eq_dec : EqDecision vote.
Proof. solve_decision. Defined.

(** [Election.findById(id)] *)
Definition Election_findById (id : ObjectId) (d : db) : option election :=
  List.find (fun e => bool_decide (election_id e = id)) (elections d).

(** [Vote.findOne({ election, voter })] *)
Definition Vote_findOne (eid voter : ObjectId) (d : db) : option vote :=
  List.find (fun v => bool_decide (vote_election v = eid) &&
                      bool_decide (vote_voter v = voter)) (votes d).

(** [Vote.find({ election })] *)
Definition Vote_find (eid : ObjectId) (d : db) : list vote :=
  List.filter (fun v => bool_decide (vote_election v = eid)) (votes d).

(** ** What the handlers take from Mongoose and the JavaScript runtime *)

Class Runtime := {
  (** [mongoose.Types.ObjectId.isValid] *)
  ObjectId_isValid : string -> bool;
  (** Mongoose's cast of a string to a path of type ObjectId, in the
      string form of the ObjectId it makes (24 hexadecimal digits come out
      in lower case); [None] when the cast throws CastError. *)
  ObjectId_cast : string -> option ObjectId;
  (** [String.prototype.trim], the setter of the schema's [trim: true] *)
  String_trim : string -> string
}.

(** Errors thrown by the driver and caught by the handlers' [catch]. *)
Inductive exn :=
| CastError
| ValidationError (paths : list string)
| MongoServerError (code : Z).

(** E11000, raised by an insert that violates a unique index. *)
Definition duplicate_key : exn := MongoServerError 11000.

(** ** Requests of routes/elections.js *)

Record candidate_input := {
  in_id : option ObjectId;
  in_name : option string;
  in_party : option string;
  in_bio : option string
}.

(** [req.body.candidates]: missing (or any falsy value), a truthy value
    that is not an array, or an array. *)
Inductive candidates_field :=
| CandidatesAbsent
| CandidatesNotArray
| CandidatesArray (l : list candidate_input).

(** [req.body.startDate], [req.body.endDate]: missing, a string that
    [new Date] does not parse, or a string that it parses to [t]. *)
Inductive date_field :=
| DateAbsent
| DateUnparseable
| DateString (t : Date).

Record election_body := {
  body_title : option string;
  body_description : option string;
  body_startDate : date_field;
  body_endDate : date_field;
  body_candidates : candidates_field
}.

(** JavaScript truthiness of the three kinds of value. *)
Definition truthy (s : option string) : bool :=
  match s with
  | Some s => negb (bool_decide (s = ""))
  | None => false
  end.

Definition date_truthy (f : date_field) : bool :=
  match f with DateAbsent => false | _ => true end.

Definition candidates_truthy (f : candidates_field) : bool :=
  match f with CandidatesAbsent => false | _ => true end.

(** [new Date(x)]; [None] is the Invalid Date, whose [getTime()] is NaN. *)
Definition new_Date (f : date_field) : option Date :=
  match f with
  | DateString t => Some t
  | DateAbsent | DateUnparseable => None
  end.

(** ** Responses of routes/elections.js *)

Record election_summary := {
  sum_id : ObjectId;
  sum_title : string;
  sum_description : string;
  sum_startDate : Date;
  sum_endDate : Date;
  sum_status : status;
  sum_candidates : list candidate
}.

Record result_row := {
  row_candidate : candidate;
  row_votes : nat;
  percentage : float
}.

Record results_json := {
  res_electionId : ObjectId;
  res_title : string;
  res_description : string;
  totalVotes : nat;
  results : list result_row;
  winners : list candidate;
  isTie : bool;
  res_endDate : Date;
  lastUpdated : Date
}.

Inductive body :=
| Message (message : string)
| MessageRequired (message : string) (required : list string)
| MessageInvalidCandidate (message : string) (invalidCandidate : candidate_input)
| MessageDates (message : string) (start finish : Date)
| MessageEndDate (message : string) (finish : Date)
| MessageReceivedId (message : string) (receivedId : string)
| MessageElectionId (message : string) (electionId : string)
| MessageErrors (message : string) (errors : list string)
| ServerError (message : string)
| ElectionList (l : list election_summary)
| ElectionJson (e : election)
| DeletedJson (message : string) (deletedElectionId : ObjectId)
              (deletedVotesCount : nat)
| ResultsJson (r : results_json).

Definition response : Type := Z * body.

Definition http_status (r : response) : Z := fst r.

Definition is_success (r : response) : bool :=
  bool_decide (200 <= http_status r < 300)%Z.

(** ** routes/elections.js: reading elections *)

Definition with_status (e : election) (s : status) : election :=
  {| election_id := election_id e; title := title e;
     description := description e; startDate := startDate e;
     endDate := endDate e; stored_status := s;
     candidates := candidates e; createdBy := createdBy e;
     createdAt := createdAt e |}.

(** [.select('title description startDate endDate status candidates')]
    followed by [{ ...election.toObject(), status }]. *)
Definition summary (e : election) (s : status) : election_summary :=
  {| sum_id := election_id e; sum_title := title e;
     sum_description := description e; sum_startDate := startDate e;
     sum_endDate := endDate e; sum_status := s;
     sum_candidates := candidates e |}.

(** [.sort({ startDate: -1 })]: latest start first. *)
Fixpoint insert_by_start (e : election) (l : list election) : list election :=
  match l with
  | [] => [e]
  | x :: l' =>
      if (startDate x <=? startDate e)%Z then e :: x :: l'
      else x :: insert_by_start e l'
  end.

Definition Election_find_sorted (d : db) : list election :=
  foldr insert_by_start [] (elections d).

(** [GET /]. The callback of [elections.map] reads the clock once for each
    election: [clock i] is the reading made for the election at index [i]. *)
Definition get_elections (clock : nat -> Date) (d : db) : response * db :=
  let elections := Election_find_sorted d in
  let updatedElections :=
    imap (fun i election =>
            let now := clock i in
            let status := stored_status election in
            let status :=
              if (now <? startDate election)%Z then upcoming
              else if (now >? endDate election)%Z then completed
              else active in
            summary election status) elections in
  ((200%Z, ElectionList updatedElections), d).

(** [GET /:id] *)
Definition get_election `{Runtime} (electionId : string) (now : Date) (d : db)
  : response * db :=
  if negb (ObjectId_isValid electionId) then
    ((400%Z, Message "Invalid election ID format"), d)
  else
    match Election_findById electionId d with
    | None => ((404%Z, Message "Election not found"), d)
    | Some election =>
        let status := stored_status election in
        let status :=
          if (now <? startDate election)%Z then upcoming
          else if (now >? endDate election)%Z then completed
          else active in
        let result := with_status election status in
        ((200%Z, ElectionJson result), d)
    end.

(** ** routes/elections.js: casting a vote *)

Record vote_request := {
  vote_electionId : string;
  vote_candidateId : string;
  vote_userId : ObjectId
}.

(** [vote.save()]: the unique index on [(election, voter)] makes the insert
    fail with E11000 when the collection already holds a vote of the pair. *)
Definition Vote_save (v : vote) (d : db) : (exn + unit) * db :=
  if existsb (fun w => bool_decide (vote_election w = vote_election v) &&
                       bool_decide (vote_voter w = vote_voter v)) (votes d)
  then (inl duplicate_key, d)
  else (inr tt,
        {| elections := elections d;
           votes := votes d ++ [v];
           journal := journal d ++ [InsertVote v] |}).

(** The [catch] block of [POST /:id/vote]. *)
Definition vote_catch (error : exn) : response :=
  match error with
  | CastError => (400%Z, Message "Invalid ID format")
  | _ => (500%Z, ServerError "Server error recording vote")
  end.

(** The handler is an [async] function: it runs up to its next [await],
    yields, and resumes with the answer of the database. A task is the
    point at which the handler is suspended. *)
Inductive vote_task :=
| AwaitFindElection
| AwaitFindVote
| AwaitSave (v : vote)
| Responded (r : response).

(** From the call to the first [await]. *)
Definition vote_start `{Runtime} (req : vote_request) : vote_task :=
  if negb (ObjectId_isValid (vote_electionId req)) then
    Responded (400%Z, Message "Invalid election ID format")
  else if negb (ObjectId_isValid (vote_candidateId req)) then
    Responded (400%Z, Message "Invalid candidate ID format")
  else AwaitFindElection.

(** One database operation and the code that follows it up to the next
    [await]. [clock 0] is [new Date()] of the activity check, [clock 1] the
    [Date.now] default of the new vote's [timestamp]. *)
Definition vote_step (req : vote_request) (clock : nat -> Date)
    (t : vote_task) (d : db) : vote_task * db :=
  match t with
  | AwaitFindElection =>
      match Election_findById (vote_electionId req) d with
      | None => (Responded (404%Z, Message "Election not found"), d)
      | Some election =>
          let now := clock 0 in
          if (now <? startDate election)%Z || (now >? endDate election)%Z then
            (Responded (400%Z, Message "This election is not currently active"), d)
          else
            match List.find (fun candidate =>
                     bool_decide (candidate_id candidate = vote_candidateId req))
                    (candidates election) with
            | None =>
                (Responded (400%Z, Message "Invalid candidate for this election"), d)
            | Some _ => (AwaitFindVote, d)
            end
      end
  | AwaitFindVote =>
      match Vote_findOne (vote_electionId req) (vote_userId req) d with
      | Some _ =>
          (Responded (400%Z, Message "You have already voted in this election"), d)
      | None =>
          (AwaitSave {| vote_election := vote_electionId req;
                        vote_candidate := vote_candidateId req;
                        vote_voter := vote_userId req;
                        timestamp := clock 1 |}, d)
      end
  | AwaitSave v =>
      match Vote_save v d with
      | (inl error, d') => (Responded (vote_catch error), d')
      | (inr _, d') => (Responded (201%Z, Message "Vote recorded successfully"), d')
      end
  | Responded r => (Responded r, d)
  end.

(** The response of a task that has finished. *)
Definition response_of (t : vote_task) : option response :=
  match t with Responded r => Some r | _ => None end.

(** [POST /:id/vote] served alone: the three operations back to back. *)
Definition post_vote `{Runtime} (req : vote_request) (clock : nat -> Date)
    (d : db) : vote_task * db :=
  let '(t1, d1) := vote_step req clock (vote_start req) d in
  let '(t2, d2) := vote_step req clock t1 d1 in
  vote_step req clock t2 d2.

(** Two requests served concurrently: the event loop resumes one of the
    two handlers at a time; [schedule] says which ([false] the first,
    [true] the second). *)
Fixpoint interleave (reqA reqB : vote_request) (clockA clockB : nat -> Date)
    (schedule : list bool) (tA tB : vote_task) (d : db)
  : vote_task * vote_task * db :=
  match schedule with
  | [] => (tA, tB, d)
  | false :: rest =>
      let '(tA', d') := vote_step reqA clockA tA d in
      interleave reqA reqB clockA clockB rest tA' tB d'
  | true :: rest =>
      let '(tB', d') := vote_step reqB clockB tB d in
      interleave reqA reqB clockA clockB rest tA tB' d'
  end.

Definition concurrent_votes `{Runtime} (reqA reqB : vote_request)
    (clockA clockB : nat -> Date) (schedule : list bool) (d : db)
  : vote_task * vote_task * db :=
  interleave reqA reqB clockA clockB schedule
             (vote_start reqA) (vote_start reqB) d.

(** The spec's name of the outcome of a duplicate vote. *)
Definition AlreadyVoted : response :=
  (400%Z, Message "You have already voted in this election").

(** ** routes/elections.js: deleting an election *)

(** [Vote.deleteMany({ election })] and its [deletedCount]. *)
Definition Vote_deleteMany (eid : ObjectId) (d : db) : nat * db :=
  let deletedCount := length (Vote_find eid d) in
  (deletedCount,
   {| elections := elections d;
      votes := List.filter (fun v => negb (bool_decide (vote_election v = eid)))
                           (votes d);
      journal := journal d ++ [DeleteManyVotes eid deletedCount] |}).

Fixpoint remove_election (id : ObjectId) (l : list election) : list election :=
  match l with
  | [] => []
  | e :: l' =>
      if bool_decide (election_id e = id) then l'
      else e :: remove_election id l'
  end.

(** [Election.findByIdAndDelete(id)]: the document it removed, if any. *)
Definition Election_findByIdAndDelete (id : ObjectId) (d : db)
  : option election * db :=
  match Election_findById id d with
  | None => (None, d)
  | Some e =>
      (Some e,
       {| elections := remove_election id (elections d);
          votes := votes d;
          journal := journal d ++ [DeleteElection id] |})
  end.

(** The [catch] block of [DELETE /:id]. *)
Definition delete_catch (error : exn) : response :=
  (500%Z, ServerError "Server error deleting election").

(** [DELETE /:id], after [authenticateToken] and [isAdmin]. [thrown i] is
    the error, if any, that the driver throws at the [i]-th database call
    of the handler (a lost connection, a timeout): [Election.findById],
    [Vote.deleteMany] and [Election.findByIdAndDelete], in this order. A
    call that throws has written nothing. *)
Definition delete_election `{Runtime} (electionId : string) (now : Date)
    (thrown : nat -> option exn) (d : db) : response * db :=
  if negb (ObjectId_isValid electionId) then
    ((400%Z, MessageReceivedId "Invalid election ID format" electionId), d)
  else
    match thrown 0 with
    | Some error => (delete_catch error, d)
    | None =>
    match Election_findById electionId d with
    | None => ((404%Z, MessageElectionId "Election not found" electionId), d)
    | Some election =>
        if (now >=? startDate election)%Z && (now <=? endDate election)%Z then
          ((400%Z, MessageDates "Cannot delete an active election"
                     (startDate election) (endDate election)), d)
        else if (now >? endDate election)%Z then
          ((400%Z, MessageEndDate "Cannot delete a completed election"
                     (endDate election)), d)
        else
          match thrown 1 with
          | Some error => (delete_catch error, d)
          | None =>
              let '(deletedCount, d1) := Vote_deleteMany electionId d in
              match thrown 2 with
              | Some error => (delete_catch error, d1)
              | None =>
                  let '(deleteResult, d2) :=
                    Election_findByIdAndDelete electionId d1 in
                  ((200%Z, DeletedJson "Election deleted successfully"
                             electionId deletedCount), d2)
              end
          end
    end
    end.

(** A value of a JSON object. *)
Inductive json_value :=
| JString (s : string)
| JNumber (n : nat).

(** The object that [DELETE /:id] answers a delete with, key by key:
    [{ message, deletedElectionId, deletedVotesCount }]. *)
Definition deleted_json (b : body) : option (list (string * json_value)) :=
  match b with
  | DeletedJson message deletedElectionId deletedVotesCount =>
      Some [ ("message", JString message);
             ("deletedElectionId", JString deletedElectionId);
             ("deletedVotesCount", JNumber deletedVotesCount) ]
  | _ => None
  end.

(** ** routes/elections.js: the results of an election *)

(** The body of [votes.forEach]: [voteMap.get(k) || 0], then [set]. *)
Definition count_vote (voteMap : gmap string nat) (v : vote) : gmap string nat :=
  let count := default 0 (voteMap !! vote_candidate v) in
  <[vote_candidate v := count + 1]> voteMap.

Definition build_voteMap (votes : list vote) : gmap string nat :=
  foldl count_vote ∅ votes.

(** The number that holds a count. [votes.length] is the length of an
    array, below 2^32, and no count of votes exceeds it: the conversion is
    exact. *)
Definition Number_of_nat (n : nat) : float :=
  PrimFloat.of_uint63 (Uint63.of_Z (Z.of_nat n)).

(** The callback of [election.candidates.map]:
    [totalVotes > 0 ? (votes / totalVotes) * 100 : 0], in binary64. *)
Definition result_of (voteMap : gmap string nat) (totalVotes : nat)
    (c : candidate) : result_row :=
  let votes := default 0 (voteMap !! candidate_id c) in
  let percentage :=
    if (0 <? totalVotes)%nat
    then (Number_of_nat votes / Number_of_nat totalVotes * 100)%float
    else 0%float in
  {| row_candidate := c; row_votes := votes; percentage := percentage |}.

(** The comparator [(a, b) => b.votes - a.votes]. *)
Definition by_votes_desc (a b : result_row) : Z :=
  (Z.of_nat (row_votes b) - Z.of_nat (row_votes a))%Z.

(** [Array.prototype.sort], a stable sort: an element goes before the
    first one that the comparator does not put before it. *)
Fixpoint sort_insert (a : result_row) (l : list result_row) : list result_row :=
  match l with
  | [] => [a]
  | b :: l' =>
      if (by_votes_desc a b <=? 0)%Z then a :: b :: l'
      else b :: sort_insert a l'
  end.

Definition Array_sort (l : list result_row) : list result_row :=
  foldr sort_insert [] l.

(** [Math.max(...l)]; [None] is the [-Infinity] of the empty list. *)
Definition Math_max (l : list nat) : option nat :=
  foldr (fun x acc =>
           match acc with
           | None => Some x
           | Some m => Some (Nat.max x m)
           end) None l.

(** The tally proper: lines 455 to 501 of the handler. *)
Definition tally (election : election) (votes : list vote) (lastUpdated : Date)
  : results_json :=
  let totalVotes := length votes in
  let voteMap := build_voteMap votes in
  let results := result_of voteMap totalVotes <$> candidates election in
  let results := Array_sort results in
  let maxVotes := Math_max (row_votes <$> results) in
  let winners :=
    row_candidate <$>
      List.filter (fun r => bool_decide (Some (row_votes r) = maxVotes)) results in
  {| res_electionId := election_id election;
     res_title := title election;
     res_description := description election;
     totalVotes := totalVotes;
     results := results;
     winners := winners;
     isTie := (1 <? length winners)%nat;
     res_endDate := endDate election;
     lastUpdated := lastUpdated |}.

(** [GET /:id/results]; [clock 0] is the completion check's [new Date()],
    [clock 1] the one of [lastUpdated]. *)
Definition get_results `{Runtime} (electionId : string) (clock : nat -> Date)
    (d : db) : response * db :=
  if negb (ObjectId_isValid electionId) then
    ((400%Z, Message "Invalid election ID format"), d)
  else
    match Election_findById electionId d with
    | None => ((404%Z, Message "Election not found"), d)
    | Some election =>
        let now := clock 0 in
        let isCompleted := (now >? endDate election)%Z in
        if negb isCompleted then
          ((403%Z, MessageEndDate
                     "Results are not available until the election is complete"
                     (endDate election)), d)
        else
          let votes := Vote_find electionId d in
          ((200%Z, ResultsJson (tally election votes (clock 1))), d)
    end.

(** ** routes/elections.js: creating and updating an election *)

(** [!candidate.name || !candidate.party || !candidate.bio] *)
Definition candidate_incomplete (c : candidate_input) : bool :=
  negb (truthy (in_name c)) || negb (truthy (in_party c)) ||
  negb (truthy (in_bio c)).

(** The [for] loop over the candidates: the first incomplete one. *)
Definition first_incomplete (l : list candidate_input) : option candidate_input :=
  List.find candidate_incomplete l.

(** A candidate subdocument as Mongoose casts it: [trim] on [name] and
    [party]; [id] is its ObjectId. *)
Definition cast_candidate `{Runtime} (id : ObjectId) (c : candidate_input)
  : candidate :=
  {| candidate_id := id;
     name := String_trim (default "" (in_name c));
     party := String_trim (default "" (in_party c));
     bio := default "" (in_bio c) |}.

(** [candidate._id || new mongoose.Types.ObjectId()]: the value that the
    request sent, when it is truthy, or the ObjectId generated. *)
Inductive id_value :=
| IdSent (s : string)
| IdGenerated (id : ObjectId).

(** [updateData], as the handler builds it. *)
Record updateData := {
  data_title : option string;
  data_description : option string;
  data_startDate : Date;
  data_endDate : Date;
  data_candidates : option (list (id_value * candidate_input))
}.

(** [{ $set: updateData }] once Mongoose has cast it to the schema. A key
    whose value is [undefined] is left out of the update. *)
Record update_set := {
  set_title : option string;
  set_description : option string;
  set_startDate : Date;
  set_endDate : Date;
  set_candidates : option (list candidate)
}.

Definition cast_id `{Runtime} (v : id_value) : option ObjectId :=
  match v with
  | IdSent s => ObjectId_cast s
  | IdGenerated id => Some id
  end.

(** The cast of the candidate subdocuments: [None] when the [_id] of one
    of them is not cast. *)
Definition cast_candidates `{Runtime} (l : list (id_value * candidate_input))
  : option (list candidate) :=
  mapM (fun vc => match cast_id vc.1 with
                  | Some id => Some (cast_candidate id vc.2)
                  | None => None
                  end) l.

(** The cast of the update, which throws CastError when a value is not
    cast. *)
Definition cast_updateData `{Runtime} (u : updateData) : exn + update_set :=
  let set cs :=
    {| set_title := data_title u;
       set_description := data_description u;
       set_startDate := data_startDate u;
       set_endDate := data_endDate u;
       set_candidates := cs |} in
  match data_candidates u with
  | None => inr (set None)
  | Some l =>
      match cast_candidates l with
      | Some cs => inr (set (Some cs))
      | None => inl CastError
      end
  end.

Definition apply_set `{Runtime} (u : update_set) (e : election) : election :=
  {| election_id := election_id e;
     title := match set_title u with
              | Some t => String_trim t
              | None => title e
              end;
     description := default (description e) (set_description u);
     startDate := set_startDate u;
     endDate := set_endDate u;
     stored_status := stored_status e;
     candidates := default (candidates e) (set_candidates u);
     createdBy := createdBy e;
     createdAt := createdAt e |}.

Fixpoint update_election (id : ObjectId) (f : election -> election)
    (l : list election) : list election :=
  match l with
  | [] => []
  | e :: l' =>
      if bool_decide (election_id e = id) then f e :: l'
      else e :: update_election id f l'
  end.

(** [Election.findByIdAndUpdate(id, { $set }, { new: true })]: the cast of
    the update, then the write; without [runValidators] no validator
    runs. *)
Definition Election_findByIdAndUpdate `{Runtime} (id : ObjectId) (u : updateData)
    (d : db) : (exn + option election) * db :=
  match cast_updateData u with
  | inl error => (inl error, d)
  | inr u =>
      match Election_findById id d with
      | None => (inr None, d)
      | Some e =>
          (inr (Some (apply_set u e)),
           {| elections := update_election id (apply_set u) (elections d);
              votes := votes d;
              journal := journal d ++ [UpdateElection id] |})
      end
  end.

(** The [catch] block of [PUT /:id]. *)
Definition update_catch (error : exn) : response :=
  match error with
  | ValidationError paths => (400%Z, MessageErrors "Validation error" paths)
  | _ => (500%Z, ServerError "Server error updating election")
  end.

(** [PUT /:id], after [authenticateToken] and [isAdmin]; [newId i] is the
    ObjectId generated for the candidate at index [i]. *)
Definition put_election `{Runtime} (electionId : string) (req : election_body)
    (now : Date) (newId : nat -> ObjectId) (d : db) : response * db :=
  if negb (ObjectId_isValid electionId) then
    ((400%Z, Message "Invalid election ID format"), d)
  else
    match Election_findById electionId d with
    | None => ((404%Z, Message "Election not found"), d)
    | Some election =>
        if (now >? endDate election)%Z then
          ((400%Z, MessageEndDate "Cannot update a completed election"
                     (endDate election)), d)
        else if (now >=? startDate election)%Z && (now <=? endDate election)%Z then
          ((400%Z, MessageDates "Cannot update an active election"
                     (startDate election) (endDate election)), d)
        else
          match new_Date (body_startDate req), new_Date (body_endDate req) with
          | Some start, Some finish =>
              if (finish <=? start)%Z then
                ((400%Z, Message "End date must be after start date"), d)
              else
                let validated
                  : response + option (list (id_value * candidate_input)) :=
                  match body_candidates req with
                  | CandidatesAbsent => inr None
                  | CandidatesNotArray =>
                      inl (400%Z, Message "At least two candidates are required")
                  | CandidatesArray l =>
                      if (length l <? 2)%nat then
                        inl (400%Z, Message "At least two candidates are required")
                      else
                        match first_incomplete l with
                        | Some c =>
                            inl (400%Z, MessageInvalidCandidate
                                   "Each candidate must have name, party, and bio" c)
                        | None =>
                            inr (Some (imap (fun i c =>
                                   (if truthy (in_id c)
                                    then IdSent (default "" (in_id c))
                                    else IdGenerated (newId i), c)) l))
                        end
                  end in
                match validated with
                | inl r => (r, d)
                | inr cs =>
                    let updateData :=
                      {| data_title := body_title req;
                         data_description := body_description req;
                         data_startDate := start;
                         data_endDate := finish;
                         data_candidates := cs |} in
                    match Election_findByIdAndUpdate electionId updateData d with
                    | (inl error, d') => (update_catch error, d')
                    | (inr (Some updatedElection), d') =>
                        ((200%Z, ElectionJson updatedElection), d')
                    | (inr None, d') =>
                        ((500%Z, ServerError "Server error updating election"), d')
                    end
                end
          | _, _ => ((400%Z, Message "Invalid date format"), d)
          end
    end.

(** The validation that [election.save()] runs, from the schema: the
    paths that are [required] and empty. *)
Definition candidate_errors (c : candidate) : list string :=
  (if bool_decide (name c = "") then ["name"] else []) ++
  (if bool_decide (party c = "") then ["party"] else []) ++
  (if bool_decide (bio c = "") then ["bio"] else []).

Definition Election_validate (e : election) : list string :=
  (if bool_decide (title e = "") then ["title"] else []) ++
  (if bool_decide (description e = "") then ["description"] else []) ++
  flat_map candidate_errors (candidates e).

(** [election.save()] of a new document. *)
Definition Election_save (e : election) (d : db) : (exn + unit) * db :=
  match Election_validate e with
  | [] =>
      if existsb (fun x => bool_decide (election_id x = election_id e))
                 (elections d)
      then (inl duplicate_key, d)
      else (inr tt,
            {| elections := elections d ++ [e];
               votes := votes d;
               journal := journal d ++ [InsertElection (election_id e)] |})
  | paths => (inl (ValidationError paths), d)
  end.

(** The [catch] block of [POST /]. *)
Definition create_catch (error : exn) : response :=
  match error with
  | ValidationError paths => (400%Z, MessageErrors "Validation error" paths)
  | _ => (500%Z, ServerError "Server error while creating election")
  end.

(** [POST /], after [authenticateToken] and [isAdmin]. [clock 0] is
    [new Date()], [clock 1] the [Date.now] default of [createdAt];
    [newId 0] is the ObjectId of the election, [newId (S i)] the one of its
    candidate at index [i]. *)
Definition post_election `{Runtime} (req : election_body) (userId : ObjectId)
    (clock : nat -> Date) (newId : nat -> ObjectId) (d : db) : response * db :=
  if negb (truthy (body_title req)) || negb (truthy (body_description req)) ||
     negb (date_truthy (body_startDate req)) ||
     negb (date_truthy (body_endDate req)) ||
     negb (candidates_truthy (body_candidates req))
  then ((400%Z, MessageRequired "Missing required fields"
                  ["title"; "description"; "startDate"; "endDate"; "candidates"]), d)
  else
    match body_candidates req with
    | CandidatesAbsent | CandidatesNotArray =>
        ((400%Z, Message "At least two candidates are required"), d)
    | CandidatesArray l =>
        if (length l <? 2)%nat then
          ((400%Z, Message "At least two candidates are required"), d)
        else
          match first_incomplete l with
          | Some c =>
              ((400%Z, MessageInvalidCandidate
                         "Each candidate must have name, party, and bio" c), d)
          | None =>
              let now := clock 0 in
              match new_Date (body_startDate req), new_Date (body_endDate req) with
              | Some start, Some finish =>
                  if (finish <=? start)%Z then
                    ((400%Z, Message "End date must be after start date"), d)
                  else
                    let status :=
                      if (now >? finish)%Z then completed
                      else if (now >=? start)%Z then active
                      else upcoming in
                    let election :=
                      {| election_id := newId 0;
                         title := String_trim (default "" (body_title req));
                         description := default "" (body_description req);
                         startDate := start;
                         endDate := finish;
                         stored_status := status;
                         candidates :=
                           imap (fun i c => cast_candidate (newId (S i)) c) l;
                         createdBy := userId;
                         createdAt := clock 1 |} in
                    match Election_save election d with
                    | (inl error, d') => (create_catch error, d')
                    | (inr _, d') => ((201%Z, ElectionJson election), d')
                    end
              | _, _ => ((400%Z, Message "Invalid date format"), d)
              end
          end
    end.

(** The spec's Conflict, for the two operations that the state of the
    election can forbid. *)
Definition delete_conflict (r : response) : Prop :=
  exists s e,
    r = (400%Z, MessageDates "Cannot delete an active election" s e) \/
    r = (400%Z, MessageEndDate "Cannot delete a completed election" e).

Definition update_conflict (r : response) : Prop :=
  exists s e,
    r = (400%Z, MessageDates "Cannot update an active election" s e) \/
    r = (400%Z, MessageEndDate "Cannot update a completed election" e).

(** ** The users, as routes/auth.js sees them *)

Inductive role := voter | admin.

#[global] Instance role_eq_dec : EqDecision role.
Proof. solve_decision. Defined.

Record user := {
  user_id : ObjectId;
  fullName : string;
  email : string;
  voterID : string;
  password : string;
  age : option Z;
  phone : option string;
  user_role : role;
  isVerified : bool;
  isActive : bool;
  user_createdAt : Date
}.

(** The [$set] of [PUT /profile]: the fields of the request body. [age] is
    a JSON integer, or missing. *)
Record profile_body := {
  profile_fullName : string;
  profile_email : string;
  profile_phone : option string;
  profile_age : option Z;
  profile_voterID : string
}.

(** models/User.js is not among the sources: what the routes use of it is
    taken as a parameter, and so are [jwt.sign] and [NODE_ENV]. A validator
    answers with the paths that fail, none when the document is valid. *)
Class UserModel := {
  (** the schema's validators, run by [save()] *)
  User_validate : user -> list string;
  (** the validators of the paths of a [$set], run under [runValidators] *)
  User_validate_set : profile_body -> list string;
  (** the schema's defaults of [role] and [isActive] *)
  default_role : role;
  default_isActive : bool;
  (** the hashing of the password done before a save *)
  hashPassword : string -> string;
  (** the method [comparePassword] *)
  comparePassword : user -> string -> bool;
  (** [jwt.sign({ id, role, voterID }, JWT_SECRET, { expiresIn: '8h' })] *)
  jwt_sign : ObjectId -> role -> string -> string;
  (** [process.env.NODE_ENV === 'production'] *)
  production : bool
}.

(** Modelled from the spec: the age rule of the schema of models/User.js,
    which is missing: age at least 18 and at most 120, enforced on
    registration and on profile update. *)
Definition spec_age_rule (a : option Z) : bool :=
  match a with
  | Some n => (18 <=? n)%Z && (n <=? 120)%Z
  | None => false
  end.

(** A user model whose validators include the spec's age rule: a document
    whose age breaks the rule is refused by [save()], and so is a [$set]
    that carries such an age. *)
Definition enforces_age `{UserModel} : Prop :=
  (forall u, User_validate u = [] -> spec_age_rule (age u) = true) /\
  (forall b a, profile_age b = Some a -> User_validate_set b = [] ->
               spec_age_rule (Some a) = true).

Record register_body := {
  reg_fullName : string;
  reg_email : string;
  reg_voterID : string;
  reg_password : string;
  reg_age : option Z
}.

Record login_user := {
  login_id : ObjectId;
  login_fullName : string;
  login_email : string;
  login_voterID : string;
  login_role : role;
  login_isVerified : bool;
  login_isActive : bool
}.

Inductive auth_body :=
| AuthMessage (message : string)
| AuthValidation (paths : list string)
| AuthOutcome (success : bool) (message : string)
| LoginJson (token : string) (u : login_user)
| UserJson (u : user).

Definition auth_response : Type := Z * auth_body.

(** [User.findOne({ $or: [{ email }, { voterID }] })] *)
Definition User_findOne_email_or_voterID (e v : string) (users : list user)
  : option user :=
  List.find (fun u => bool_decide (email u = e) || bool_decide (voterID u = v))
            users.

(** [req.body.voterID]. The login route hands it to
    [User.findOne({ voterID })] as it comes from the JSON body: a string,
    or an object of query operators such as [{ "$ne": "" }] or
    [{ "$gt": "" }]; [selects] is the meaning of the operators on the
    stored voter identifier. *)
Inductive voterID_value :=
| VoterIDString (s : string)
| VoterIDOperators (selects : string -> bool).

Coercion VoterIDString : string >-> voterID_value.

(** The filter [{ voterID }] on a document. *)
Definition voterID_selects (v : voterID_value) (u : user) : bool :=
  match v with
  | VoterIDString s => bool_decide (voterID u = s)
  | VoterIDOperators selects => selects (voterID u)
  end.

(** [User.findOne({ voterID })] *)
Definition User_findOne_voterID (v : voterID_value) (users : list user)
  : option user :=
  List.find (voterID_selects v) users.

(** [User.findById(id)] *)
Definition User_findById (id : ObjectId) (users : list user) : option user :=
  List.find (fun u => bool_decide (user_id u = id)) users.

(** [user.save()] of a new document: validation, the unique indexes of
    [_id], [email] and [voterID], then the insert. *)
Definition User_save `{UserModel} (u : user) (users : list user)
  : (exn + unit) * list user :=
  match User_validate u with
  | [] =>
      if existsb (fun x => bool_decide (user_id x = user_id u) ||
                           bool_decide (email x = email u) ||
                           bool_decide (voterID x = voterID u)) users
      then (inl duplicate_key, users)
      else (inr tt, (users ++ [u])%list)
  | paths => (inl (ValidationError paths), users)
  end.

(** [POST /register]; [newId] is the ObjectId of the new document, [now]
    the [Date.now] of its [createdAt]. *)
Definition register `{UserModel} (req : register_body) (newId : ObjectId)
    (now : Date) (users : list user) : auth_response * list user :=
  match User_findOne_email_or_voterID (reg_email req) (reg_voterID req) users with
  | Some _ =>
      ((400%Z, AuthMessage "User with this email or voter ID already exists"),
       users)
  | None =>
      let user :=
        {| user_id := newId;
           fullName := reg_fullName req;
           email := reg_email req;
           voterID := reg_voterID req;
           password := hashPassword (reg_password req);
           age := reg_age req;
           phone := None;
           user_role := default_role;
           isVerified := true;
           isActive := default_isActive;
           user_createdAt := now |} in
      match User_save user users with
      | (inl _, users') =>
          ((500%Z, AuthMessage "Server error during registration"), users')
      | (inr _, users') =>
          ((201%Z, AuthMessage
              "Registration successful! Please check your email to verify your account."),
           users')
      end
  end.

(** [POST /login] *)
Definition login `{UserModel} (voterID_ : voterID_value) (password_ : string)
    (users : list user) : auth_response :=
  match User_findOne_voterID voterID_ users with
  | None => (400%Z, AuthMessage "Invalid credentials")
  | Some user =>
      if negb (isActive user) then
        (403%Z, AuthMessage "Account has been deleted")
      else
        let isMatch := comparePassword user password_ in
        if negb isMatch then (400%Z, AuthMessage "Invalid credentials")
        else if negb (isVerified user) && production then
          (401%Z, AuthMessage "Please verify your email before logging in")
        else
          let token := jwt_sign (user_id user) (user_role user) (voterID user) in
          (200%Z, LoginJson token
             {| login_id := user_id user;
                login_fullName := fullName user;
                login_email := email user;
                login_voterID := voterID user;
                login_role := user_role user;
                login_isVerified := isVerified user;
                login_isActive := isActive user |})
  end.

(** The spec's InvalidCredentials. *)
Definition InvalidCredentials : auth_response :=
  (400%Z, AuthMessage "Invalid credentials").

(** ** routes/auth.js: the profile *)

Definition is_digit (c : ascii) : bool :=
  (48 <=? nat_of_ascii c)%nat && (nat_of_ascii c <=? 57)%nat.

(** [/^\+?[1-9]\d{9,14}$/.test(s)] *)
Definition phone_regex_test (s : string) : bool :=
  let l := String.list_ascii_of_string s in
  let l := match l with
           | c :: r => if bool_decide (c = "+"%char) then r else l
           | [] => l
           end in
  match l with
  | c :: r =>
      (49 <=? nat_of_ascii c)%nat && (nat_of_ascii c <=? 57)%nat &&
      forallb is_digit r && (9 <=? length r)%nat && (length r <=? 14)%nat
  | [] => false
  end.

(** [age && (age < 18 || age > 120)]: the number 0 is falsy. *)
Definition age_rejected (a : option Z) : bool :=
  match a with
  | Some n => negb (n =? 0)%Z && ((n <? 18)%Z || (n >? 120)%Z)
  | None => false
  end.

(** [phone && !regex.test(phone)] *)
Definition phone_rejected (p : option string) : bool :=
  match p with
  | Some s => negb (bool_decide (s = "")) && negb (phone_regex_test s)
  | None => false
  end.

(** [User.findOne({ $and: [{ _id: { $ne: id } },
                            { $or: [{ email }, { voterID }] }] })] *)
Definition User_findOne_other (id : ObjectId) (e v : string) (users : list user)
  : option user :=
  List.find (fun u => negb (bool_decide (user_id u = id)) &&
                      (bool_decide (email u = e) || bool_decide (voterID u = v)))
            users.

(** The [$set] applied to a document; a key that is [undefined] in the
    request is left out of the update. *)
Definition apply_profile (b : profile_body) (u : user) : user :=
  {| user_id := user_id u;
     fullName := profile_fullName b;
     email := profile_email b;
     voterID := profile_voterID b;
     password := password u;
     age := match profile_age b with Some a => Some a | None => age u end;
     phone := match profile_phone b with Some p => Some p | None => phone u end;
     user_role := user_role u;
     isVerified := isVerified u;
     isActive := isActive u;
     user_createdAt := user_createdAt u |}.

Fixpoint update_user (id : ObjectId) (f : user -> user) (l : list user)
  : list user :=
  match l with
  | [] => []
  | u :: l' =>
      if bool_decide (user_id u = id) then f u :: l'
      else u :: update_user id f l'
  end.

(** [User.findByIdAndUpdate(id, { $set }, { new: true, runValidators: true })]:
    the validators of the [$set], the unique indexes, then the write. *)
Definition User_findByIdAndUpdate_set `{UserModel} (id : ObjectId)
    (b : profile_body) (users : list user)
  : (exn + option user) * list user :=
  match User_validate_set b with
  | [] =>
      match User_findById id users with
      | None => (inr None, users)
      | Some u =>
          if existsb (fun x => negb (bool_decide (user_id x = id)) &&
                               (bool_decide (email x = profile_email b) ||
                                bool_decide (voterID x = profile_voterID b)))
                     users
          then (inl duplicate_key, users)
          else (inr (Some (apply_profile b u)),
                update_user id (apply_profile b) users)
      end
  | paths => (inl (ValidationError paths), users)
  end.

(** The [catch] block of [PUT /profile]. *)
Definition profile_catch (error : exn) : auth_response :=
  match error with
  | ValidationError paths => (400%Z, AuthValidation paths)
  | _ => (500%Z, AuthMessage "Server error during profile update")
  end.

(** [.select('-password')] *)
Definition without_password (u : user) : user :=
  {| user_id := user_id u; fullName := fullName u; email := email u;
     voterID := voterID u; password := ""; age := age u; phone := phone u;
     user_role := user_role u; isVerified := isVerified u;
     isActive := isActive u; user_createdAt := user_createdAt u |}.

(** [PUT /profile], after [authenticateToken]; [userId] is [req.user.id]. *)
Definition put_profile `{UserModel} (userId : ObjectId) (req : profile_body)
    (users : list user) : auth_response * list user :=
  if age_rejected (profile_age req) then
    ((400%Z, AuthMessage "Age must be between 18 and 120"), users)
  else if phone_rejected (profile_phone req) then
    ((400%Z, AuthMessage "Invalid phone number format"), users)
  else
    match User_findOne_other userId (profile_email req) (profile_voterID req)
                             users with
    | Some _ =>
        ((400%Z, AuthMessage
            "Email or Voter ID is already in use by another user"), users)
    | None =>
        match User_findByIdAndUpdate_set userId req users with
        | (inl error, users') => (profile_catch error, users')
        | (inr None, users') => ((404%Z, AuthMessage "User not found"), users')
        | (inr (Some user), users') =>
            ((200%Z, UserJson (without_password user)), users')
        end
    end.

(** ** routes/auth.js: deactivation *)

Definition set_isActive (b : bool) (u : user) : user :=
  {| user_id := user_id u; fullName := fullName u; email := email u;
     voterID := voterID u; password := password u; age := age u;
     phone := phone u; user_role := user_role u; isVerified := isVerified u;
     isActive := b; user_createdAt := user_createdAt u |}.

(** [POST /deactivate], after [authenticateToken]; [userId] is
    [req.user.id], the account of the caller, whatever its role.
    [User.findByIdAndUpdate(userId, { isActive: false }, { new: true })]. *)
Definition deactivate (userId : ObjectId) (users : list user)
  : auth_response * list user :=
  match User_findById userId users with
  | None => ((404%Z, AuthOutcome false "User not found"), users)
  | Some _ =>
      ((200%Z, AuthOutcome true "Account has been Deleted successfully"),
       update_user userId (set_isActive false) users)
  end.

(** [POST /voters/:id/deactivate], after [authenticateToken] and
    [isAdmin]. [voter.save()] validates the document before writing it. *)
Definition deactivate_voter `{UserModel} (voterId : ObjectId) (users : list user)
  : auth_response * list user :=
  match User_findById voterId users with
  | None => ((404%Z, AuthMessage "Voter not found"), users)
  | Some voter_ =>
      if bool_decide (user_role voter_ = admin) then
        ((403%Z, AuthMessage "Cannot delete admin accounts"), users)
      else
        let voter_ := set_isActive false voter_ in
        match User_validate voter_ with
        | [] =>
            ((200%Z, AuthMessage "Voter deleted successfully"),
             update_user voterId (fun _ => voter_) users)
        | _ => ((500%Z, AuthMessage "Server error during voter delete"), users)
        end
  end.

(** The spec's Forbidden of the deactivation of an admin. *)
Definition Forbidden : auth_response :=
  (403%Z, AuthMessage "Cannot delete admin accounts").

(** ** routes/elections.js: the vote of the caller *)

(** The body of [GET /:id/vote-status]. The embedding of a vote carries no
    [_id]: [voteId] is the vote found, which stands for its [_id]. *)
Record vote_status_json := {
  hasVoted : bool;
  voteId : option vote;
  status_candidateId : option ObjectId;
  candidateName : option string;
  candidateParty : option string
}.

Inductive vote_status_body :=
| StatusMessage (message : string)
| StatusJson (j : vote_status_json).

(** [GET /:id/vote-status], after [authenticateToken]; [userId] is
    [req.user.id]. *)
Definition get_vote_status `{Runtime} (electionId : string) (userId : ObjectId)
    (d : db) : (Z * vote_status_body) * db :=
  if negb (ObjectId_isValid electionId) then
    ((400%Z, StatusMessage "Invalid election ID format"), d)
  else
    match Election_findById electionId d with
    | None => ((404%Z, StatusMessage "Election not found"), d)
    | Some election =>
        let vote := Vote_findOne electionId userId d in
        let response :=
          {| hasVoted := bool_decide (is_Some vote);
             voteId := vote;
             status_candidateId := None;
             candidateName := None;
             candidateParty := None |} in
        let response :=
          match vote with
          | Some v =>
              match List.find (fun c => bool_decide
                                 (candidate_id c = vote_candidate v))
                              (candidates election) with
              | Some candidate =>
                  {| hasVoted := hasVoted response;
                     voteId := voteId response;
                     status_candidateId := Some (candidate_id candidate);
                     candidateName := Some (name candidate);
                     candidateParty := Some (party candidate) |}
              | None => response
              end
          | None => response
          end in
        ((200%Z, StatusJson response), d)
    end.

(** ** routes/auth.js: reading the profile and listing the voters *)

(** [GET /profile], after [authenticateToken]. *)
Definition get_profile (userId : ObjectId) (users : list user) : auth_response :=
  match User_findById userId users with
  | None => (404%Z, AuthMessage "User not found")
  | Some user => (200%Z, UserJson (without_password user))
  end.

(** The [age] condition of a query: none, [{ $gte, $lte }] or [{ $gte }].
    A document without age matches no condition on it. *)
Inductive age_condition :=
| AnyAge
| AgeBetween (lo hi : Z)
| AgeFrom (lo : Z).

Definition age_matches (q : age_condition) (u : user) : bool :=
  match q, age u with
  | AnyAge, _ => true
  | AgeBetween lo hi, Some a => (lo <=? a)%Z && (a <=? hi)%Z
  | AgeFrom lo, Some a => (lo <=? a)%Z
  | _, None => false
  end.

(** The query [{ role: 'voter', isActive: true, age }]. *)
Definition voter_query (q : age_condition) (u : user) : bool :=
  bool_decide (user_role u = voter) && isActive u && age_matches q u.

(** [.sort({ createdAt: -1 })]: latest first. *)
Fixpoint insert_by_created (u : user) (l : list user) : list user :=
  match l with
  | [] => [u]
  | x :: l' =>
      if (user_createdAt x <=? user_createdAt u)%Z then u :: x :: l'
      else x :: insert_by_created u l'
  end.

(** [User.find(query).select('-password').sort({ createdAt: -1 })] *)
Definition User_find_voters (q : age_condition) (users : list user) : list user :=
  foldr insert_by_created []
        (without_password <$> List.filter (voter_query q) users).

(** [User.countDocuments(query)] *)
Definition User_countDocuments (q : age_condition) (users : list user) : nat :=
  length (List.filter (voter_query q) users).

Record voters_stats := {
  stats_total : nat;
  age18To60 : nat;
  age61Plus : nat
}.

Record voters_json := {
  voters : list user;
  stats : voters_stats
}.

(** The [switch] on [req.query.ageRange], entered when it is truthy. *)
Definition age_range_condition (ageRange : option string) : age_condition :=
  match ageRange with
  | Some r =>
      if bool_decide (r = "") then AnyAge
      else if bool_decide (r = "18-60") then AgeBetween 18 60
      else if bool_decide (r = "61+") then AgeFrom 61
      else AnyAge
  | None => AnyAge
  end.

(** [GET /voters], after [authenticateToken] and [isAdmin]. *)
Definition get_voters (ageRange : option string) (users : list user)
  : Z * voters_json :=
  let query := age_range_condition ageRange in
  let voters := User_find_voters query users in
  let stats :=
    {| stats_total := User_countDocuments AnyAge users;
       age18To60 := User_countDocuments (AgeBetween 18 60) users;
       age61Plus := User_countDocuments (AgeFrom 61) users |} in
  (200%Z, {| voters := voters; stats := stats |}).

(** ** The client: components/CountdownTimer.jsx *)

Record time_left := {
  days : Z;
  hours : Z;
  minutes : Z;
  seconds : Z
}.

(** JavaScript's [x % y] on numbers: the remainder of the division that
    truncates towards zero. Numbers are read as exact rationals. *)
Definition Qtrunc (q : Q) : Z :=
  if Qle_bool 0 q then Qfloor q else Qceiling q.

Definition js_rem (x y : Q) : Q := (x - y * inject_Z (Qtrunc (x / y)))%Q.

(** [calculateTimeLeft]; [finish] is [new Date(endDate)] and [now] is
    [new Date()], both valid dates. *)
Definition calculateTimeLeft (finish now : Date) : time_left :=
  let difference := (finish - now)%Z in
  if (difference <=? 0)%Z then
    {| days := 0; hours := 0; minutes := 0; seconds := 0 |}
  else
    let diff := inject_Z difference in
    {| days := Qfloor (diff / (1000 * 60 * 60 * 24));
       hours := Qfloor (js_rem (diff / (1000 * 60 * 60)) 24);
       minutes := Qfloor (js_rem (diff / 1000 / 60) 60);
       seconds := Qfloor (js_rem (diff / 1000) 60) |}.

(** ** The client: services/api.ts and the route guards of App.tsx *)

(** [JSON.stringify] and [JSON.parse] on the user object of a login. A
    parse throws a SyntaxError or gives a value, [null] included. *)
Inductive parsed :=
| SyntaxError
| Value (u : option login_user).

Class JSON := {
  JSON_stringify : login_user -> string;
  JSON_parse : string -> parsed
}.

(** The request interceptor: the [Authorization] header it sets, if any. *)
Definition request_interceptor (localStorage : gmap string string)
  : option string :=
  match localStorage !! "token" with
  | Some token =>
      if bool_decide (token = "") then None else Some ("Bearer " +:+ token)
  | None => None
  end.

(** The response interceptor on a response that axios rejects: the
    storage it leaves, and whether it sends the browser to [/login]. *)
Definition response_error_interceptor (status : Z)
    (localStorage : gmap string string) : gmap string string * bool :=
  if (status =? 401)%Z then
    (delete "user" (delete "token" localStorage), true)
  else (localStorage, false).

(** [authService.login], given the response of [POST /auth/login]: axios
    resolves a 2xx response and rejects any other. *)
Definition authService_login `{JSON} (r : auth_response)
    (localStorage : gmap string string) : gmap string string :=
  if bool_decide (200 <= r.1 < 300)%Z then
    match r.2 with
    | LoginJson token user =>
        if bool_decide (token = "") then localStorage
        else <["user" := JSON_stringify user]> (<["token" := token]> localStorage)
    | _ => localStorage
    end
  else (response_error_interceptor r.1 localStorage).1.

(** [authService.logout] *)
Definition authService_logout (localStorage : gmap string string)
  : gmap string string :=
  delete "user" (delete "token" localStorage).

(** [authService.getCurrentUser] *)
Definition getCurrentUser `{JSON} (localStorage : gmap string string) : parsed :=
  match localStorage !! "user" with
  | Some user => if bool_decide (user = "") then Value None else JSON_parse user
  | None => Value None
  end.

Inductive guard := Threw | Redirect | Render.

(** [AdminRoute]: [!user || user.role !== 'admin'] redirects to [/login]. *)
Definition AdminRoute `{JSON} (localStorage : gmap string string) : guard :=
  match getCurrentUser localStorage with
  | SyntaxError => Threw
  | Value None => Redirect
  | Value (Some user) =>
      if negb (bool_decide (login_role user = admin)) then Redirect else Render
  end.

(** [ProtectedRoute]: [!user] redirects to [/login]. *)
Definition ProtectedRoute `{JSON} (localStorage : gmap string string) : guard :=
  match getCurrentUser localStorage with
  | SyntaxError => Threw
  | Value None => Redirect
  | Value (Some _) => Render
  end.

(** ** Concrete parameters, for the examples *)

Definition demo_runtime : Runtime :=
  {| ObjectId_isValid := fun s => (String.length s =? 24)%nat;
     ObjectId_cast := fun s =>
       if (String.length s =? 24)%nat then Some s else None;
     String_trim := fun s => s |}.

Definition demo_users : UserModel :=
  {| User_validate := fun u => if spec_age_rule (age u) then [] else ["age"];
     User_validate_set := fun b =>
       match profile_age b with
       | Some a => if spec_age_rule (Some a) then [] else ["age"]
       | None => []
       end;
     default_role := voter;
     default_isActive := true;
     hashPassword := fun s => "#" +:+ s;
     comparePassword := fun u s => bool_decide (password u = "#" +:+ s);
     jwt_sign := fun id _ v => id +:+ "." +:+ v;
     production := false |}.

(** The status that the spec derives from the time: upcoming if now is
    before the start; completed if now is after the end; else active. *)
Definition time_derived_status (now start finish : Z) : status :=
  if decide (now < start)%Z then upcoming
  else if decide (now > finish)%Z then completed
  else active.

(** A database for the examples: one election, open from 100 to 200. *)
Definition demo_election : election :=
  {| election_id := "eeeeeeeeeeeeeeeeeeeeeeee";
     title := "Mayor"; description := "Term 2025";
     startDate := 100; endDate := 200; stored_status := upcoming;
     candidates :=
       [ {| candidate_id := "aaaaaaaaaaaaaaaaaaaaaaaa";
            name := "A"; party := "P"; bio := "a" |};
         {| candidate_id := "bbbbbbbbbbbbbbbbbbbbbbbb";
            name := "B"; party := "Q"; bio := "b" |} ];
     createdBy := "000000000000000000000000"; createdAt := 0 |}.

Definition demo_db : db :=
  {| elections := [demo_election]; votes := []; journal := [] |}.

(** Two requests of one voter on the demo election, and a clock that
    reads 150, while the election is open. *)
Definition demo_vote_A : vote_request :=
  {| vote_electionId := "eeeeeeeeeeeeeeeeeeeeeeee";
     vote_candidateId := "aaaaaaaaaaaaaaaaaaaaaaaa";
     vote_userId := "111111111111111111111111" |}.

Definition demo_vote_B : vote_request :=
  {| vote_electionId := "eeeeeeeeeeeeeeeeeeeeeeee";
     vote_candidateId := "bbbbbbbbbbbbbbbbbbbbbbbb";
     vote_userId := "111111111111111111111111" |}.

Definition demo_clock : nat -> Date := fun _ => 150%Z.

(** The schedule of the race: both handlers pass [Vote.findOne] before
    either reaches [vote.save()]. *)
Definition race_schedule : list bool :=
  [false; true; false; true; false; true].

(** The collection holds a vote of the pair. *)
Definition has_vote (eid voter : ObjectId) (d : db) : Prop :=
  exists v, v ∈ votes d /\ vote_election v = eid /\ vote_voter v = voter.

(** The request was answered with the 201 of a recorded vote. *)
Definition vote_succeeded (t : vote_task) : Prop :=
  t = Responded (201%Z, Message "Vote recorded successfully").

(** What a suspended or answered task says of the database. *)
Definition task_consistent (req : vote_request) (t : vote_task) (d : db) : Prop :=
  match t with
  | AwaitSave v =>
      vote_election v = vote_electionId req /\ vote_voter v = vote_userId req
  | Responded r =>
      vote_succeeded (Responded r) ->
      has_vote (vote_electionId req) (vote_userId req) d
  | _ => True
  end.

(** Accounts for the examples: an admin, and a voter who has deactivated
    the account. Under [demo_users] the password of both is "secret". *)
Definition demo_admin : user :=
  {| user_id := "000000000000000000000000"; fullName := "Admin User";
     email := "admin@example.com"; voterID := "ADMIN001";
     password := "#secret"; age := Some 35%Z; phone := None;
     user_role := admin; isVerified := true; isActive := true;
     user_createdAt := 0 |}.

Definition demo_inactive : user :=
  {| user_id := "111111111111111111111111"; fullName := "John Doe";
     email := "john.doe@example.com"; voterID := "VOT123456";
     password := "#secret"; age := Some 25%Z; phone := None;
     user_role := voter; isVerified := true; isActive := false;
     user_createdAt := 0 |}.

(** A registration that is complete but for the age of 17. *)
Definition demo_underage : register_body :=
  {| reg_fullName := "Test User"; reg_email := "test@example.com";
     reg_voterID := "VOT654321"; reg_password := "password123";
     reg_age := Some 17%Z |}.

(** The claim on Login, as stated, at one input: the answer is
    InvalidCredentials when no account has the voter identifier, and when
    an account has it and the password does not match. *)
Definition login_uniform_at `{UserModel} (voterID_ : voterID_value)
    (password_ : string) (users : list user) : Prop :=
  (User_findOne_voterID voterID_ users = None ->
     login voterID_ password_ users = InvalidCredentials) /\
  (forall u, User_findOne_voterID voterID_ users = Some u ->
     comparePassword u password_ = false ->
     login voterID_ password_ users = InvalidCredentials).

(** The claim on Delete, as stated, at one answer: the answer carries a
    count for each of the two deletions, the votes and the election,
    under two keys. *)
Definition counts_of_each (r : response) : Prop :=
  exists fields kv ke (nv ne : nat),
    deleted_json r.2 = Some fields /\ kv <> ke /\
    (kv, JNumber nv) ∈ fields /\ (ke, JNumber ne) ∈ fields.

(** The invariant of the data model: an election has at least two
    candidates and ends after it starts. *)
Definition well_formed (e : election) : Prop :=
  2 <= length (candidates e) /\ (startDate e < endDate e)%Z.

Definition db_well_formed (d : db) : Prop := Forall well_formed (elections d).

(** The votes of a voter in an election, and the guarantee of the unique
    index: no pair has more than one. *)
Definition pair_votes (eid voter : ObjectId) (d : db) : list vote :=
  List.filter (fun w => bool_decide (vote_election w = eid) &&
                        bool_decide (vote_voter w = voter)) (votes d).

Definition unique_votes (d : db) : Prop :=
  forall eid voter, length (pair_votes eid voter d) <= 1.

(** The vote that a request stores. *)
Definition vote_of (req : vote_request) (clock : nat -> Date) : vote :=
  {| vote_election := vote_electionId req;
     vote_voter := vote_userId req;
     vote_candidate := vote_candidateId req;
     timestamp := clock 1%nat |}.

(** The demo database once the voter of [demo_vote_A] has voted. *)
Definition demo_db_voted : db :=
  {| elections := [demo_election];
     votes := [vote_of demo_vote_A demo_clock];
     journal := [InsertVote (vote_of demo_vote_A demo_clock)] |}.

(** The demo database with two votes, one for each candidate. *)
Definition demo_db_two_votes : db :=
  {| elections := [demo_election];
     votes := [ vote_of demo_vote_A demo_clock;
                {| vote_election := "eeeeeeeeeeeeeeeeeeeeeeee";
                   vote_voter := "222222222222222222222222";
                   vote_candidate := "bbbbbbbbbbbbbbbbbbbbbbbb";
                   timestamp := 160 |} ];
     journal := [] |}.

(** The demo database with three votes on the demo election, two for the
    first candidate and one for the second, and a vote on another
    election. *)
Definition demo_db_three_votes : db :=
  {| elections := [demo_election];
     votes := [ vote_of demo_vote_A demo_clock;
                {| vote_election := "eeeeeeeeeeeeeeeeeeeeeeee";
                   vote_voter := "222222222222222222222222";
                   vote_candidate := "bbbbbbbbbbbbbbbbbbbbbbbb";
                   timestamp := 160 |};
                {| vote_election := "ffffffffffffffffffffffff";
                   vote_voter := "222222222222222222222222";
                   vote_candidate := "aaaaaaaaaaaaaaaaaaaaaaaa";
                   timestamp := 165 |};
                {| vote_election := "eeeeeeeeeeeeeeeeeeeeeeee";
                   vote_voter := "333333333333333333333333";
                   vote_candidate := "aaaaaaaaaaaaaaaaaaaaaaaa";
                   timestamp := 170 |} ];
     journal := [] |}.

(** No two elections of the collection have the same [_id]. *)
Definition unique_ids (d : db) : Prop := NoDup (election_id <$> elections d).

(** A complete request to create an election, open from 300 to 400. *)
Definition demo_create : election_body :=
  {| body_title := Some "Council"; body_description := Some "Term 2026";
     body_startDate := DateString 300; body_endDate := DateString 400;
     body_candidates :=
       CandidatesArray
         [ {| in_id := None; in_name := Some "C"; in_party := Some "P";
              in_bio := Some "c" |};
           {| in_id := None; in_name := Some "D"; in_party := Some "Q";
              in_bio := Some "d" |} ] |}.

Definition demo_newId (i : nat) : ObjectId :=
  match i with
  | 0 => "cccccccccccccccccccccccc"
  | 1 => "c1c1c1c1c1c1c1c1c1c1c1c1"
  | _ => "c2c2c2c2c2c2c2c2c2c2c2c2"
  end.

(** What a user is shown of an account after a login. *)
Definition public_user (u : user) : login_user :=
  {| login_id := user_id u; login_fullName := fullName u;
     login_email := email u; login_voterID := voterID u;
     login_role := user_role u; login_isVerified := isVerified u;
     login_isActive := isActive u |}.

(** The keys of the user collection are distinct: [_id], [email] and
    [voterID]. *)
Definition users_unique (users : list user) : Prop :=
  NoDup (user_id <$> users) /\ NoDup (email <$> users) /\
  NoDup (voterID <$> users).

(** A JSON for the examples, which knows one text: the one of the demo
    admin. *)
Definition demo_json : JSON :=
  {| JSON_stringify := fun u => login_voterID u;
     JSON_parse := fun s =>
       if bool_decide (s = "ADMIN001") then Value (Some (public_user demo_admin))
       else SyntaxError |}.

(** An active voter for the examples; under [demo_users] the password is
    "secret". *)
Definition demo_voter : user :=
  {| user_id := "222222222222222222222222"; fullName := "Jane Smith";
     email := "jane.smith@example.com"; voterID := "VOT654321";
     password := "#secret"; age := Some 45%Z; phone := None;
     user_role := voter; isVerified := true; isActive := true;
     user_createdAt := 10 |}.

(** Elections in the order of the list: latest start first. *)
Definition starts_later (a b : election_summary) : Prop :=
  (sum_startDate b <= sum_startDate a)%Z.

(** The number of votes that name a candidate, counted on the votes. *)
Definition votes_for (vs : list vote) (c : candidate) : nat :=
  length (List.filter (fun v => bool_decide (vote_candidate v = candidate_id c)) vs).

(** The greatest number of votes over the candidates of an election;
    [None] when it has no candidate. *)
Definition max_votes (e : election) (vs : list vote) : option nat :=
  Math_max (votes_for vs <$> candidates e).

(** The rows of the results before they are sorted: one for each
    candidate, in the order of the election's list. *)
Definition candidate_rows (e : election) (vs : list vote) : list result_row :=
  result_of (build_voteMap vs) (length vs) <$> candidates e.

(** Rows in descending order of votes. *)
Definition more_votes (a b : result_row) : Prop :=
  row_votes b <= row_votes a.

(** * Properties *)

(** ** The effective status *)

Lemma gtb_ltb (a b : Z) : (a >? b)%Z = (b <? a)%Z.
Proof. apply Z.gtb_ltb. Qed.

Lemma geb_leb (a b : Z) : (a >=? b)%Z = (b <=? a)%Z.
Proof. apply Z.geb_leb. Qed.

Ltac dates :=
  repeat rewrite gtb_ltb in *; repeat rewrite geb_leb in *;
  repeat match goal with
         | |- context [(?a <? ?b)%Z] => destruct (Z.ltb_spec a b)
         | |- context [(?a <=? ?b)%Z] => destruct (Z.leb_spec a b)
         | H : context [(?a <? ?b)%Z] |- _ => destruct (Z.ltb_spec a b)
         | H : context [(?a <=? ?b)%Z] |- _ => destruct (Z.leb_spec a b)
         end;
  simpl in *; try lia; try done.

Lemma currentStatus_time_derived now e :
  currentStatus now e = time_derived_status now (startDate e) (endDate e).
Proof.
  unfold currentStatus, time_derived_status.
  repeat case_decide; dates.
Qed.

Lemma currentStatus_ignores_stored now e s :
  currentStatus now (with_status e s) = currentStatus now e.
Proof. reflexivity. Qed.

Lemma insert_by_start_perm e l : insert_by_start e l ≡ₚ e :: l.
Proof.
  induction l as [|x l IH]; simpl; [done|].
  destruct (startDate x <=? startDate e)%Z; [done|].
  rewrite IH. apply Permutation_swap.
Qed.

Lemma Election_find_sorted_perm d : Election_find_sorted d ≡ₚ elections d.
Proof.
  unfold Election_find_sorted.
  induction (elections d) as [|e l IH]; simpl; [done|].
  rewrite insert_by_start_perm. by rewrite IH.
Qed.

(** An election is found by its identifier when the identifiers of the
    collection are distinct. *)
Lemma find_by_id_unique (l : list election) (e : election) :
  NoDup (election_id <$> l) -> e ∈ l ->
  List.find (fun x => bool_decide (election_id x = election_id e)) l = Some e.
Proof.
  induction l as [|x l IH]; intros Hnd Hin; [by apply elem_of_nil in Hin|].
  apply NoDup_cons in Hnd as [Hx Hnd]. simpl.
  apply elem_of_cons in Hin as [->|Hin].
  - by rewrite bool_decide_eq_true_2.
  - rewrite bool_decide_eq_false_2; [by apply IH|].
    intros Heq. apply Hx. rewrite Heq. by apply list_elem_of_fmap_2.
Qed.

Lemma Election_findById_unique (d : db) (e : election) :
  unique_ids d -> e ∈ elections d ->
  Election_findById (election_id e) d = Some e.
Proof. apply find_by_id_unique. Qed.

(** C2. The status that List and Get by id return for an election is the
    function of the time of the read and of the election's two dates:
    upcoming before the start, completed after the end, active otherwise.
    List answers with every election of the store, each with its own
    fields and, as status, the one derived from the clock reading made for
    it; Get by id answers with the stored election of that identifier,
    its status replaced by the one derived from the clock reading. The
    stored status appears in neither answer. *)
Theorem status_recomputed_on_read `{Runtime} (d : db) (clock : nat -> Date)
    (now : Date) (e : election) :
  ObjectId_isValid (election_id e) = true ->
  unique_ids d ->
  e ∈ elections d ->
  (exists listed,
      listed ≡ₚ elections d /\
      get_elections clock d =
        ((200%Z, ElectionList
            (imap (fun i x =>
                     {| sum_id := election_id x;
                        sum_title := title x;
                        sum_description := description x;
                        sum_startDate := startDate x;
                        sum_endDate := endDate x;
                        sum_status :=
                          time_derived_status (clock i) (startDate x)
                                              (endDate x);
                        sum_candidates := candidates x |}) listed)), d)) /\
  get_election (election_id e) now d =
    ((200%Z, ElectionJson
        {| election_id := election_id e;
           title := title e;
           description := description e;
           startDate := startDate e;
           endDate := endDate e;
           stored_status :=
             time_derived_status now (startDate e) (endDate e);
           candidates := candidates e;
           createdBy := createdBy e;
           createdAt := createdAt e |}), d).
Proof.
  intros Hvalid Hnd Hin. split.
  - exists (Election_find_sorted d). split; [apply Election_find_sorted_perm|].
    unfold get_elections. do 3 f_equal.
    apply imap_ext. intros i x _. simpl.
    by rewrite <- currentStatus_time_derived.
  - unfold get_election.
    rewrite Hvalid, (Election_findById_unique d e Hnd Hin). simpl.
    by rewrite <- currentStatus_time_derived.
Qed.

Lemma status_recomputed_on_read_witness :
  get_election (H:=demo_runtime) "eeeeeeeeeeeeeeeeeeeeeeee" 250 demo_db =
    ((200%Z, ElectionJson
        {| election_id := "eeeeeeeeeeeeeeeeeeeeeeee";
           title := "Mayor"; description := "Term 2025";
           startDate := 100; endDate := 200; stored_status := completed;
           candidates := candidates demo_election;
           createdBy := "000000000000000000000000"; createdAt := 0 |}),
     demo_db).
Proof.
  apply (status_recomputed_on_read (H:=demo_runtime) demo_db (fun _ => 250%Z)
           250 demo_election).
  - reflexivity.
  - apply NoDup_singleton.
  - apply elem_of_cons. by left.
Defined.

(** ** The tally *)

Section Tally.

Lemma count_vote_lookup m v k :
  default 0 (count_vote m v !! k) =
  default 0 (m !! k) + (if bool_decide (vote_candidate v = k) then 1 else 0).
Proof.
  unfold count_vote. rewrite lookup_insert.
  case_decide as Hk; case_bool_decide; try congruence; subst; simpl; lia.
Qed.

Lemma foldl_count_vote vs : forall m k,
  default 0 (foldl count_vote m vs !! k) =
  default 0 (m !! k) +
  length (List.filter (fun v => bool_decide (vote_candidate v = k)) vs).
Proof.
  induction vs as [|v vs IH]; intros m k; simpl; [lia|].
  rewrite IH, count_vote_lookup.
  case_bool_decide; simpl; lia.
Qed.

Lemma build_voteMap_votes_for vs c :
  default 0 (build_voteMap vs !! candidate_id c) = votes_for vs c.
Proof.
  unfold build_voteMap, votes_for.
  rewrite foldl_count_vote, lookup_empty. reflexivity.
Qed.

Lemma row_votes_result_of vs n c :
  row_votes (result_of (build_voteMap vs) n c) = votes_for vs c.
Proof. simpl. apply build_voteMap_votes_for. Qed.

Lemma row_candidate_result_of m n c : row_candidate (result_of m n c) = c.
Proof. reflexivity. Qed.

(** *** The sort *)

Lemma by_votes_desc_le a b :
  (by_votes_desc a b <=? 0)%Z = true <-> more_votes a b.
Proof. unfold by_votes_desc, more_votes. rewrite Z.leb_le. lia. Qed.

Lemma sort_insert_perm a l : sort_insert a l ≡ₚ a :: l.
Proof.
  induction l as [|b l IH]; simpl; [done|].
  destruct (by_votes_desc a b <=? 0)%Z; [done|].
  rewrite IH. apply Permutation_swap.
Qed.

Lemma Array_sort_perm l : Array_sort l ≡ₚ l.
Proof.
  induction l as [|a l IH]; simpl; [done|].
  rewrite sort_insert_perm. by rewrite IH.
Qed.

Lemma sort_insert_sorted a l :
  StronglySorted more_votes l -> StronglySorted more_votes (sort_insert a l).
Proof.
  induction 1 as [|b l Hl IH Hb]; simpl.
  - repeat constructor.
  - destruct (by_votes_desc a b <=? 0)%Z eqn:Hab.
    + apply by_votes_desc_le in Hab.
      constructor; [by constructor|].
      constructor; [done|].
      eapply Forall_impl; [exact Hb|].
      unfold more_votes in *. intros x Hx. lia.
    + assert (row_votes a < row_votes b) as Hlt.
      { destruct (decide (row_votes b <= row_votes a)) as [Hle|]; [|lia].
        apply by_votes_desc_le in Hle. congruence. }
      constructor; [done|].
      rewrite sort_insert_perm. constructor; [|done].
      unfold more_votes. lia.
Qed.

Lemma Array_sort_sorted l : StronglySorted more_votes (Array_sort l).
Proof.
  induction l as [|a l IH]; simpl; [constructor|].
  by apply sort_insert_sorted.
Qed.

(** The sort is stable: it leaves a list that is in order as it is. *)
Lemma Array_sort_id l : StronglySorted more_votes l -> Array_sort l = l.
Proof.
  induction 1 as [|a l Hl IH Ha]; simpl; [done|].
  rewrite IH. destruct l as [|b l]; simpl; [done|].
  apply Forall_cons in Ha as [Hab _].
  apply by_votes_desc_le in Hab. by rewrite Hab.
Qed.

(** *** The maximum *)

Lemma Math_max_None l : Math_max l = None <-> l = [].
Proof.
  destruct l as [|x l]; simpl; [done|].
  destruct (Math_max l); split; discriminate.
Qed.

Lemma Math_max_Some l m :
  Math_max l = Some m <-> m ∈ l /\ Forall (fun x => x <= m) l.
Proof.
  revert m. induction l as [|x l IH]; intros m; simpl.
  - split; [discriminate|]. intros [Hin _]. by apply elem_of_nil in Hin.
  - destruct (Math_max l) as [m'|] eqn:Hmax.
    + destruct (IH m') as [IH1 _]. destruct (IH1 eq_refl) as [Hin Hall].
      split.
      * intros [= <-]. split.
        -- destruct (Nat.max_spec x m') as [[_ ->]|[_ ->]];
             [by right | by left].
        -- constructor; [lia|].
           eapply Forall_impl; [exact Hall|]. intros y Hy. simpl in Hy. lia.
      * intros [Hm Hall']. apply Forall_cons in Hall' as [Hx Hall'].
        f_equal. rewrite Forall_forall in Hall'.
        specialize (Hall' m' Hin).
        apply elem_of_cons in Hm as [->|Hm].
        -- lia.
        -- rewrite Forall_forall in Hall. specialize (Hall m Hm). lia.
    + apply Math_max_None in Hmax as ->.
      split.
      * intros [= <-]. split; [by left|]. by repeat constructor.
      * intros [Hm _]. apply elem_of_cons in Hm as [->|Hm]; [done|].
        by apply elem_of_nil in Hm.
Qed.

Lemma Math_max_perm l l' : l ≡ₚ l' -> Math_max l = Math_max l'.
Proof.
  intros Hp. destruct (Math_max l) as [m|] eqn:Hl.
  - symmetry. apply Math_max_Some. apply Math_max_Some in Hl.
    by rewrite <- Hp.
  - symmetry. apply Math_max_None. apply Math_max_None in Hl. subst.
    by apply Permutation_nil in Hp.
Qed.

(** *** Filters *)

Lemma filter_perm {A} (f : A -> bool) l l' :
  l ≡ₚ l' -> List.filter f l ≡ₚ List.filter f l'.
Proof.
  induction 1 as [|x l l' _ IH|x y l|l l' l'' _ IH1 _ IH2]; simpl.
  - done.
  - destruct (f x); [by constructor | done].
  - destruct (f x), (f y); try done. apply Permutation_swap.
  - by rewrite IH1.
Qed.

Lemma filter_fmap {A B} (f : A -> B) (p : B -> bool) l :
  List.filter p (f <$> l) = f <$> List.filter (fun x => p (f x)) l.
Proof.
  induction l as [|x l IH]; [done|].
  change (f <$> x :: l) with (f x :: (f <$> l)). simpl.
  destruct (p (f x)); rewrite IH; reflexivity.
Qed.

Lemma filter_all {A} (f : A -> bool) l :
  (forall x, x ∈ l -> f x = true) -> List.filter f l = l.
Proof.
  induction l as [|x l IH]; intros Hall; simpl; [done|].
  rewrite (Hall x) by (by left).
  f_equal. apply IH. intros y Hy. apply Hall. by right.
Qed.

End Tally.

Section TallyResults.

Context (e : election) (vs : list vote) (t : Date).

Lemma tally_results : results (tally e vs t) = Array_sort (candidate_rows e vs).
Proof. reflexivity. Qed.

Lemma tally_results_perm : results (tally e vs t) ≡ₚ candidate_rows e vs.
Proof. rewrite tally_results. apply Array_sort_perm. Qed.

Lemma candidate_rows_votes :
  row_votes <$> candidate_rows e vs = votes_for vs <$> candidates e.
Proof.
  unfold candidate_rows. rewrite <- list_fmap_compose.
  apply list_fmap_ext. intros i c _. apply row_votes_result_of.
Qed.

Lemma candidate_rows_candidates :
  row_candidate <$> candidate_rows e vs = candidates e.
Proof.
  unfold candidate_rows. rewrite <- list_fmap_compose.
  rewrite <- (list_fmap_id (candidates e)) at 2.
  apply list_fmap_ext. intros i c _. reflexivity.
Qed.

Lemma tally_maxVotes :
  Math_max (row_votes <$> results (tally e vs t)) = max_votes e vs.
Proof.
  unfold max_votes. rewrite <- candidate_rows_votes.
  apply Math_max_perm. by rewrite tally_results_perm.
Qed.

Lemma tally_winners :
  winners (tally e vs t) =
  row_candidate <$>
    List.filter (fun r => bool_decide (Some (row_votes r) = max_votes e vs))
                (results (tally e vs t)).
Proof.
  rewrite <- tally_maxVotes. reflexivity.
Qed.

Lemma tally_winners_perm :
  winners (tally e vs t) ≡ₚ
  List.filter (fun c => bool_decide (Some (votes_for vs c) = max_votes e vs))
              (candidates e).
Proof.
  rewrite tally_winners.
  rewrite (filter_perm _ _ _ tally_results_perm).
  unfold candidate_rows. rewrite filter_fmap, <- list_fmap_compose.
  erewrite List.filter_ext.
  - erewrite list_fmap_ext; [by rewrite list_fmap_id|].
    intros i c _. reflexivity.
  - intros c. simpl. by rewrite build_voteMap_votes_for.
Qed.

Lemma elem_of_winners c :
  c ∈ winners (tally e vs t) <->
  c ∈ candidates e /\
  forall c', c' ∈ candidates e -> votes_for vs c' <= votes_for vs c.
Proof.
  rewrite tally_winners_perm, list_elem_of_In, filter_In, <- list_elem_of_In.
  rewrite bool_decide_eq_true. unfold max_votes.
  split; intros [Hc Hmax]; (split; [done|]).
  - symmetry in Hmax. apply Math_max_Some in Hmax as [_ Hall].
    intros c' Hc'. rewrite Forall_forall in Hall.
    apply Hall. apply list_elem_of_fmap. by exists c'.
  - symmetry. apply Math_max_Some. split.
    + apply list_elem_of_fmap. by exists c.
    + apply Forall_forall. intros n Hn.
      apply list_elem_of_fmap in Hn as (c' & -> & Hc'). by apply Hmax.
Qed.

Lemma tally_isTie :
  isTie (tally e vs t) = true <-> 1 < length (winners (tally e vs t)).
Proof. simpl. apply Nat.ltb_lt. Qed.

(** Without votes the rows keep the order of the candidates and every
    candidate is a winner. *)
Lemma tally_no_votes :
  totalVotes (tally e vs t) = 0 -> winners (tally e vs t) = candidates e.
Proof.
  simpl. intros Hlen. apply length_zero_iff_nil in Hlen.
  assert (forall c, votes_for vs c = 0) as Hzero.
  { intros c. unfold votes_for. by rewrite Hlen. }
  assert (Forall (fun r => row_votes r = 0) (candidate_rows e vs)) as Hrows.
  { apply Forall_forall. intros r Hr. unfold candidate_rows in Hr.
    apply list_elem_of_fmap in Hr as (c & -> & _).
    rewrite row_votes_result_of. apply Hzero. }
  assert (StronglySorted more_votes (candidate_rows e vs)) as Hsorted.
  { induction Hrows as [|r l Hr Hl IH]; constructor; [done|].
    eapply Forall_impl; [exact Hl|]. unfold more_votes. intros x Hx. lia. }
  fold (candidate_rows e vs).
  rewrite (Array_sort_id _ Hsorted).
  rewrite filter_all; [apply candidate_rows_candidates|].
  intros r Hr. apply bool_decide_eq_true. symmetry.
  apply Math_max_Some. rewrite Forall_forall in Hrows. split.
  - apply list_elem_of_fmap. by exists r.
  - apply Forall_forall. intros n Hn.
    apply list_elem_of_fmap in Hn as (r' & -> & Hr').
    rewrite (Hrows r Hr), (Hrows r' Hr'). lia.
Qed.

End TallyResults.

Lemma get_results_completed `{Runtime} (electionId : string)
    (clock : nat -> Date) (d : db) (e : election) :
  ObjectId_isValid electionId = true ->
  Election_findById electionId d = Some e ->
  (endDate e < clock 0%nat)%Z ->
  get_results electionId clock d =
    ((200%Z, ResultsJson (tally e (Vote_find electionId d) (clock 1))), d).
Proof.
  intros Hvalid Hfound Hend. unfold get_results.
  rewrite Hvalid, Hfound. simpl.
  rewrite gtb_ltb. by destruct (Z.ltb_spec (endDate e) (clock 0%nat)); [|lia].
Qed.

(** C3. In the results of a completed election the winners are exactly
    the candidates whose number of votes is the greatest over the
    candidates of the election, each as often as the election lists it;
    isTie is true if and only if there is more than one winner; and when no
    vote was cast every candidate is a winner and, an election having at
    least two candidates, isTie is true. *)
Theorem winners_are_the_maxima `{Runtime} (electionId : string)
    (clock : nat -> Date) (d : db) (e : election) :
  ObjectId_isValid electionId = true ->
  Election_findById electionId d = Some e ->
  (endDate e < clock 0%nat)%Z ->
  2 <= length (candidates e) ->
  exists r,
    get_results electionId clock d = ((200%Z, ResultsJson r), d) /\
    (forall c, c ∈ winners r <->
       c ∈ candidates e /\
       forall c', c' ∈ candidates e ->
         votes_for (Vote_find electionId d) c' <=
         votes_for (Vote_find electionId d) c) /\
    winners r ≡ₚ
      List.filter (fun c => bool_decide
                     (Some (votes_for (Vote_find electionId d) c) =
                      max_votes e (Vote_find electionId d)))
                  (candidates e) /\
    (isTie r = true <-> 1 < length (winners r)) /\
    (totalVotes r = 0 -> winners r = candidates e /\ isTie r = true).
Proof.
  intros Hvalid Hfound Hend Htwo.
  eexists. split; [by apply get_results_completed|].
  split; [apply elem_of_winners|].
  split; [apply tally_winners_perm|].
  split; [apply tally_isTie|].
  intros Hzero. pose proof (tally_no_votes _ _ _ Hzero) as Hw.
  split; [done|]. apply tally_isTie. rewrite Hw. lia.
Qed.

Lemma winners_are_the_maxima_witness :
  exists r,
    get_results (H:=demo_runtime) "eeeeeeeeeeeeeeeeeeeeeeee" (fun _ => 250%Z)
                demo_db = ((200%Z, ResultsJson r), demo_db) /\
    winners r = candidates demo_election /\ isTie r = true.
Proof.
  destruct (winners_are_the_maxima (H:=demo_runtime) "eeeeeeeeeeeeeeeeeeeeeeee"
              (fun _ => 250%Z) demo_db demo_election)
    as (r & Hr & _ & _ & _ & Hzero).
  - reflexivity.
  - reflexivity.
  - simpl. lia.
  - simpl. lia.
  - exists r. split; [exact Hr|]. apply Hzero.
    injection Hr as <-. reflexivity.
Defined.

(** C4. The results of a completed election hold one row for every
    candidate of the election's list, a candidate without votes included;
    totalVotes is the number of the votes of the election; the row of a
    candidate carries the number of those votes that name it and, as
    percentage, that number divided by totalVotes and multiplied by 100,
    in the arithmetic of JavaScript's numbers, when totalVotes is
    positive, and 0 when totalVotes is 0; the rows are in descending
    order of votes. *)
Theorem result_rows `{Runtime} (electionId : string) (clock : nat -> Date)
    (d : db) (e : election) :
  ObjectId_isValid electionId = true ->
  Election_findById electionId d = Some e ->
  (endDate e < clock 0%nat)%Z ->
  exists r,
    get_results electionId clock d = ((200%Z, ResultsJson r), d) /\
    totalVotes r =
      length (List.filter (fun v => bool_decide (vote_election v = electionId))
                          (votes d)) /\
    row_candidate <$> results r ≡ₚ candidates e /\
    (forall row, row ∈ results r ->
       row_votes row =
         votes_for
           (List.filter (fun v => bool_decide (vote_election v = electionId))
                        (votes d))
           (row_candidate row) /\
       (0 < totalVotes r ->
        percentage row =
          (PrimFloat.of_uint63 (Uint63.of_Z (Z.of_nat (row_votes row))) /
           PrimFloat.of_uint63 (Uint63.of_Z (Z.of_nat (totalVotes r))) *
           100)%float) /\
       (totalVotes r = 0 -> percentage row = 0%float)) /\
    StronglySorted more_votes (results r).
Proof.
  intros Hvalid Hfound Hend.
  eexists. split; [by apply get_results_completed|].
  split; [reflexivity|].
  split.
  { rewrite tally_results_perm. by rewrite candidate_rows_candidates. }
  split; [|rewrite tally_results; apply Array_sort_sorted].
  intros row Hrow. rewrite tally_results_perm in Hrow.
  apply list_elem_of_fmap in Hrow as (c & -> & Hc).
  split; [apply row_votes_result_of|].
  cbn [totalVotes tally percentage result_of row_votes].
  split.
  - intros Hpos. apply Nat.ltb_lt in Hpos. by rewrite Hpos.
  - intros ->. reflexivity.
Qed.

(** Two votes of three: the percentage served is the binary64 that
    JavaScript prints as 66.66666666666666, and one of three is served
    as 33.33333333333333. *)
Lemma result_rows_witness :
  exists r a b,
    get_results (H:=demo_runtime) "eeeeeeeeeeeeeeeeeeeeeeee" (fun _ => 250%Z)
                demo_db_three_votes =
      ((200%Z, ResultsJson r), demo_db_three_votes) /\
    totalVotes r = 3 /\
    results r = [a; b] /\
    name (row_candidate a) = "A" /\ row_votes a = 2 /\
    percentage a = 0x1.0aaaaaaaaaaaap+6%float /\
    name (row_candidate b) = "B" /\ row_votes b = 1 /\
    percentage b = 0x1.0aaaaaaaaaaaap+5%float.
Proof.
  destruct (result_rows (H:=demo_runtime) "eeeeeeeeeeeeeeeeeeeeeeee"
              (fun _ => 250%Z) demo_db_three_votes demo_election)
    as (r & Hr & Htotal & _ & Hrows & _).
  - reflexivity.
  - reflexivity.
  - simpl. lia.
  - injection Hr as <-.
    destruct (results (tally demo_election
                (Vote_find "eeeeeeeeeeeeeeeeeeeeeeee" demo_db_three_votes) 250))
      as [|a [|b [|c l]]] eqn:Hres; try discriminate Hres.
    destruct (Hrows a) as (Hva & Hpa & _); [left|].
    destruct (Hrows b) as (Hvb & Hpb & _); [right; left|].
    injection Hres as <- <-.
    exists (tally demo_election
              (Vote_find "eeeeeeeeeeeeeeeeeeeeeeee" demo_db_three_votes) 250).
    eexists _, _.
    split; [reflexivity|]. split; [exact Htotal|].
    split; [reflexivity|].
    split; [reflexivity|]. split; [exact Hva|].
    split; [apply Hpa; simpl; lia|].
    split; [reflexivity|]. split; [exact Hvb|].
    apply Hpb. simpl. lia.
Defined.

(** The percentage is rounded at the division and at the product: 29
    votes of 100 are served as 28.999999999999996, below 29. *)
Lemma percentage_is_rounded (c : candidate) :
  percentage (result_of {[ candidate_id c := 29%nat ]} 100%nat c) =
    0x1.cffffffffffffp+4%float /\
  (percentage (result_of {[ candidate_id c := 29%nat ]} 100%nat c) <? 29)%float = true.
Proof.
  unfold result_of. rewrite lookup_singleton_eq. simpl. split; reflexivity.
Qed.

(** ** Deleting and updating an election *)

Lemma Election_findById_id id d e :
  Election_findById id d = Some e -> election_id e = id.
Proof.
  unfold Election_findById. intros Hf. apply find_some in Hf as [_ Hf].
  by apply bool_decide_eq_true in Hf.
Qed.

Lemma currentStatus_upcoming now e :
  currentStatus now e = upcoming <-> (now < startDate e)%Z.
Proof.
  unfold currentStatus. rewrite gtb_ltb.
  destruct (Z.ltb_spec now (startDate e)), (Z.ltb_spec (endDate e) now);
    split; intros; try done; lia.
Qed.

Lemma length_remove_election id l e :
  List.find (fun x => bool_decide (election_id x = id)) l = Some e ->
  S (length (remove_election id l)) = length l.
Proof.
  induction l as [|x l IH]; simpl; [discriminate|].
  case_bool_decide; [done|]. intros Hf. simpl. by rewrite IH.
Qed.

Lemma filter_filter_negb {A} (f : A -> bool) l :
  List.filter f (List.filter (fun x => negb (f x)) l) = [].
Proof.
  induction l as [|x l IH]; simpl; [done|].
  destruct (f x) eqn:Hx; simpl; [done|]. by rewrite Hx.
Qed.

Lemma filter_other_election (id id' : ObjectId) (l : list vote) :
  id' <> id ->
  List.filter (fun v => bool_decide (vote_election v = id'))
    (List.filter (fun v => negb (bool_decide (vote_election v = id))) l) =
  List.filter (fun v => bool_decide (vote_election v = id')) l.
Proof.
  intros Hne. induction l as [|v l IH]; simpl; [done|].
  repeat (case_bool_decide; simpl); subst; try congruence; by rewrite IH.
Qed.

(** [findByIdAndDelete] takes the election found out of the collection
    and leaves the others in place. *)
Lemma remove_election_in_place (id : ObjectId) (l : list election)
    (e : election) :
  List.find (fun x => bool_decide (election_id x = id)) l = Some e ->
  exists before after,
    l = (before ++ e :: after)%list /\
    remove_election id l = (before ++ after)%list.
Proof.
  induction l as [|x l IH]; simpl; [discriminate|].
  case_bool_decide as Hx.
  - intros [= ->]. by exists [], l.
  - intros Hf. destruct (IH Hf) as (before & after & -> & ->).
    by exists (x :: before), after.
Qed.

(** The outcomes of [DELETE /:id]: nothing is written and the answer is
    not a success; or the votes are deleted, the second deletion throws
    and the answer is 500; or both deletions are made and the answer is
    200. *)
Lemma delete_election_cases `{Runtime} (electionId : string) (now : Date)
    (thrown : nat -> option exn) (d : db) :
  let votes_left :=
    List.filter (fun v => negb (bool_decide (vote_election v = electionId)))
                (votes d) in
  let deletedCount :=
    length (List.filter (fun v => bool_decide (vote_election v = electionId))
                        (votes d)) in
  ((delete_election electionId now thrown d).2 = d /\
   is_success (delete_election electionId now thrown d).1 = false) \/
  exists e,
    Election_findById electionId d = Some e /\
    (now < startDate e)%Z /\ (now <= endDate e)%Z /\
    thrown 0%nat = None /\ thrown 1%nat = None /\
    ((exists error,
        thrown 2%nat = Some error /\
        delete_election electionId now thrown d =
          ((500%Z, ServerError "Server error deleting election"),
           {| elections := elections d;
              votes := votes_left;
              journal := journal d ++
                         [DeleteManyVotes electionId deletedCount] |})) \/
     (thrown 2%nat = None /\
      delete_election electionId now thrown d =
        ((200%Z, DeletedJson "Election deleted successfully" electionId
                   deletedCount),
         {| elections := remove_election electionId (elections d);
            votes := votes_left;
            journal := journal d ++
                       [DeleteManyVotes electionId deletedCount;
                        DeleteElection electionId] |}))).
Proof.
  intros votes_left deletedCount. unfold delete_election.
  destruct (ObjectId_isValid electionId); simpl; [|by left].
  destruct (thrown 0%nat) eqn:Ht0; [by left|].
  destruct (Election_findById electionId d) as [e|] eqn:Hfound; [|by left].
  rewrite gtb_ltb, geb_leb.
  destruct (Z.leb_spec (startDate e) now); simpl.
  { destruct (Z.leb_spec now (endDate e)); simpl; [by left|].
    destruct (Z.ltb_spec (endDate e) now); [by left | lia]. }
  destruct (Z.ltb_spec (endDate e) now); [by left|].
  destruct (thrown 1%nat) eqn:Ht1; [by left|].
  right. exists e. do 5 (split; [done|]).
  destruct (thrown 2%nat) as [error|] eqn:Ht2.
  - left. by exists error.
  - right. split; [done|].
    unfold Election_findByIdAndDelete.
    assert (Election_findById electionId (Vote_deleteMany electionId d).2
            = Some e) as Hfound' by exact Hfound.
    simpl in Hfound'. rewrite Hfound'. simpl.
    by rewrite <- app_assoc.
Qed.

(** C5, as stated, fails on the answer of a successful delete: it carries
    one count, the number of the votes deleted; the election deleted is
    reported by its identifier, and no count of elections is returned. *)
Lemma delete_answer_has_one_count :
  deleted_json
    (delete_election (H:=demo_runtime) "eeeeeeeeeeeeeeeeeeeeeeee" 50
                     (fun _ => None) demo_db_two_votes).1.2 =
    Some [ ("message", JString "Election deleted successfully");
           ("deletedElectionId", JString "eeeeeeeeeeeeeeeeeeeeeeee");
           ("deletedVotesCount", JNumber 2) ] /\
  ~ counts_of_each
      (delete_election (H:=demo_runtime) "eeeeeeeeeeeeeeeeeeeeeeee" 50
                       (fun _ => None) demo_db_two_votes).1.
Proof.
  split; [reflexivity|].
  intros (fields & kv & ke & nv & ne & Hfields & Hne & Hv & He).
  injection Hfields as <-.
  repeat (apply elem_of_cons in Hv as [Hv|Hv]; [try discriminate Hv|]);
    [|by apply elem_of_nil in Hv].
  repeat (apply elem_of_cons in He as [He|He]; [try discriminate He|]);
    [|by apply elem_of_nil in He].
  congruence.
Qed.

(** C5, amended. Deleting an election whose effective status is active
    or completed fails with Conflict and leaves the database as it was,
    the election and every vote included. A delete that succeeds is one
    of an upcoming election. An upcoming election (end after start) is
    deleted when no database call fails: the votes that reference it are
    deleted first, then the election; the other elections and the votes
    of the other elections stay; the answer carries the number of the
    votes deleted and the identifier of the election deleted. When the
    second deletion fails the votes are gone, the election is still
    there, and the answer is a server error. *)
Theorem delete_election_guarded `{Runtime} (now : Date)
    (thrown : nat -> option exn) (d : db) (e : election) :
  ObjectId_isValid (election_id e) = true ->
  unique_ids d ->
  e ∈ elections d ->
  thrown 0%nat = None ->
  (time_derived_status now (startDate e) (endDate e) = active ->
     delete_election (election_id e) now thrown d =
       ((400%Z, MessageDates "Cannot delete an active election"
                  (startDate e) (endDate e)), d)) /\
  (time_derived_status now (startDate e) (endDate e) = completed ->
     delete_election (election_id e) now thrown d =
       ((400%Z, MessageEndDate "Cannot delete a completed election"
                  (endDate e)), d)) /\
  (is_success (delete_election (election_id e) now thrown d).1 = true ->
     time_derived_status now (startDate e) (endDate e) = upcoming) /\
  (time_derived_status now (startDate e) (endDate e) = upcoming ->
   (startDate e < endDate e)%Z ->
   thrown 1%nat = None ->
   exists before after,
     elections d = (before ++ e :: after)%list /\
     (thrown 2%nat = None ->
      delete_election (election_id e) now thrown d =
        ((200%Z, DeletedJson "Election deleted successfully" (election_id e)
                   (length (List.filter
                              (fun v => bool_decide
                                          (vote_election v = election_id e))
                              (votes d)))),
         {| elections := (before ++ after)%list;
            votes := List.filter
                       (fun v => negb (bool_decide
                                         (vote_election v = election_id e)))
                       (votes d);
            journal := journal d ++
                       [DeleteManyVotes (election_id e)
                          (length (List.filter
                                     (fun v => bool_decide
                                                 (vote_election v = election_id e))
                                     (votes d)));
                        DeleteElection (election_id e)] |})) /\
     (forall error, thrown 2%nat = Some error ->
      delete_election (election_id e) now thrown d =
        ((500%Z, ServerError "Server error deleting election"),
         {| elections := elections d;
            votes := List.filter
                       (fun v => negb (bool_decide
                                         (vote_election v = election_id e)))
                       (votes d);
            journal := journal d ++
                       [DeleteManyVotes (election_id e)
                          (length (List.filter
                                     (fun v => bool_decide
                                                 (vote_election v = election_id e))
                                     (votes d)))] |}))).
Proof.
  intros Hvalid Hnd Hin Ht0.
  pose proof (Election_findById_unique d e Hnd Hin) as Hfound.
  unfold time_derived_status.
  split; [|split; [|split]].
  - unfold delete_election. rewrite Hvalid, Ht0, Hfound. simpl.
    rewrite geb_leb.
    repeat case_decide; try discriminate. intros _.
    destruct (Z.leb_spec (startDate e) now), (Z.leb_spec now (endDate e));
      try lia. reflexivity.
  - unfold delete_election. rewrite Hvalid, Ht0, Hfound. simpl.
    rewrite geb_leb, gtb_ltb.
    repeat case_decide; try discriminate. intros _.
    destruct (Z.leb_spec (startDate e) now), (Z.leb_spec now (endDate e)),
      (Z.ltb_spec (endDate e) now); simpl; try lia; reflexivity.
  - destruct (delete_election_cases (election_id e) now thrown d)
      as [[_ Hno] | (e' & Hfound' & Hnow & _)]; [congruence|].
    intros _. rewrite Hfound in Hfound'. injection Hfound' as <-.
    case_decide; [done | lia].
  - intros Hup Hdates Ht1.
    assert (now < startDate e)%Z as Hnow.
    { revert Hup. repeat case_decide; try discriminate. done. }
    destruct (remove_election_in_place (election_id e) (elections d) e Hfound)
      as (before & after & Hsplit & Hremoved).
    exists before, after. split; [done|].
    unfold delete_election. rewrite Hvalid, Ht0, Hfound, Ht1. simpl.
    rewrite geb_leb, gtb_ltb.
    destruct (Z.leb_spec (startDate e) now); [lia|]. simpl.
    destruct (Z.ltb_spec (endDate e) now); [lia|].
    split.
    + intros ->. unfold Election_findByIdAndDelete.
      assert (Election_findById (election_id e)
                (Vote_deleteMany (election_id e) d).2 = Some e) as Hfound'
        by exact Hfound.
      simpl in Hfound'. rewrite Hfound'. simpl.
      rewrite Hremoved. by rewrite <- app_assoc.
    + intros error ->. reflexivity.
Qed.

(** The demo election with two votes, deleted before it starts; the same
    delete with the second deletion failing; and a delete refused while
    the election is open. *)
Lemma delete_election_guarded_witness :
  delete_election (H:=demo_runtime) "eeeeeeeeeeeeeeeeeeeeeeee" 50
                  (fun _ => None) demo_db_three_votes =
    ((200%Z, DeletedJson "Election deleted successfully"
               "eeeeeeeeeeeeeeeeeeeeeeee" 3),
     {| elections := [];
        votes := [ {| vote_election := "ffffffffffffffffffffffff";
                      vote_voter := "222222222222222222222222";
                      vote_candidate := "aaaaaaaaaaaaaaaaaaaaaaaa";
                      timestamp := 165 |} ];
        journal := [DeleteManyVotes "eeeeeeeeeeeeeeeeeeeeeeee" 3;
                    DeleteElection "eeeeeeeeeeeeeeeeeeeeeeee"] |}) /\
  delete_election (H:=demo_runtime) "eeeeeeeeeeeeeeeeeeeeeeee" 150
                  (fun _ => None) demo_db_three_votes =
    ((400%Z, MessageDates "Cannot delete an active election" 100 200),
     demo_db_three_votes).
Proof.
  split.
  - destruct (delete_election_guarded (H:=demo_runtime) 50 (fun _ => None)
                demo_db_three_votes demo_election)
      as (_ & _ & _ & Hdel).
    + reflexivity.
    + apply NoDup_singleton.
    + apply elem_of_cons. by left.
    + reflexivity.
    + destruct Hdel as (before & after & Hsplit & Hok & _).
      * reflexivity.
      * simpl. lia.
      * reflexivity.
      * destruct before as [|x before].
        -- injection Hsplit as <-. exact (Hok eq_refl).
        -- destruct before; discriminate Hsplit.
  - destruct (delete_election_guarded (H:=demo_runtime) 150 (fun _ => None)
                demo_db_three_votes demo_election)
      as (Hactive & _).
    + reflexivity.
    + apply NoDup_singleton.
    + apply elem_of_cons. by left.
    + reflexivity.
    + apply Hactive. reflexivity.
Defined.

Lemma find_update_election_same id (f : election -> election) l e :
  (forall x, election_id (f x) = election_id x) ->
  List.find (fun x => bool_decide (election_id x = id)) l = Some e ->
  List.find (fun x => bool_decide (election_id x = id)) (update_election id f l)
    = Some (f e).
Proof.
  intros Hid. induction l as [|x l IH]; simpl; [discriminate|].
  case_bool_decide as Hx; simpl.
  - intros [= ->]. rewrite Hid. by rewrite bool_decide_eq_true_2.
  - intros Hf. rewrite bool_decide_eq_false_2 by done. by apply IH.
Qed.

Lemma find_update_election_other id id' (f : election -> election) l :
  (forall x, election_id (f x) = election_id x) ->
  id' <> id ->
  List.find (fun x => bool_decide (election_id x = id')) (update_election id f l)
    = List.find (fun x => bool_decide (election_id x = id')) l.
Proof.
  intros Hid Hne. induction l as [|x l IH]; simpl; [done|].
  case_bool_decide as Hx; simpl.
  - rewrite Hid. subst. by rewrite !bool_decide_eq_false_2 by done.
  - case_bool_decide; [done|]. apply IH.
Qed.

(** What [PUT /:id] does once the state of the election and the dates
    have let the request through and no candidate list was sent. *)
Lemma put_election_without_candidates `{Runtime} (electionId : string)
    (req : election_body) (now : Date) (newId : nat -> ObjectId) (d : db)
    (e : election) (start finish : Date) :
  ObjectId_isValid electionId = true ->
  Election_findById electionId d = Some e ->
  (now < startDate e)%Z -> (now <= endDate e)%Z ->
  new_Date (body_startDate req) = Some start ->
  new_Date (body_endDate req) = Some finish ->
  (start < finish)%Z ->
  body_candidates req = CandidatesAbsent ->
  let u := {| set_title := body_title req;
              set_description := body_description req;
              set_startDate := start; set_endDate := finish;
              set_candidates := None |} in
  put_election electionId req now newId d =
    ((200%Z, ElectionJson (apply_set u e)),
     {| elections := update_election electionId (apply_set u) (elections d);
        votes := votes d;
        journal := journal d ++ [UpdateElection electionId] |}).
Proof.
  intros Hvalid Hfound Hstart Hend Hs Hf Hlt Hc. simpl.
  unfold put_election. rewrite Hvalid, Hfound, Hs, Hf, Hc. simpl.
  unfold Election_findByIdAndUpdate. rewrite Hfound.
  dates.
Qed.

(** C6. Updating an election whose effective status is active or
    completed fails with Conflict and changes nothing. An update that
    succeeds on a request without candidate list answers with the election
    as stored afterwards: its candidates are those it had, and so are its
    identifier, stored status, creator and creation time; its dates are
    the two of the request; the votes and the other elections are as they
    were. *)
Theorem put_election_guarded_omit_safe `{Runtime} (electionId : string)
    (req : election_body) (now : Date) (newId : nat -> ObjectId) (d : db)
    (e : election) :
  ObjectId_isValid electionId = true ->
  Election_findById electionId d = Some e ->
  (currentStatus now e <> upcoming ->
     update_conflict (put_election electionId req now newId d).1 /\
     (put_election electionId req now newId d).2 = d) /\
  (body_candidates req = CandidatesAbsent ->
   is_success (put_election electionId req now newId d).1 = true ->
   exists e',
     (put_election electionId req now newId d).1 = (200%Z, ElectionJson e') /\
     Election_findById electionId (put_election electionId req now newId d).2
       = Some e' /\
     candidates e' = candidates e /\
     election_id e' = election_id e /\
     stored_status e' = stored_status e /\
     createdBy e' = createdBy e /\
     createdAt e' = createdAt e /\
     new_Date (body_startDate req) = Some (startDate e') /\
     new_Date (body_endDate req) = Some (endDate e') /\
     votes (put_election electionId req now newId d).2 = votes d /\
     forall other, other <> electionId ->
       Election_findById other (put_election electionId req now newId d).2
         = Election_findById other d).
Proof.
  intros Hvalid Hfound. split.
  - rewrite currentStatus_upcoming. intros Hstatus.
    unfold put_election. rewrite Hvalid, Hfound.
    dates; (split; [|done]); exists (startDate e), (endDate e); auto.
  - intros Hc Hok.
    destruct (decide (now < startDate e)%Z) as [Hstart|Hstart];
      [destruct (decide (now <= endDate e)%Z) as [Hend|Hend]|].
    + destruct (new_Date (body_startDate req)) as [start|] eqn:Hs;
        [destruct (new_Date (body_endDate req)) as [finish|] eqn:Hf|].
      * destruct (decide (start < finish)%Z) as [Hlt|Hlt].
        -- revert Hok.
           rewrite (put_election_without_candidates electionId req now newId d e
                      start finish) by done.
           intros _. eexists. split; [reflexivity|]. simpl.
           split.
           { unfold Election_findById. simpl.
             apply find_update_election_same; [done | exact Hfound]. }
           do 8 (split; [reflexivity|]).
           intros other Hother. unfold Election_findById. simpl.
           by apply find_update_election_other.
        -- revert Hok. unfold put_election.
           rewrite Hvalid, Hfound, Hs, Hf. dates.
      * revert Hok. unfold put_election. rewrite Hvalid, Hfound, Hs, Hf. dates.
      * revert Hok. unfold put_election. rewrite Hvalid, Hfound, Hs. dates.
    + revert Hok. unfold put_election. rewrite Hvalid, Hfound. dates.
    + revert Hok. unfold put_election. rewrite Hvalid, Hfound. dates.
Qed.

Lemma put_election_guarded_omit_safe_witness :
  let req := {| body_title := Some "Mayor 2025"; body_description := None;
                body_startDate := DateString 120; body_endDate := DateString 220;
                body_candidates := CandidatesAbsent |} in
  (exists e',
     (put_election (H:=demo_runtime) "eeeeeeeeeeeeeeeeeeeeeeee" req 50
                   (fun _ => "") demo_db).1 = (200%Z, ElectionJson e') /\
     candidates e' = candidates demo_election) /\
  update_conflict
    (put_election (H:=demo_runtime) "eeeeeeeeeeeeeeeeeeeeeeee" req 150
                  (fun _ => "") demo_db).1.
Proof.
  intros req. split.
  - destruct (put_election_guarded_omit_safe (H:=demo_runtime)
                "eeeeeeeeeeeeeeeeeeeeeeee" req 50 (fun _ => "") demo_db
                demo_election) as [_ Hsafe]; [reflexivity | reflexivity |].
    destruct Hsafe as (e' & Hr & _ & Hcands & _); [reflexivity | reflexivity |].
    exists e'. split; [exact Hr | exact Hcands].
  - apply (put_election_guarded_omit_safe (H:=demo_runtime)
             "eeeeeeeeeeeeeeeeeeeeeeee" req 150 (fun _ => "") demo_db
             demo_election); [reflexivity | reflexivity |].
    vm_compute. discriminate.
Defined.

(** C10. The two dates of an update are not optional: a request without
    startDate or without endDate never succeeds and leaves the database as
    it was, and when the election exists and is upcoming (so that the
    request reaches the validation of the dates) the failure is the 400
    "Invalid date format". *)
Theorem put_election_dates_required `{Runtime} (electionId : string)
    (req : election_body) (now : Date) (newId : nat -> ObjectId) (d : db) :
  body_startDate req = DateAbsent \/ body_endDate req = DateAbsent ->
  (put_election electionId req now newId d).2 = d /\
  is_success (put_election electionId req now newId d).1 = false /\
  (forall e,
     ObjectId_isValid electionId = true ->
     Election_findById electionId d = Some e ->
     currentStatus now e = upcoming -> (now <= endDate e)%Z ->
     (put_election electionId req now newId d).1 =
       (400%Z, Message "Invalid date format")).
Proof.
  intros Hdates.
  assert (match new_Date (body_startDate req), new_Date (body_endDate req) with
          | Some _, Some _ => False
          | _, _ => True
          end) as Hnone.
  { destruct Hdates as [-> | ->]; simpl; [done|].
    by destruct (new_Date (body_startDate req)). }
  unfold put_election.
  destruct (ObjectId_isValid electionId); simpl; [|done].
  destruct (Election_findById electionId d) as [e|] eqn:Hfound; [|done].
  destruct (new_Date (body_startDate req)), (new_Date (body_endDate req));
    try done;
    (split; [dates | split; [dates|]]);
    intros e' _ [= <-]; rewrite currentStatus_upcoming; intros; dates.
Qed.

Lemma put_election_dates_required_witness :
  let req := {| body_title := Some "Mayor 2025"; body_description := None;
                body_startDate := DateAbsent; body_endDate := DateString 220;
                body_candidates := CandidatesAbsent |} in
  (put_election (H:=demo_runtime) "eeeeeeeeeeeeeeeeeeeeeeee" req 50
                (fun _ => "") demo_db).1 = (400%Z, Message "Invalid date format").
Proof.
  intros req.
  apply (put_election_dates_required (H:=demo_runtime)
           "eeeeeeeeeeeeeeeeeeeeeeee" req 50 (fun _ => "") demo_db
           (or_introl eq_refl)) with (e := demo_election);
    [reflexivity | reflexivity | reflexivity | simpl; lia].
Defined.

(** ** Casting a vote *)

Lemma existsb_has_vote (eid voter : ObjectId) (d : db) :
  existsb (fun w => bool_decide (vote_election w = eid) &&
                    bool_decide (vote_voter w = voter)) (votes d) = true
  <-> has_vote eid voter d.
Proof.
  rewrite existsb_exists. unfold has_vote.
  split; intros (v & Hin & Hv); exists v.
  - apply andb_true_iff in Hv as [H1 H2].
    apply bool_decide_eq_true in H1, H2. by rewrite list_elem_of_In.
  - destruct Hv as [H1 H2]. rewrite <- list_elem_of_In. split; [done|].
    by rewrite !bool_decide_eq_true_2.
Qed.

Lemma Vote_findOne_has_vote (eid voter : ObjectId) (d : db) :
  is_Some (Vote_findOne eid voter d) <-> has_vote eid voter d.
Proof.
  rewrite <- existsb_has_vote. unfold Vote_findOne.
  induction (votes d) as [|v l IH]; simpl.
  - split; [by intros [? ?] | discriminate].
  - destruct (bool_decide (vote_election v = eid) &&
              bool_decide (vote_voter v = voter)); simpl; [|done].
    split; [done | by eexists].
Qed.

Lemma find_candidate_Some (id : string) (l : list candidate) (c : candidate) :
  c ∈ l -> candidate_id c = id ->
  List.find (fun x => bool_decide (candidate_id x = id)) l <> None.
Proof.
  intros Hc Hid Hfind.
  apply list_elem_of_In in Hc.
  pose proof (find_none _ _ Hfind c Hc) as Hn. simpl in Hn.
  by rewrite bool_decide_eq_true_2 in Hn.
Qed.

(** Served alone, a request of a voter whose vote is in the collection is
    answered AlreadyVoted, and nothing is written. *)
Lemma post_vote_already_voted `{Runtime} (req : vote_request)
    (clock : nat -> Date) (d : db) (e : election) (c : candidate) :
  ObjectId_isValid (vote_electionId req) = true ->
  ObjectId_isValid (vote_candidateId req) = true ->
  Election_findById (vote_electionId req) d = Some e ->
  (startDate e <= clock 0%nat <= endDate e)%Z ->
  c ∈ candidates e -> candidate_id c = vote_candidateId req ->
  has_vote (vote_electionId req) (vote_userId req) d ->
  post_vote req clock d = (Responded AlreadyVoted, d).
Proof.
  intros Hv1 Hv2 Hfound Hopen Hc Hcid Hvote.
  unfold post_vote, vote_start. rewrite Hv1, Hv2. simpl. rewrite Hfound.
  destruct (List.find _ (candidates e)) as [c'|] eqn:Hfind.
  - apply Vote_findOne_has_vote in Hvote as [v Hvote].
    dates. by rewrite Hvote.
  - by destruct (find_candidate_Some _ _ c Hc Hcid).
Qed.

(** The three steps of the handler on a request that passes its checks. *)
Lemma step_find_election (req : vote_request) (clock : nat -> Date) (d : db)
    (e : election) (c : candidate) :
  Election_findById (vote_electionId req) d = Some e ->
  (startDate e <= clock 0%nat <= endDate e)%Z ->
  c ∈ candidates e -> candidate_id c = vote_candidateId req ->
  vote_step req clock AwaitFindElection d = (AwaitFindVote, d).
Proof.
  intros Hfound Hopen Hc Hcid. simpl. rewrite Hfound.
  destruct (List.find _ (candidates e)) eqn:Hfind.
  - dates.
  - by destruct (find_candidate_Some _ _ c Hc Hcid).
Qed.

Lemma step_find_vote_none (req : vote_request) (clock : nat -> Date) (d : db) :
  ~ has_vote (vote_electionId req) (vote_userId req) d ->
  vote_step req clock AwaitFindVote d =
    (AwaitSave {| vote_election := vote_electionId req;
                  vote_candidate := vote_candidateId req;
                  vote_voter := vote_userId req;
                  timestamp := clock 1%nat |}, d).
Proof.
  intros Hnone. simpl.
  destruct (Vote_findOne _ _ d) eqn:Hf; [|done].
  exfalso. apply Hnone. apply Vote_findOne_has_vote. by eexists.
Qed.

Lemma step_save_fresh (req : vote_request) (clock : nat -> Date) (v : vote)
    (d : db) :
  ~ has_vote (vote_election v) (vote_voter v) d ->
  vote_step req clock (AwaitSave v) d =
    (Responded (201%Z, Message "Vote recorded successfully"),
     {| elections := elections d; votes := votes d ++ [v];
        journal := journal d ++ [InsertVote v] |}).
Proof.
  intros Hnone. simpl. unfold Vote_save.
  destruct (existsb _ (votes d)) eqn:Hx; [|done].
  exfalso. apply Hnone. by apply existsb_has_vote.
Qed.

Lemma step_save_duplicate (req : vote_request) (clock : nat -> Date) (v : vote)
    (d : db) :
  has_vote (vote_election v) (vote_voter v) d ->
  vote_step req clock (AwaitSave v) d =
    (Responded (500%Z, ServerError "Server error recording vote"), d).
Proof.
  intros Hvote. apply existsb_has_vote in Hvote.
  simpl. unfold Vote_save. by rewrite Hvote.
Qed.

(** The race, on any database: two requests of one voter on an open
    election that has no vote of the voter yet, scheduled so that both pass
    the check before either inserts. The first insert is answered 201; the
    second fails on the unique index and is answered by the generic 500. *)
Lemma race_second_insert_generic `{Runtime} (reqA reqB : vote_request)
    (clockA clockB : nat -> Date) (d : db) (e : election) (cA cB : candidate) :
  vote_electionId reqB = vote_electionId reqA ->
  vote_userId reqB = vote_userId reqA ->
  ObjectId_isValid (vote_electionId reqA) = true ->
  ObjectId_isValid (vote_candidateId reqA) = true ->
  ObjectId_isValid (vote_candidateId reqB) = true ->
  Election_findById (vote_electionId reqA) d = Some e ->
  (startDate e <= clockA 0%nat <= endDate e)%Z ->
  (startDate e <= clockB 0%nat <= endDate e)%Z ->
  cA ∈ candidates e -> candidate_id cA = vote_candidateId reqA ->
  cB ∈ candidates e -> candidate_id cB = vote_candidateId reqB ->
  ~ has_vote (vote_electionId reqA) (vote_userId reqA) d ->
  concurrent_votes reqA reqB clockA clockB race_schedule d =
    (Responded (201%Z, Message "Vote recorded successfully"),
     Responded (500%Z, ServerError "Server error recording vote"),
     {| elections := elections d;
        votes := votes d ++
                 [{| vote_election := vote_electionId reqA;
                     vote_voter := vote_userId reqA;
                     vote_candidate := vote_candidateId reqA;
                     timestamp := clockA 1%nat |}];
        journal := journal d ++
                 [InsertVote {| vote_election := vote_electionId reqA;
                                vote_voter := vote_userId reqA;
                                vote_candidate := vote_candidateId reqA;
                                timestamp := clockA 1%nat |}] |}).
Proof.
  intros HeB HuB Hv1 Hv2 Hv3 Hfound HopenA HopenB HcA HidA HcB HidB Hnone.
  unfold concurrent_votes, vote_start, race_schedule.
  rewrite HeB, Hv1, Hv2, Hv3. cbn [negb interleave].
  rewrite (step_find_election reqA clockA d e cA) by done.
  rewrite (step_find_election reqB clockB d e cB) by (by rewrite ?HeB).
  rewrite (step_find_vote_none reqA) by done.
  rewrite (step_find_vote_none reqB) by (by rewrite HeB, HuB).
  rewrite step_save_fresh by done.
  rewrite step_save_duplicate; [reflexivity|].
  exists {| vote_election := vote_electionId reqA;
            vote_voter := vote_userId reqA;
            vote_candidate := vote_candidateId reqA;
            timestamp := clockA 1%nat |}.
  cbn. rewrite HeB, HuB. split; [|done].
  apply elem_of_app. right. by left.
Qed.

(** The unique index holds whatever the schedule: two requests of one
    voter on one election are never both answered with a success. *)
Lemma step_preserves_has_vote (req : vote_request) (clock : nat -> Date)
    (t : vote_task) (d : db) (eid voter : ObjectId) :
  has_vote eid voter d -> has_vote eid voter (vote_step req clock t d).2.
Proof.
  intros Hvote. destruct t as [| |v|r]; simpl.
  - repeat case_match; done.
  - repeat case_match; done.
  - unfold Vote_save. destruct (existsb _ (votes d)); simpl; [done|].
    destruct Hvote as (w & Hw & Hpair). exists w. split; [|done].
    simpl. apply elem_of_app. by left.
  - done.
Qed.


Lemma step_succeeded (req : vote_request) (clock : nat -> Date)
    (t : vote_task) (d : db) :
  vote_succeeded (vote_step req clock t d).1 ->
  vote_succeeded t \/
  exists v, t = AwaitSave v /\ ~ has_vote (vote_election v) (vote_voter v) d.
Proof.
  unfold vote_succeeded. destruct t as [| |v|r]; simpl.
  - repeat case_match; simpl; discriminate.
  - repeat case_match; simpl; discriminate.
  - intros Hs. right. exists v. split; [done|].
    intros Hvote. rewrite <- existsb_has_vote in Hvote.
    unfold Vote_save in Hs. rewrite Hvote in Hs. discriminate.
  - by left.
Qed.

Lemma step_consistent (req : vote_request) (clock : nat -> Date)
    (t : vote_task) (d : db) :
  task_consistent req t d ->
  task_consistent req (vote_step req clock t d).1 (vote_step req clock t d).2.
Proof.
  intros Ht. destruct t as [| |v|r].
  - simpl. repeat case_match; simpl; try done; unfold vote_succeeded; discriminate.
  - simpl. repeat case_match; simpl; try done; unfold vote_succeeded; discriminate.
  - destruct Ht as [He Hu]. simpl. unfold Vote_save.
    destruct (existsb _ (votes d)); simpl.
    + unfold vote_succeeded. discriminate.
    + intros _. exists v. split; [|done]. simpl. apply elem_of_app. right. by left.
  - exact Ht.
Qed.

Lemma other_consistent (req req' : vote_request) (clock : nat -> Date)
    (t t' : vote_task) (d : db) :
  task_consistent req t d ->
  task_consistent req t (vote_step req' clock t' d).2.
Proof.
  destruct t as [| |v|r]; simpl; try done.
  intros Ht Hs. by apply step_preserves_has_vote, Ht.
Qed.

Lemma step_not_both (req req' : vote_request) (clock : nat -> Date)
    (t t' : vote_task) (d : db) :
  vote_electionId req' = vote_electionId req ->
  vote_userId req' = vote_userId req ->
  task_consistent req t d -> task_consistent req' t' d ->
  ~ (vote_succeeded t /\ vote_succeeded t') ->
  ~ (vote_succeeded (vote_step req clock t d).1 /\ vote_succeeded t').
Proof.
  intros He Hu Ht Ht' Hnot [Hs Hs'].
  apply step_succeeded in Hs as [Hs | (v & -> & Hfresh)]; [by apply Hnot|].
  destruct Ht as [Hev Huv]. apply Hfresh. rewrite Hev, Huv, <- He, <- Hu.
  unfold vote_succeeded in Hs'. subst t'. by apply Ht'.
Qed.

Lemma interleave_not_both (reqA reqB : vote_request)
    (clockA clockB : nat -> Date) (schedule : list bool) :
  vote_electionId reqB = vote_electionId reqA ->
  vote_userId reqB = vote_userId reqA ->
  forall tA tB d,
    task_consistent reqA tA d -> task_consistent reqB tB d ->
    ~ (vote_succeeded tA /\ vote_succeeded tB) ->
    ~ (vote_succeeded (interleave reqA reqB clockA clockB schedule tA tB d).1.1 /\
       vote_succeeded (interleave reqA reqB clockA clockB schedule tA tB d).1.2).
Proof.
  intros He Hu. induction schedule as [|b rest IH]; intros tA tB d HA HB Hnot.
  - exact Hnot.
  - destruct b; simpl.
    + pose proof (step_consistent reqB clockB tB d HB) as HB'.
      pose proof (other_consistent reqA reqB clockB tA tB d HA) as HA'.
      pose proof (step_not_both reqB reqA clockB tB tA d
                    (eq_sym He) (eq_sym Hu) HB HA) as Hnot'.
      destruct (vote_step reqB clockB tB d) as [tB' d'] eqn:Hstep.
      apply IH; [done | done |]. intros [H1 H2]. apply Hnot'; [tauto | done].
    + pose proof (step_consistent reqA clockA tA d HA) as HA'.
      pose proof (other_consistent reqB reqA clockA tB tA d HB) as HB'.
      pose proof (step_not_both reqA reqB clockA tA tB d He Hu HA HB Hnot)
        as Hnot'.
      destruct (vote_step reqA clockA tA d) as [tA' d'] eqn:Hstep.
      by apply IH.
Qed.

(** Whatever the schedule, two concurrent requests of one voter on one
    election are not both answered with the 201 of a recorded vote. *)
Lemma never_two_successes `{Runtime} (reqA reqB : vote_request)
    (clockA clockB : nat -> Date) (schedule : list bool) (d : db) :
  vote_electionId reqB = vote_electionId reqA ->
  vote_userId reqB = vote_userId reqA ->
  ~ (vote_succeeded (concurrent_votes reqA reqB clockA clockB schedule d).1.1 /\
     vote_succeeded (concurrent_votes reqA reqB clockA clockB schedule d).1.2).
Proof.
  intros He Hu. unfold concurrent_votes.
  apply interleave_not_both; [done | done | | |].
  - unfold vote_start. repeat case_match; simpl; try done;
      unfold vote_succeeded; discriminate.
  - unfold vote_start. repeat case_match; simpl; try done;
      unfold vote_succeeded; discriminate.
  - intros [Hs _]. revert Hs. unfold vote_start, vote_succeeded.
    repeat case_match; discriminate.
Qed.

(** C1, at the failing input. One voter sends two votes on the open demo
    election and the two handlers interleave so that both pass the
    [Vote.findOne] check before either inserts. One vote is stored and the
    first request is answered 201; the insert of the second fails on the
    unique index and the handler answers the generic 500 "Server error
    recording vote", which is not AlreadyVoted. *)
Theorem race_duplicate_vote_is_server_error :
  exists d',
    concurrent_votes (H:=demo_runtime) demo_vote_A demo_vote_B
                     demo_clock demo_clock race_schedule demo_db =
      (Responded (201%Z, Message "Vote recorded successfully"),
       Responded (500%Z, ServerError "Server error recording vote"), d') /\
    length (Vote_find "eeeeeeeeeeeeeeeeeeeeeeee" d') = 1 /\
    (500%Z, ServerError "Server error recording vote") <> AlreadyVoted.
Proof.
  eexists. split; [vm_compute; reflexivity|].
  split; [reflexivity | discriminate].
Qed.

(** ** Accounts: the age *)

Lemma age_rejected_true (a : option Z) :
  age_rejected a = true <->
  exists n, a = Some n /\ n <> 0%Z /\ (n < 18 \/ 120 < n)%Z.
Proof.
  destruct a as [n|]; simpl.
  - rewrite andb_true_iff, negb_true_iff, Z.eqb_neq, orb_true_iff.
    rewrite gtb_ltb, !Z.ltb_lt.
    split; [intros [? ?]; by exists n | intros (? & [= <-] & ? & ?); done].
  - split; [discriminate | by intros (? & ? & _)].
Qed.

(** [PUT /profile] answers 400 "Age must be between 18 and 120" to every
    age out of the range, the number 0 apart, and writes nothing. *)
Lemma put_profile_age_guard `{UserModel} (userId : ObjectId)
    (req : profile_body) (users : list user) (n : Z) :
  profile_age req = Some n -> n <> 0%Z -> (n < 18 \/ 120 < n)%Z ->
  put_profile userId req users =
    ((400%Z, AuthMessage "Age must be between 18 and 120"), users).
Proof.
  intros Hage Hn Hrange. unfold put_profile.
  assert (age_rejected (profile_age req) = true) as ->; [|done].
  apply age_rejected_true. by exists n.
Qed.

(** The age 0 is falsy and passes the guard of the route: what becomes of
    it is left to the validators of the schema. *)
Lemma age_zero_passes_guard : age_rejected (Some 0%Z) = false.
Proof. reflexivity. Qed.

(** A profile update never writes when it does not answer 200. *)
Lemma put_profile_failure_writes_nothing `{UserModel} (userId : ObjectId)
    (req : profile_body) (users : list user) :
  (put_profile userId req users).1.1 <> 200%Z ->
  (put_profile userId req users).2 = users.
Proof.
  unfold put_profile, User_findByIdAndUpdate_set.
  repeat case_match; simplify_eq; simpl; try done.
Qed.

(** With a schema that enforces the spec's age rule, the two operations
    keep the age of the records they write within 18 and 120. *)
Lemma register_age_in_range `{UserModel} (req : register_body)
    (newId : ObjectId) (now : Date) (users : list user) :
  enforces_age ->
  (register req newId now users).1.1 = 201%Z ->
  spec_age_rule (reg_age req) = true /\
  exists u, (register req newId now users).2 = (users ++ [u])%list /\
            age u = reg_age req.
Proof.
  intros [Hsave _]. unfold register, User_save.
  destruct (User_findOne_email_or_voterID _ _ users); simpl; [discriminate|].
  destruct (User_validate _) eqn:Hval; simpl; [|discriminate].
  destruct (existsb _ users); simpl; [discriminate|].
  intros _. split; [exact (Hsave _ Hval)|].
  eexists. split; reflexivity.
Qed.

Lemma put_profile_age_in_range `{UserModel} (userId : ObjectId)
    (req : profile_body) (users : list user) (a : Z) :
  enforces_age ->
  profile_age req = Some a ->
  (put_profile userId req users).1.1 = 200%Z ->
  (18 <= a <= 120)%Z.
Proof.
  intros [_ Hset] Hage. unfold put_profile, User_findByIdAndUpdate_set.
  destruct (User_validate_set req) eqn:Hval.
  - intros _. specialize (Hset req a Hage Hval). simpl in Hset.
    apply andb_true_iff in Hset as [H1 H2].
    apply Z.leb_le in H1, H2. lia.
  - repeat case_match; simplify_eq; simpl; discriminate.
Qed.

(** [POST /register] has no check of the age and no branch for a
    validation error: whatever the user model, either it stores the age it
    was sent or it answers the 500 of a server error. *)
Lemma register_outcomes `{UserModel} (req : register_body) (newId : ObjectId)
    (now : Date) (users : list user) :
  (register req newId now users).1 =
    (400%Z, AuthMessage "User with this email or voter ID already exists") /\
  (register req newId now users).2 = users
  \/
  (register req newId now users).1 =
    (500%Z, AuthMessage "Server error during registration") /\
  (register req newId now users).2 = users
  \/
  (register req newId now users).1.1 = 201%Z /\
  exists u, (register req newId now users).2 = (users ++ [u])%list /\
            age u = reg_age req.
Proof.
  unfold register, User_save.
  destruct (User_findOne_email_or_voterID _ _ users); simpl; [by left|].
  right. destruct (User_validate _); simpl; [|by left].
  destruct (existsb _ users); simpl; [by left|].
  right. split; [done|]. eexists. split; reflexivity.
Qed.

(** C7, at the failing input. A registration with the age 17, sent to an
    empty user collection, is never answered with a validation error:
    whatever the user model, either the account is created with the age 17
    (201), or the failure raised by [save()] is answered as the 500
    "Server error during registration". *)
Theorem register_underage_no_validation_error `{UserModel} (newId : ObjectId)
    (now : Date) :
  (exists u, register demo_underage newId now [] =
       ((201%Z, AuthMessage
           "Registration successful! Please check your email to verify your account."),
        [u]) /\ age u = Some 17%Z)
  \/
  register demo_underage newId now [] =
    ((500%Z, AuthMessage "Server error during registration"), []).
Proof.
  unfold register, User_save. simpl.
  destruct (User_validate _); simpl; [|by right].
  left. eexists. split; reflexivity.
Qed.

(** ** Accounts: deactivation *)

Lemma find_update_user_same (id : ObjectId) (f : user -> user) l u :
  (forall x, user_id (f x) = user_id x) ->
  List.find (fun x => bool_decide (user_id x = id)) l = Some u ->
  List.find (fun x => bool_decide (user_id x = id)) (update_user id f l)
    = Some (f u).
Proof.
  intros Hid. induction l as [|x l IH]; simpl; [discriminate|].
  case_bool_decide as Hx; simpl.
  - intros [= ->]. rewrite Hid. by rewrite bool_decide_eq_true_2.
  - intros Hf. rewrite bool_decide_eq_false_2 by done. by apply IH.
Qed.

(** The admin path refuses an admin target and writes nothing. *)
Lemma deactivate_voter_admin_forbidden `{UserModel} (voterId : ObjectId)
    (users : list user) (u : user) :
  User_findById voterId users = Some u -> user_role u = admin ->
  deactivate_voter voterId users = (Forbidden, users).
Proof.
  intros Hfound Hrole. unfold deactivate_voter. rewrite Hfound.
  by rewrite bool_decide_eq_true_2.
Qed.

(** The self-service path does not look at the role: the account of the
    caller is deactivated, an admin's like a voter's. *)
Lemma deactivate_any_role (userId : ObjectId) (users : list user) (u : user) :
  User_findById userId users = Some u ->
  (deactivate userId users).1 =
    (200%Z, AuthOutcome true "Account has been Deleted successfully") /\
  User_findById userId (deactivate userId users).2 = Some (set_isActive false u).
Proof.
  intros Hfound. unfold deactivate. rewrite Hfound. simpl. split; [done|].
  by apply find_update_user_same.
Qed.

(** C8, at the failing input. An admin who calls the self-service
    deactivation is answered with the success and the account is stored
    with its active flag cleared, while the admin path refuses the same
    account with Forbidden. *)
Theorem admin_self_deactivation_clears_flag :
  deactivate "000000000000000000000000" [demo_admin] =
    ((200%Z, AuthOutcome true "Account has been Deleted successfully"),
     [set_isActive false demo_admin]) /\
  user_role (set_isActive false demo_admin) = admin /\
  isActive (set_isActive false demo_admin) = false /\
  deactivate_voter (H:=demo_users) "000000000000000000000000" [demo_admin] =
    (Forbidden, [demo_admin]).
Proof. repeat split. Qed.

(** ** Accounts: login *)

(** C9, as stated, fails on an account that has been deactivated: the
    account exists, the password does not match, and the answer is the 403
    of the activity check, not InvalidCredentials. *)
Lemma login_inactive_account_revealed :
  ~ login_uniform_at (H:=demo_users) "VOT123456" "wrong" [demo_inactive].
Proof.
  intros [_ Hwrong].
  specialize (Hwrong demo_inactive eq_refl eq_refl). discriminate.
Qed.

(** C9, amended. Login answers the same InvalidCredentials (400,
    "Invalid credentials") when no account has the voter identifier and
    when the account is active and the password does not match. An account
    that is not active is answered 403 "Account has been deleted" before
    the password is looked at. *)
Theorem login_invalid_credentials `{UserModel} (voterID_ : voterID_value)
    (password_ : string) (users : list user) (u : user) :
  (User_findOne_voterID voterID_ users = None ->
     login voterID_ password_ users = InvalidCredentials) /\
  (User_findOne_voterID voterID_ users = Some u ->
   isActive u = true -> comparePassword u password_ = false ->
     login voterID_ password_ users = InvalidCredentials) /\
  (User_findOne_voterID voterID_ users = Some u ->
   isActive u = false ->
     login voterID_ password_ users =
       (403%Z, AuthMessage "Account has been deleted")).
Proof.
  unfold login. repeat split.
  - by intros ->.
  - intros -> Hactive Hpw. by rewrite Hactive, Hpw.
  - intros -> Hactive. by rewrite Hactive.
Qed.

Lemma login_invalid_credentials_witness :
  login (H:=demo_users) "ADMIN001" "wrong" [demo_admin] = InvalidCredentials /\
  login (H:=demo_users) "NOBODY" "wrong" [demo_admin] = InvalidCredentials.
Proof.
  destruct (login_invalid_credentials (H:=demo_users) "ADMIN001" "wrong"
              [demo_admin] demo_admin) as (_ & Hwrong & _).
  destruct (login_invalid_credentials (H:=demo_users) "NOBODY" "wrong"
              [demo_admin] demo_admin) as (Hnone & _ & _).
  split; [apply Hwrong | apply Hnone]; reflexivity.
Defined.

(** ** The invariant of the elections *)

Lemma update_election_Forall (P : election -> Prop) id f l :
  (forall e, P e -> P (f e)) -> Forall P l -> Forall P (update_election id f l).
Proof.
  intros Hf. induction 1 as [|e l He Hl IH]; simpl; [constructor|].
  case_bool_decide; constructor; auto.
Qed.

Lemma remove_election_Forall (P : election -> Prop) id l :
  Forall P l -> Forall P (remove_election id l).
Proof.
  induction 1 as [|e l He Hl IH]; simpl; [constructor|].
  case_bool_decide; [done|]. by constructor.
Qed.

(** The elections that [POST /] creates have at least two candidates and
    end after they start. *)
Lemma post_election_well_formed `{Runtime} (req : election_body)
    (userId : ObjectId) (clock : nat -> Date) (newId : nat -> ObjectId) (d : db) :
  db_well_formed d -> db_well_formed (post_election req userId clock newId d).2.
Proof.
  intros Hd. unfold post_election, Election_save.
  repeat case_match; simplify_eq; simpl; try done.
  all: apply Forall_app; split; [done|]; constructor; [|constructor].
  all: split; simpl.
  all: try (rewrite length_imap;
            match goal with Hl : (length _ <? 2)%nat = false |- _ =>
              apply Nat.ltb_ge in Hl; lia end).
  all: match goal with Hl : (_ <=? _)%Z = false |- _ =>
         apply Z.leb_gt in Hl; lia end.
Qed.

(** The two outcomes of [PUT /:id]: nothing is written and the answer is
    not a success, or the election found is rewritten by the cast update
    and the answer is 200. *)
Lemma put_election_cases `{Runtime} (electionId : string)
    (req : election_body) (now : Date) (newId : nat -> ObjectId) (d : db) :
  ((put_election electionId req now newId d).2 = d /\
   is_success (put_election electionId req now newId d).1 = false) \/
  exists e start finish cs,
    Election_findById electionId d = Some e /\
    (now < startDate e)%Z /\
    new_Date (body_startDate req) = Some start /\
    new_Date (body_endDate req) = Some finish /\
    (start < finish)%Z /\
    match body_candidates req with
    | CandidatesAbsent => cs = None
    | CandidatesNotArray => False
    | CandidatesArray l =>
        2 <= length l /\ first_incomplete l = None /\
        exists cs',
          cs = Some cs' /\
          cast_candidates
            (imap (fun i c => (if truthy (in_id c)
                               then IdSent (default "" (in_id c))
                               else IdGenerated (newId i), c)) l) = Some cs'
    end /\
    put_election electionId req now newId d =
      ((200%Z, ElectionJson
          (apply_set {| set_title := body_title req;
                        set_description := body_description req;
                        set_startDate := start; set_endDate := finish;
                        set_candidates := cs |} e)),
       {| elections :=
            update_election electionId
              (apply_set {| set_title := body_title req;
                            set_description := body_description req;
                            set_startDate := start; set_endDate := finish;
                            set_candidates := cs |}) (elections d);
          votes := votes d;
          journal := journal d ++ [UpdateElection electionId] |}).
Proof.
  unfold put_election.
  destruct (ObjectId_isValid electionId); simpl; [|by left].
  destruct (Election_findById electionId d) as [e|] eqn:Hfound; simpl;
    [|by left].
  rewrite gtb_ltb, geb_leb.
  destruct (Z.ltb_spec (endDate e) now); simpl; [by left|].
  destruct (Z.leb_spec (startDate e) now); simpl.
  { destruct (Z.leb_spec now (endDate e)); simpl; [by left | lia]. }
  destruct (new_Date (body_startDate req)) as [start|]; simpl; [|by left].
  destruct (new_Date (body_endDate req)) as [finish|]; simpl; [|by left].
  destruct (Z.leb_spec finish start); simpl; [by left|].
  unfold Election_findByIdAndUpdate, cast_updateData.
  destruct (body_candidates req) as [| |l] eqn:Hc; simpl.
  - rewrite Hfound. right.
    exists e, start, finish, None. by repeat split.
  - by left.
  - destruct (length l <? 2)%nat eqn:Hlen; simpl; [by left|].
    destruct (first_incomplete l) eqn:Hinc; simpl; [by left|].
    destruct (cast_candidates _) as [cs'|] eqn:Hcast; simpl; [|by left].
    rewrite Hfound. right. apply Nat.ltb_ge in Hlen.
    exists e, start, finish, (Some cs').
    repeat split; try done. by exists cs'.
Qed.

Lemma length_cast_candidates `{Runtime} (l : list (id_value * candidate_input))
    (cs : list candidate) :
  cast_candidates l = Some cs -> length cs = length l.
Proof. intros Hcast. symmetry. by eapply length_mapM. Qed.

(** [PUT /:id] keeps them so. *)
Lemma put_election_well_formed `{Runtime} (electionId : string)
    (req : election_body) (now : Date) (newId : nat -> ObjectId) (d : db) :
  db_well_formed d -> db_well_formed (put_election electionId req now newId d).2.
Proof.
  intros Hd.
  destruct (put_election_cases electionId req now newId d)
    as [[-> _] | (e & start & finish & cs & _ & _ & _ & _ & Hlt & Hcs & ->)];
    [done|].
  simpl. apply update_election_Forall; [|done].
  intros x [Hx _]. split; simpl; [|done].
  destruct (body_candidates req) as [| |l]; [by subst | done |].
  destruct Hcs as (Hlen & _ & cs' & -> & Hcast). simpl.
  apply length_cast_candidates in Hcast. rewrite Hcast, length_imap. lia.
Qed.

Lemma delete_election_well_formed `{Runtime} (electionId : string) (now : Date)
    (thrown : nat -> option exn) (d : db) :
  db_well_formed d ->
  db_well_formed (delete_election electionId now thrown d).2.
Proof.
  intros Hd.
  destruct (delete_election_cases electionId now thrown d)
    as [[-> _] | (e & _ & _ & _ & _ & _ & [(error & _ & ->) | [_ ->]])];
    simpl; try done.
  by apply remove_election_Forall.
Qed.

Lemma vote_step_well_formed (req : vote_request) (clock : nat -> Date)
    (t : vote_task) (d : db) :
  db_well_formed d -> db_well_formed (vote_step req clock t d).2.
Proof.
  intros Hd. destruct t; simpl; unfold Vote_save;
    repeat case_match; simplify_eq; simpl; done.
Qed.

Lemma well_formed_found (id : ObjectId) (d : db) (e : election) :
  db_well_formed d -> Election_findById id d = Some e -> well_formed e.
Proof.
  intros Hd Hfound. unfold Election_findById in Hfound.
  apply find_some in Hfound as [Hin _].
  unfold db_well_formed in Hd. rewrite Forall_forall in Hd.
  apply Hd. by apply list_elem_of_In.
Qed.

(** * Further properties of the handlers *)

(** ** The ledger of votes *)

Lemma existsb_pair_votes (eid voter : ObjectId) (d : db) :
  existsb (fun w => bool_decide (vote_election w = eid) &&
                    bool_decide (vote_voter w = voter)) (votes d) = false ->
  pair_votes eid voter d = [].
Proof.
  unfold pair_votes. induction (votes d) as [|w l IH]; simpl; [done|].
  destruct (bool_decide (vote_election w = eid) &&
            bool_decide (vote_voter w = voter)); simpl; [discriminate | exact IH].
Qed.

Lemma Vote_save_unique (v : vote) (d : db) :
  unique_votes d -> unique_votes (Vote_save v d).2.
Proof.
  intros Hd eid voter. unfold Vote_save.
  destruct (existsb _ (votes d)) eqn:Hex; simpl; [apply Hd|].
  unfold pair_votes. simpl. rewrite List.filter_app, length_app. simpl.
  destruct (bool_decide (vote_election v = eid) &&
            bool_decide (vote_voter v = voter)) eqn:Hv; simpl.
  - apply andb_true_iff in Hv as [He Hu].
    apply bool_decide_eq_true in He, Hu. subst.
    pose proof (existsb_pair_votes _ _ _ Hex) as Hnone.
    unfold pair_votes in Hnone. rewrite Hnone. simpl. lia.
  - specialize (Hd eid voter). unfold pair_votes in Hd. lia.
Qed.

Lemma vote_step_unique (req : vote_request) (clock : nat -> Date)
    (t : vote_task) (d : db) :
  unique_votes d -> unique_votes (vote_step req clock t d).2.
Proof.
  intros Hd. destruct t as [| |v|r]; simpl.
  - repeat case_match; done.
  - repeat case_match; done.
  - pose proof (Vote_save_unique v d Hd) as Hs.
    destruct (Vote_save v d) as [[error|[]] d']; exact Hs.
  - done.
Qed.

Lemma interleave_unique (reqA reqB : vote_request)
    (clockA clockB : nat -> Date) (schedule : list bool) :
  forall tA tB d,
    unique_votes d ->
    unique_votes (interleave reqA reqB clockA clockB schedule tA tB d).2.
Proof.
  induction schedule as [|b rest IH]; intros tA tB d Hd; [done|].
  destruct b; simpl.
  - pose proof (vote_step_unique reqB clockB tB d Hd) as Hs.
    destruct (vote_step reqB clockB tB d) as [tB' d']. by apply IH.
  - pose proof (vote_step_unique reqA clockA tA d Hd) as Hs.
    destruct (vote_step reqA clockA tA d) as [tA' d']. by apply IH.
Qed.

(** X1. However two vote requests are interleaved at their [await]s, and
    whoever sends them, a vote collection in which no voter has two votes
    in one election stays so: the unique index lets no second vote of a
    pair in. *)
Theorem concurrent_votes_keep_unique `{Runtime} (reqA reqB : vote_request)
    (clockA clockB : nat -> Date) (schedule : list bool) (d : db) :
  unique_votes d ->
  unique_votes (concurrent_votes reqA reqB clockA clockB schedule d).2.
Proof. intros Hd. unfold concurrent_votes. by apply interleave_unique. Qed.

Lemma concurrent_votes_keep_unique_witness :
  unique_votes
    (concurrent_votes (H:=demo_runtime) demo_vote_A demo_vote_B
                      demo_clock demo_clock race_schedule demo_db).2.
Proof.
  apply (concurrent_votes_keep_unique (H:=demo_runtime) demo_vote_A demo_vote_B
           demo_clock demo_clock race_schedule demo_db).
  intros eid voter. simpl. lia.
Defined.

(** X2. Two concurrent requests of one voter on one election are never
    both answered with the 201 of a recorded vote, whatever the schedule
    and whatever the database. *)
Theorem concurrent_votes_one_success `{Runtime} (reqA reqB : vote_request)
    (clockA clockB : nat -> Date) (schedule : list bool) (d : db) :
  vote_electionId reqB = vote_electionId reqA ->
  vote_userId reqB = vote_userId reqA ->
  ~ (vote_succeeded (concurrent_votes reqA reqB clockA clockB schedule d).1.1 /\
     vote_succeeded (concurrent_votes reqA reqB clockA clockB schedule d).1.2).
Proof. apply never_two_successes. Qed.

Lemma concurrent_votes_one_success_witness :
  ~ (vote_succeeded
       (concurrent_votes (H:=demo_runtime) demo_vote_A demo_vote_B demo_clock
                         demo_clock [true; false; true; true; false; false]
                         demo_db).1.1 /\
     vote_succeeded
       (concurrent_votes (H:=demo_runtime) demo_vote_A demo_vote_B demo_clock
                         demo_clock [true; false; true; true; false; false]
                         demo_db).1.2).
Proof.
  apply (concurrent_votes_one_success (H:=demo_runtime) demo_vote_A demo_vote_B
           demo_clock demo_clock [true; false; true; true; false; false]
           demo_db); reflexivity.
Defined.

(** What a recorded vote says of the request and of the database. *)
Lemma post_vote_success_inv `{Runtime} (req : vote_request)
    (clock : nat -> Date) (d : db) :
  (post_vote req clock d).1 =
    Responded (201%Z, Message "Vote recorded successfully") ->
  exists e c,
    ObjectId_isValid (vote_electionId req) = true /\
    ObjectId_isValid (vote_candidateId req) = true /\
    Election_findById (vote_electionId req) d = Some e /\
    (startDate e <= clock 0%nat <= endDate e)%Z /\
    List.find (fun x => bool_decide (candidate_id x = vote_candidateId req))
              (candidates e) = Some c /\
    ~ has_vote (vote_electionId req) (vote_userId req) d /\
    (post_vote req clock d).2 =
      {| elections := elections d;
         votes := votes d ++ [vote_of req clock];
         journal := journal d ++ [InsertVote (vote_of req clock)] |}.
Proof.
  unfold post_vote, vote_start.
  destruct (ObjectId_isValid (vote_electionId req)) eqn:Hv1; simpl;
    [|discriminate].
  destruct (ObjectId_isValid (vote_candidateId req)) eqn:Hv2; simpl;
    [|discriminate].
  destruct (Election_findById (vote_electionId req) d) as [e|] eqn:Hfound;
    simpl; [|discriminate].
  destruct ((clock 0%nat <? startDate e)%Z || (clock 0%nat >? endDate e)%Z)
    eqn:Hopen; simpl; [discriminate|].
  destruct (List.find _ (candidates e)) as [c|] eqn:Hfind; simpl;
    [|discriminate].
  destruct (Vote_findOne (vote_electionId req) (vote_userId req) d)
    as [w|] eqn:Hone; simpl; [discriminate|].
  unfold Vote_save. simpl.
  destruct (existsb _ (votes d)) eqn:Hex; simpl; [discriminate|].
  intros _. exists e, c. repeat split; try done.
  - apply orb_false_iff in Hopen as [Hs _]. apply Z.ltb_ge in Hs. lia.
  - apply orb_false_iff in Hopen as [_ He]. rewrite gtb_ltb in He.
    apply Z.ltb_ge in He. lia.
  - intros Hvote. apply existsb_has_vote in Hvote. congruence.
Qed.

(** X3. Served alone, a vote is recorded (201) only when both identifiers
    are well formed, the election exists and is open at the time of the
    check (start <= now <= end), the candidate is one of the election's and
    the voter has no vote in it yet; the database then gains exactly that
    one vote, and its elections are untouched. *)
Theorem vote_recorded_only_when_eligible `{Runtime} (req : vote_request)
    (clock : nat -> Date) (d : db) :
  (post_vote req clock d).1 =
    Responded (201%Z, Message "Vote recorded successfully") ->
  (exists e c,
     Election_findById (vote_electionId req) d = Some e /\
     (startDate e <= clock 0%nat <= endDate e)%Z /\
     c ∈ candidates e /\ candidate_id c = vote_candidateId req) /\
  ObjectId_isValid (vote_electionId req) = true /\
  ObjectId_isValid (vote_candidateId req) = true /\
  ~ has_vote (vote_electionId req) (vote_userId req) d /\
  votes (post_vote req clock d).2 = (votes d ++ [vote_of req clock])%list /\
  elections (post_vote req clock d).2 = elections d.
Proof.
  intros Hok.
  destruct (post_vote_success_inv req clock d Hok)
    as (e & c & Hv1 & Hv2 & Hfound & Hopen & Hfind & Hnone & ->).
  split; [|by repeat split].
  exists e, c. repeat split; try done; try lia.
  - apply find_some in Hfind as [Hin _]. by apply list_elem_of_In.
  - apply find_some in Hfind as [_ Hc]. by apply bool_decide_eq_true in Hc.
Qed.

Lemma vote_recorded_only_when_eligible_witness :
  votes (post_vote (H:=demo_runtime) demo_vote_A demo_clock demo_db).2 =
    [vote_of demo_vote_A demo_clock].
Proof.
  apply (vote_recorded_only_when_eligible (H:=demo_runtime) demo_vote_A
           demo_clock demo_db). reflexivity.
Defined.

(** X4. Served alone, the request of a voter whose vote on the election
    is already stored is answered 400 "You have already voted in this
    election" when it passes the checks that come first (identifiers,
    election found and open, candidate of the election), and nothing is
    written. *)
Theorem duplicate_vote_rejected `{Runtime} (req : vote_request)
    (clock : nat -> Date) (d : db) (e : election) (c : candidate) :
  ObjectId_isValid (vote_electionId req) = true ->
  ObjectId_isValid (vote_candidateId req) = true ->
  Election_findById (vote_electionId req) d = Some e ->
  (startDate e <= clock 0%nat <= endDate e)%Z ->
  c ∈ candidates e -> candidate_id c = vote_candidateId req ->
  has_vote (vote_electionId req) (vote_userId req) d ->
  post_vote req clock d =
    (Responded (400%Z, Message "You have already voted in this election"), d).
Proof. apply post_vote_already_voted. Qed.

Lemma duplicate_vote_rejected_witness :
  post_vote (H:=demo_runtime) demo_vote_B demo_clock demo_db_voted =
    (Responded (400%Z, Message "You have already voted in this election"),
     demo_db_voted).
Proof.
  apply (duplicate_vote_rejected (H:=demo_runtime) demo_vote_B demo_clock
           demo_db_voted demo_election
           {| candidate_id := "bbbbbbbbbbbbbbbbbbbbbbbb";
              name := "B"; party := "Q"; bio := "b" |});
    try reflexivity.
  - simpl. unfold demo_clock. lia.
  - right. left.
  - exists (vote_of demo_vote_A demo_clock). repeat split. left.
Defined.

Lemma find_app_None {A} (f : A -> bool) (l l' : list A) :
  List.find f l = None -> List.find f (l ++ l') = List.find f l'.
Proof.
  induction l as [|x l IH]; simpl; [done|].
  destruct (f x); [discriminate | exact IH].
Qed.

Lemma Vote_findOne_None (eid voter : ObjectId) (d : db) :
  ~ has_vote eid voter d -> Vote_findOne eid voter d = None.
Proof.
  intros Hnone. destruct (Vote_findOne eid voter d) eqn:Hf; [|done].
  exfalso. apply Hnone. apply Vote_findOne_has_vote. by eexists.
Qed.

(** X5. Vote, then ask: before the vote the status of the voter on the
    election is [hasVoted: false] without candidate; after a recorded vote
    it is [hasVoted: true] with the vote stored and the identifier, name
    and party of the candidate voted for: a candidate of that election
    whose identifier is the one of the request. *)
Theorem vote_status_round_trip `{Runtime} (req : vote_request)
    (clock : nat -> Date) (d : db) :
  (post_vote req clock d).1 =
    Responded (201%Z, Message "Vote recorded successfully") ->
  (get_vote_status (vote_electionId req) (vote_userId req) d).1 =
    (200%Z, StatusJson {| hasVoted := false; voteId := None;
                          status_candidateId := None; candidateName := None;
                          candidateParty := None |}) /\
  exists e c,
    e ∈ elections d /\
    election_id e = vote_electionId req /\
    c ∈ candidates e /\
    candidate_id c = vote_candidateId req /\
    (get_vote_status (vote_electionId req) (vote_userId req)
                     (post_vote req clock d).2).1 =
      (200%Z, StatusJson {| hasVoted := true;
                            voteId := Some (vote_of req clock);
                            status_candidateId := Some (vote_candidateId req);
                            candidateName := Some (name c);
                            candidateParty := Some (party c) |}).
Proof.
  intros Hok.
  destruct (post_vote_success_inv req clock d Hok)
    as (e & c & Hv1 & Hv2 & Hfound & Hopen & Hfind & Hnone & ->).
  pose proof (Vote_findOne_None _ _ _ Hnone) as Hone.
  split.
  - unfold get_vote_status. rewrite Hv1, Hfound, Hone. reflexivity.
  - exists e, c.
    split.
    { apply find_some in Hfound as [Hin _]. by apply list_elem_of_In. }
    split; [by apply Election_findById_id in Hfound|].
    split.
    { apply find_some in Hfind as [Hin _]. by apply list_elem_of_In. }
    split.
    { apply find_some in Hfind as [_ Hc]. by apply bool_decide_eq_true in Hc. }
    unfold get_vote_status. rewrite Hv1. simpl.
    assert (Election_findById (vote_electionId req)
              {| elections := elections d;
                 votes := votes d ++ [vote_of req clock];
                 journal := journal d ++ [InsertVote (vote_of req clock)] |}
            = Some e) as -> by exact Hfound.
    unfold Vote_findOne in *. simpl.
    rewrite (find_app_None _ _ _ Hone). simpl.
    rewrite !bool_decide_eq_true_2 by done. simpl.
    rewrite Hfind. simpl.
    apply find_some in Hfind as [_ Hc]. apply bool_decide_eq_true in Hc.
    by rewrite Hc.
Qed.

Lemma vote_status_round_trip_witness :
  (get_vote_status (H:=demo_runtime) "eeeeeeeeeeeeeeeeeeeeeeee"
     "111111111111111111111111"
     (post_vote (H:=demo_runtime) demo_vote_B demo_clock demo_db).2).1 =
    (200%Z, StatusJson {| hasVoted := true;
                          voteId := Some (vote_of demo_vote_B demo_clock);
                          status_candidateId := Some "bbbbbbbbbbbbbbbbbbbbbbbb";
                          candidateName := Some "B";
                          candidateParty := Some "Q" |}).
Proof.
  destruct (vote_status_round_trip (H:=demo_runtime) demo_vote_B demo_clock
              demo_db) as (_ & e & c & He & _ & Hc & Hid & Hstatus).
  - reflexivity.
  - refine (eq_trans Hstatus _). clear Hstatus.
    apply elem_of_cons in He as [->|He]; [|by apply elem_of_nil in He].
    apply elem_of_cons in Hc as [->|Hc]; [discriminate Hid|].
    apply elem_of_cons in Hc as [->|Hc]; [reflexivity|].
    by apply elem_of_nil in Hc.
Defined.

(** ** More on the tally *)

Lemma votes_for_cons (v : vote) (vs : list vote) (c : candidate) :
  votes_for (v :: vs) c =
  (if bool_decide (vote_candidate v = candidate_id c) then 1 else 0) +
  votes_for vs c.
Proof. unfold votes_for. simpl. by case_bool_decide. Qed.

Lemma one_candidate_has_id (k : ObjectId) (cs : list candidate) :
  NoDup (candidate_id <$> cs) -> k ∈ candidate_id <$> cs ->
  sum_list_with (fun c => if bool_decide (k = candidate_id c) then 1 else 0) cs
    = 1.
Proof.
  induction cs as [|c cs IH]; csimpl; intros Hnd Hk.
  - by apply elem_of_nil in Hk.
  - apply NoDup_cons in Hnd as [Hc Hnd].
    case_bool_decide as Hkc.
    + subst k. f_equal.
      clear IH Hk Hnd. induction cs as [|x cs IH]; csimpl; [done|].
      apply not_elem_of_cons in Hc as [Hx Hc].
      rewrite bool_decide_eq_false_2 by done. by apply IH.
    + apply elem_of_cons in Hk as [Hk|Hk]; [done|].
      simpl. by apply IH.
Qed.

Lemma votes_for_add_up (vs : list vote) (cs : list candidate) :
  NoDup (candidate_id <$> cs) ->
  Forall (fun v => vote_candidate v ∈ candidate_id <$> cs) vs ->
  sum_list_with (votes_for vs) cs = length vs.
Proof.
  intros Hnd. induction 1 as [|v vs Hv Hvs IH]; simpl.
  - induction cs as [|c cs IHc]; csimpl; [done|].
    apply NoDup_cons in Hnd as [_ Hnd]. by rewrite IHc.
  - assert (sum_list_with (votes_for (v :: vs)) cs =
            sum_list_with (fun c => if bool_decide
                                      (vote_candidate v = candidate_id c)
                                    then 1 else 0) cs +
            sum_list_with (votes_for vs) cs) as ->.
    { clear. induction cs as [|c cs IHc]; csimpl; [done|].
      rewrite votes_for_cons, IHc. lia. }
    rewrite IH, (one_candidate_has_id (vote_candidate v) cs Hnd Hv). lia.
Qed.

Lemma sum_list_with_fmap {A B} (f : B -> nat) (g : A -> B) (l : list A) :
  sum_list_with f (g <$> l) = sum_list_with (fun x => f (g x)) l.
Proof. induction l as [|x l IH]; csimpl; [done|]. by rewrite IH. Qed.

Lemma sum_list_with_eq {A} (f g : A -> nat) (l : list A) :
  (forall x, f x = g x) -> sum_list_with f l = sum_list_with g l.
Proof. intros Hfg. induction l as [|x l IH]; csimpl; [done|]. by rewrite Hfg, IH. Qed.

(** X6. In the results of a completed election no row has more votes
    than totalVotes; and when the candidates of the election have distinct
    identifiers and every vote of the election names one of them, the votes
    of the rows add up to totalVotes. *)
Theorem result_rows_add_up `{Runtime} (electionId : string)
    (clock : nat -> Date) (d : db) (e : election) :
  ObjectId_isValid electionId = true ->
  Election_findById electionId d = Some e ->
  (endDate e < clock 0%nat)%Z ->
  exists r,
    get_results electionId clock d = ((200%Z, ResultsJson r), d) /\
    (forall row, row ∈ results r -> row_votes row <= totalVotes r) /\
    (NoDup (candidate_id <$> candidates e) ->
     Forall (fun v => vote_candidate v ∈ candidate_id <$> candidates e)
            (Vote_find electionId d) ->
     sum_list_with row_votes (results r) = totalVotes r).
Proof.
  intros Hvalid Hfound Hend.
  eexists. split; [by apply get_results_completed|]. split.
  - intros row Hrow. rewrite tally_results_perm in Hrow.
    apply list_elem_of_fmap in Hrow as (c & -> & _).
    rewrite row_votes_result_of. apply filter_length_le.
  - intros Hnd Hvotes. rewrite tally_results_perm.
    unfold candidate_rows. rewrite sum_list_with_fmap.
    rewrite (sum_list_with_eq _ (votes_for (Vote_find electionId d))).
    + by apply votes_for_add_up.
    + intros c. apply row_votes_result_of.
Qed.

Lemma result_rows_add_up_witness :
  exists r,
    get_results (H:=demo_runtime) "eeeeeeeeeeeeeeeeeeeeeeee" (fun _ => 250%Z)
                demo_db_two_votes = ((200%Z, ResultsJson r), demo_db_two_votes) /\
    sum_list_with row_votes (results r) = totalVotes r.
Proof.
  destruct (result_rows_add_up (H:=demo_runtime) "eeeeeeeeeeeeeeeeeeeeeeee"
              (fun _ => 250%Z) demo_db_two_votes demo_election)
    as (r & Hr & _ & Hsum); [reflexivity | reflexivity | simpl; lia |].
  exists r. split; [exact Hr|]. apply Hsum.
  - simpl. apply NoDup_cons. split; [|apply NoDup_singleton].
    intros Hin. apply list_elem_of_singleton in Hin. discriminate.
  - simpl. constructor; [by left|]. constructor; [|constructor].
    right. by left.
Defined.

(** X7. When the election has a candidate, the results have a first row
    and a first winner, and they are the same candidate: the row that
    comes first after the sort holds the greatest number of votes. *)
Theorem first_row_is_a_winner `{Runtime} (electionId : string)
    (clock : nat -> Date) (d : db) (e : election) :
  ObjectId_isValid electionId = true ->
  Election_findById electionId d = Some e ->
  (endDate e < clock 0%nat)%Z ->
  candidates e <> [] ->
  exists r row rest others,
    get_results electionId clock d = ((200%Z, ResultsJson r), d) /\
    results r = row :: rest /\
    winners r = row_candidate row :: others /\
    Forall (fun x => row_votes x <= row_votes row) rest.
Proof.
  intros Hvalid Hfound Hend Hne.
  pose proof (get_results_completed electionId clock d e Hvalid Hfound Hend)
    as Hres.
  set (vs := Vote_find electionId d) in *.
  set (t := clock 1%nat) in *.
  pose proof (Array_sort_sorted (candidate_rows e vs)) as Hsorted.
  pose proof (tally_results_perm e vs t) as Hperm.
  rewrite <- tally_results with (t := t) in Hsorted.
  destruct (results (tally e vs t)) as [|row rest] eqn:Hrows.
  { apply Permutation_nil in Hperm. unfold candidate_rows in Hperm.
    apply fmap_nil_inv in Hperm. done. }
  apply StronglySorted_inv in Hsorted as [_ Hhead].
  exists (tally e vs t), row, rest.
  assert (max_votes e vs = Some (row_votes row)) as Hmax.
  { rewrite <- (tally_maxVotes e vs t), Hrows. apply Math_max_Some. split.
    - csimpl. by left.
    - csimpl. constructor; [done|]. apply Forall_fmap.
      eapply Forall_impl; [exact Hhead|]. intros x Hx. exact Hx. }
  eexists. split; [exact Hres|]. split; [exact Hrows|]. split.
  - rewrite tally_winners, Hrows, Hmax. simpl.
    rewrite bool_decide_eq_true_2 by done. reflexivity.
  - exact Hhead.
Qed.

Lemma first_row_is_a_winner_witness :
  exists r row rest others,
    get_results (H:=demo_runtime) "eeeeeeeeeeeeeeeeeeeeeeee" (fun _ => 250%Z)
                demo_db_two_votes = ((200%Z, ResultsJson r), demo_db_two_votes) /\
    results r = row :: rest /\
    winners r = row_candidate row :: others /\
    Forall (fun x => row_votes x <= row_votes row) rest.
Proof.
  apply (first_row_is_a_winner (H:=demo_runtime) "eeeeeeeeeeeeeeeeeeeeeeee"
           (fun _ => 250%Z) demo_db_two_votes demo_election);
    [reflexivity | reflexivity | simpl; lia | discriminate].
Defined.

(** X8. Results and voting exclude each other: once the results of an
    election are served, a vote on it whose activity check is made at the
    same time or later is answered 400 "This election is not currently
    active", whatever the candidate and the voter, and nothing is written. *)
Theorem no_vote_once_results_are_out `{Runtime} (req : vote_request)
    (clockR clockV : nat -> Date) (d : db) :
  is_success (get_results (vote_electionId req) clockR d).1 = true ->
  ObjectId_isValid (vote_candidateId req) = true ->
  (clockR 0%nat <= clockV 0%nat)%Z ->
  post_vote req clockV d =
    (Responded (400%Z, Message "This election is not currently active"), d).
Proof.
  unfold get_results, post_vote, vote_start.
  destruct (ObjectId_isValid (vote_electionId req)); simpl; [|discriminate].
  destruct (Election_findById (vote_electionId req) d) as [e|] eqn:Hfound;
    simpl; [|discriminate].
  rewrite !gtb_ltb.
  destruct (Z.ltb_spec (endDate e) (clockR 0%nat)); simpl; [|discriminate].
  intros _ -> Hlater. simpl. rewrite Hfound, gtb_ltb.
  destruct (Z.ltb_spec (endDate e) (clockV 0%nat)); [|lia].
  by rewrite orb_true_r.
Qed.

Lemma no_vote_once_results_are_out_witness :
  post_vote (H:=demo_runtime) demo_vote_A (fun _ => 250%Z) demo_db =
    (Responded (400%Z, Message "This election is not currently active"),
     demo_db).
Proof.
  apply (no_vote_once_results_are_out (H:=demo_runtime) demo_vote_A
           (fun _ => 250%Z) (fun _ => 250%Z) demo_db);
    [reflexivity | reflexivity | lia].
Defined.

(** ** The life of an election *)

Lemma post_vote_well_formed `{Runtime} (req : vote_request)
    (clock : nat -> Date) (d : db) :
  db_well_formed d -> db_well_formed (post_vote req clock d).2.
Proof.
  intros Hd. unfold post_vote.
  pose proof (vote_step_well_formed req clock (vote_start req) d Hd) as H1.
  destruct (vote_step req clock (vote_start req) d) as [t1 d1].
  pose proof (vote_step_well_formed req clock t1 d1 H1) as H2.
  destruct (vote_step req clock t1 d1) as [t2 d2].
  by apply vote_step_well_formed.
Qed.

(** X9. The handlers that write keep the invariant of the elections: if
    every election of the database has at least two candidates and ends
    after it starts, the same holds after a create, an update, a delete and
    a vote, whatever the request and whether it succeeds or fails. *)
Theorem elections_stay_well_formed `{Runtime} (d : db) :
  db_well_formed d ->
  (forall req userId clock newId,
     db_well_formed (post_election req userId clock newId d).2) /\
  (forall electionId req now newId,
     db_well_formed (put_election electionId req now newId d).2) /\
  (forall electionId now thrown,
     db_well_formed (delete_election electionId now thrown d).2) /\
  (forall req clock, db_well_formed (post_vote req clock d).2).
Proof.
  intros Hd. repeat split; intros.
  - by apply post_election_well_formed.
  - by apply put_election_well_formed.
  - by apply delete_election_well_formed.
  - by apply post_vote_well_formed.
Qed.

Lemma elections_stay_well_formed_witness :
  db_well_formed
    (post_election (H:=demo_runtime) demo_create "000000000000000000000000"
                   demo_clock demo_newId demo_db).2.
Proof.
  apply (elections_stay_well_formed (H:=demo_runtime) demo_db).
  constructor; [|constructor]. split; simpl; lia.
Defined.

Lemma update_election_ids (id : ObjectId) (f : election -> election)
    (l : list election) :
  (forall x, election_id (f x) = election_id x) ->
  election_id <$> update_election id f l = election_id <$> l.
Proof.
  intros Hf. induction l as [|e l IH]; csimpl; [done|].
  case_bool_decide; csimpl; [by rewrite Hf | by rewrite IH].
Qed.

Lemma remove_election_sublist (id : ObjectId) (l : list election) :
  election_id <$> remove_election id l `sublist_of` election_id <$> l.
Proof.
  induction l as [|e l IH]; csimpl; [done|].
  case_bool_decide; csimpl; [by apply sublist_cons | by apply sublist_skip].
Qed.

Lemma find_not_elem_of (id : ObjectId) (l : list election) :
  id ∉ election_id <$> l ->
  List.find (fun x => bool_decide (election_id x = id)) l = None.
Proof.
  induction l as [|e l IH]; csimpl; [done|].
  intros Hn. apply not_elem_of_cons in Hn as [Hne Hn].
  rewrite bool_decide_eq_false_2 by done. by apply IH.
Qed.

Lemma find_remove_election (id : ObjectId) (l : list election) :
  NoDup (election_id <$> l) ->
  List.find (fun x => bool_decide (election_id x = id)) (remove_election id l)
    = None.
Proof.
  induction l as [|e l IH]; csimpl; [done|].
  intros Hnd. apply NoDup_cons in Hnd as [Hn Hnd].
  case_bool_decide as He; simpl.
  - subst id. by apply find_not_elem_of.
  - rewrite bool_decide_eq_false_2 by done. by apply IH.
Qed.

Lemma existsb_id_false (id : ObjectId) (l : list election) :
  existsb (fun x => bool_decide (election_id x = id)) l = false ->
  id ∉ election_id <$> l.
Proof.
  induction l as [|e l IH]; csimpl; [intros _; apply not_elem_of_nil|].
  intros Hex. apply orb_false_iff in Hex as [He Hex].
  apply bool_decide_eq_false in He.
  apply not_elem_of_cons. split; [congruence | by apply IH].
Qed.

Lemma post_election_unique_ids `{Runtime} (req : election_body)
    (userId : ObjectId) (clock : nat -> Date) (newId : nat -> ObjectId) (d : db) :
  unique_ids d -> unique_ids (post_election req userId clock newId d).2.
Proof.
  intros Hd. unfold post_election, Election_save, unique_ids.
  repeat case_match; simplify_eq; simpl; try done.
  all: rewrite fmap_app; apply NoDup_app; split; [done|]; split;
    [|apply NoDup_singleton].
  all: intros x Hx Hx'; apply list_elem_of_singleton in Hx'; subst x.
  all: match goal with Hex : existsb _ _ = false |- _ =>
         apply existsb_id_false in Hex; by apply Hex end.
Qed.

Lemma put_election_unique_ids `{Runtime} (electionId : string)
    (req : election_body) (now : Date) (newId : nat -> ObjectId) (d : db) :
  unique_ids d -> unique_ids (put_election electionId req now newId d).2.
Proof.
  intros Hd. unfold put_election, Election_findByIdAndUpdate, unique_ids.
  repeat case_match; simplify_eq; simpl; try done.
  all: by rewrite update_election_ids.
Qed.

Lemma delete_election_unique_ids `{Runtime} (electionId : string) (now : Date)
    (thrown : nat -> option exn) (d : db) :
  unique_ids d -> unique_ids (delete_election electionId now thrown d).2.
Proof.
  intros Hd.
  destruct (delete_election_cases electionId now thrown d)
    as [[-> _] | (e & _ & _ & _ & _ & _ & [(error & _ & ->) | [_ ->]])];
    unfold unique_ids in *; simpl; try done.
  eapply sublist_NoDup; [exact Hd|]. apply remove_election_sublist.
Qed.

(** X10. The handlers keep the identifiers of the elections distinct: a
    create whose generated identifier is already taken stores nothing, an
    update rewrites a document in place and a delete removes one. *)
Theorem election_ids_stay_unique `{Runtime} (d : db) :
  unique_ids d ->
  (forall req userId clock newId,
     unique_ids (post_election req userId clock newId d).2) /\
  (forall electionId req now newId,
     unique_ids (put_election electionId req now newId d).2) /\
  (forall electionId now thrown,
     unique_ids (delete_election electionId now thrown d).2).
Proof.
  intros Hd. repeat split; intros.
  - by apply post_election_unique_ids.
  - by apply put_election_unique_ids.
  - by apply delete_election_unique_ids.
Qed.

Lemma election_ids_stay_unique_witness :
  unique_ids
    (post_election (H:=demo_runtime) demo_create "000000000000000000000000"
                   demo_clock demo_newId demo_db).2.
Proof.
  apply (election_ids_stay_unique (H:=demo_runtime) demo_db).
  apply NoDup_singleton.
Defined.

(** X11. Delete, then read: once an election is deleted (identifiers
    being distinct) Get by id and the results answer 404 "Election not
    found" for its identifier, a vote on it is answered 404, and no vote
    that references it is left. *)
Theorem deleted_election_is_gone `{Runtime} (electionId : string)
    (now : Date) (thrown : nat -> option exn) (d : db) :
  unique_ids d ->
  is_success (delete_election electionId now thrown d).1 = true ->
  (forall now',
     (get_election electionId now'
                   (delete_election electionId now thrown d).2).1 =
       (404%Z, Message "Election not found")) /\
  (forall clock,
     (get_results electionId clock
                  (delete_election electionId now thrown d).2).1 =
       (404%Z, Message "Election not found")) /\
  (forall candidateId userId clock,
     ObjectId_isValid candidateId = true ->
     (post_vote {| vote_electionId := electionId;
                   vote_candidateId := candidateId;
                   vote_userId := userId |} clock
                (delete_election electionId now thrown d).2).1 =
       Responded (404%Z, Message "Election not found")) /\
  Vote_find electionId (delete_election electionId now thrown d).2 = [].
Proof.
  intros Hd Hok.
  assert (ObjectId_isValid electionId = true) as Hvalid.
  { revert Hok. unfold delete_election.
    by destruct (ObjectId_isValid electionId). }
  destruct (delete_election_cases electionId now thrown d)
    as [[_ Hno] | (e & Hfound & _ & _ & _ & _ &
                   [(error & _ & Hdel) | [_ Hdel]])];
    [congruence | by rewrite Hdel in Hok |].
  rewrite Hdel. clear Hok Hdel. simpl.
  assert (forall vs j,
            Election_findById electionId
              {| elections := remove_election electionId (elections d);
                 votes := vs; journal := j |} = None) as Hgone.
  { intros vs j. unfold Election_findById. simpl.
    by apply find_remove_election. }
  repeat split.
  - intros now'. unfold get_election. by rewrite Hvalid, Hgone.
  - intros clock. unfold get_results. by rewrite Hvalid, Hgone.
  - intros candidateId userId clock Hc. unfold post_vote, vote_start. simpl.
    rewrite Hvalid, Hc. simpl. by rewrite Hgone.
  - unfold Vote_find. simpl. apply filter_filter_negb.
Qed.

Lemma deleted_election_is_gone_witness :
  (get_election (H:=demo_runtime) "eeeeeeeeeeeeeeeeeeeeeeee" 60
     (delete_election (H:=demo_runtime) "eeeeeeeeeeeeeeeeeeeeeeee" 50
                      (fun _ => None) demo_db).2).1 =
    (404%Z, Message "Election not found").
Proof.
  apply (deleted_election_is_gone (H:=demo_runtime) "eeeeeeeeeeeeeeeeeeeeeeee"
           50 (fun _ => None) demo_db); [apply NoDup_singleton | reflexivity].
Defined.

(** X12. Create, then read: the election that a successful create
    answers with is appended to the collection under the generated
    identifier, with the caller as creator and a stored status equal to
    the status derived from the time of the creation; it has at least two
    candidates and ends after it starts; no vote is touched; and Get by id
    then serves its fields with, as status, the one derived from the time
    of the read. *)
Theorem created_election_can_be_read `{Runtime} (req : election_body)
    (userId : ObjectId) (clock : nat -> Date) (newId : nat -> ObjectId)
    (d : db) (e : election) :
  (post_election req userId clock newId d).1 = (201%Z, ElectionJson e) ->
  election_id e = newId 0%nat /\
  createdBy e = userId /\
  stored_status e =
    time_derived_status (clock 0%nat) (startDate e) (endDate e) /\
  well_formed e /\
  elections (post_election req userId clock newId d).2 =
    (elections d ++ [e])%list /\
  votes (post_election req userId clock newId d).2 = votes d /\
  (ObjectId_isValid (newId 0%nat) = true ->
   forall now,
     (get_election (newId 0%nat) now
                   (post_election req userId clock newId d).2).1 =
       (200%Z, ElectionJson
          {| election_id := newId 0%nat;
             title := title e;
             description := description e;
             startDate := startDate e;
             endDate := endDate e;
             stored_status :=
               time_derived_status now (startDate e) (endDate e);
             candidates := candidates e;
             createdBy := userId;
             createdAt := createdAt e |})).
Proof.
  unfold post_election.
  destruct (_ || negb (candidates_truthy (body_candidates req))); simpl;
    [discriminate|].
  destruct (body_candidates req) as [| |l]; simpl; try discriminate.
  destruct (length l <? 2)%nat eqn:Hlen; simpl; [discriminate|].
  destruct (first_incomplete l); simpl; [discriminate|].
  destruct (new_Date (body_startDate req)) as [start|]; simpl;
    [|discriminate].
  destruct (new_Date (body_endDate req)) as [finish|]; simpl; [|discriminate].
  destruct (finish <=? start)%Z eqn:Hdates; simpl; [discriminate|].
  apply Z.leb_gt in Hdates. apply Nat.ltb_ge in Hlen.
  unfold Election_save.
  destruct (Election_validate _); simpl; [|discriminate].
  destruct (existsb _ (elections d)) eqn:Hex; simpl; [discriminate|].
  intros [= <-]. simpl.
  assert (Election_findById (newId 0%nat) d = None) as Hfresh.
  { unfold Election_findById. by apply find_not_elem_of, existsb_id_false. }
  split; [done|]. split; [done|]. split.
  { unfold time_derived_status. rewrite !gtb_ltb, geb_leb.
    destruct (Z.ltb_spec finish (clock 0%nat)), (Z.leb_spec start (clock 0%nat));
      repeat case_decide; try done; lia. }
  split.
  { split; simpl; [|done]. by rewrite length_imap. }
  assert (forall (j : list write_op) (x : election),
            election_id x = newId 0%nat ->
            Election_findById (newId 0%nat)
              {| elections := elections d ++ [x]; votes := votes d;
                 journal := j |} = Some x) as Hnew.
  { intros j x Hx. unfold Election_findById in *. simpl.
    rewrite (find_app_None _ _ _ Hfresh). simpl.
    by rewrite bool_decide_eq_true_2. }
  split; [done|]. split; [done|].
  intros Hvalid now. unfold get_election. rewrite Hvalid. simpl.
  rewrite Hnew by done. simpl.
  unfold time_derived_status. rewrite !gtb_ltb.
  destruct (Z.ltb_spec now start), (Z.ltb_spec finish now);
    repeat case_decide; try done; lia.
Qed.

Lemma created_election_can_be_read_witness :
  exists e,
    (post_election (H:=demo_runtime) demo_create "000000000000000000000000"
                   demo_clock demo_newId demo_db).1 = (201%Z, ElectionJson e) /\
    stored_status e = upcoming /\
    (get_election (H:=demo_runtime) "cccccccccccccccccccccccc" 350
       (post_election (H:=demo_runtime) demo_create "000000000000000000000000"
                      demo_clock demo_newId demo_db).2).1 =
      (200%Z, ElectionJson
         {| election_id := "cccccccccccccccccccccccc";
            title := title e;
            description := description e;
            startDate := startDate e;
            endDate := endDate e;
            stored_status := active;
            candidates := candidates e;
            createdBy := "000000000000000000000000";
            createdAt := createdAt e |}).
Proof.
  eexists. split; [reflexivity|].
  destruct (created_election_can_be_read (H:=demo_runtime) demo_create
              "000000000000000000000000" demo_clock demo_newId demo_db _
              eq_refl) as (_ & _ & Hstatus & _ & _ & _ & Hget).
  split; [exact Hstatus|]. apply (Hget eq_refl 350%Z).
Defined.




(** ** Accounts: login, deactivation and the profile *)

Lemma login_ok_response `{UserModel} (voterID_ : voterID_value)
    (password_ : string) (users : list user) (u : user) :
  User_findOne_voterID voterID_ users = Some u ->
  (login voterID_ password_ users).1 = 200%Z ->
  login voterID_ password_ users =
    (200%Z, LoginJson (jwt_sign (user_id u) (user_role u) (voterID u))
                      (public_user u)).
Proof.
  unfold login. intros ->. unfold public_user.
  destruct (isActive u); simpl; [|discriminate].
  destruct (comparePassword u password_); simpl; [|discriminate].
  destruct (negb (isVerified u) && production); simpl; [discriminate|].
  intros _. reflexivity.
Qed.

(** [find] answers with the first element that passes the test. *)
Lemma find_Some_first {A} (f : A -> bool) (l : list A) (u : A) :
  List.find f l = Some u <->
  exists before after,
    l = (before ++ u :: after)%list /\
    Forall (fun x => f x = false) before /\ f u = true.
Proof.
  split.
  - induction l as [|x l IH]; simpl; [discriminate|].
    destruct (f x) eqn:Hx.
    + intros [= ->]. exists [], l. by repeat split.
    + intros Hf. destruct (IH Hf) as (before & after & -> & Hb & Hu).
      exists (x :: before), after. repeat split; [|done]. by constructor.
  - intros (before & after & -> & Hb & Hu).
    induction Hb as [|x before Hx _ IH]; simpl; [by rewrite Hu|].
    by rewrite Hx.
Qed.

(** X14. Login answers 200 exactly when the first account of the
    collection that the supplied voter identifier selects is active, the
    password matches it, and it is verified or the deployment is not
    production; the answer then carries the token signed for the
    identifier, role and voter identifier of that account, and its
    public fields. A string selects the accounts that have it as voter
    identifier; an object of query operators, which the route passes on
    unchanged, selects the accounts whose voter identifier satisfies the
    operators. *)
Theorem login_succeeds_iff `{UserModel} (v : voterID_value)
    (password_ : string) (users : list user) :
  let selected (u : user) : Prop :=
    match v with
    | VoterIDString s => voterID u = s
    | VoterIDOperators selects => selects (voterID u) = true
    end in
  ((login v password_ users).1 = 200%Z <->
   exists before u after,
     users = (before ++ u :: after)%list /\
     Forall (fun x => ~ selected x) before /\ selected u /\
     isActive u = true /\ comparePassword u password_ = true /\
     (isVerified u = true \/ production = false)) /\
  (forall before u after,
     users = (before ++ u :: after)%list ->
     Forall (fun x => ~ selected x) before -> selected u ->
     (login v password_ users).1 = 200%Z ->
     login v password_ users =
       (200%Z, LoginJson (jwt_sign (user_id u) (user_role u) (voterID u))
          {| login_id := user_id u;
             login_fullName := fullName u;
             login_email := email u;
             login_voterID := voterID u;
             login_role := user_role u;
             login_isVerified := isVerified u;
             login_isActive := true |})).
Proof.
  intros selected.
  assert (forall x, voterID_selects v x = true <-> selected x) as Hsel.
  { intros x. unfold voterID_selects, selected. destruct v; [|done].
    apply bool_decide_eq_true. }
  assert (forall before u after,
            users = (before ++ u :: after)%list ->
            Forall (fun x => ~ selected x) before -> selected u ->
            User_findOne_voterID v users = Some u) as Hfirst.
  { intros before u after Husers Hbefore Hu.
    apply find_Some_first. exists before, after.
    split; [done|]. split; [|by apply Hsel].
    eapply Forall_impl; [exact Hbefore|]. intros x Hx. simpl in Hx.
    destruct (voterID_selects v x) eqn:Hvx; [|done].
    exfalso. by apply Hx, Hsel. }
  split; [split|].
  - unfold login.
    destruct (User_findOne_voterID v users) as [u|] eqn:Hu; [|discriminate].
    apply find_Some_first in Hu as (before & after & Husers & Hbefore & Hu).
    assert (Forall (fun x => ~ selected x) before) as Hbefore'.
    { eapply Forall_impl; [exact Hbefore|]. intros x Hx Hs. simpl in Hx.
      apply Hsel in Hs. congruence. }
    apply Hsel in Hu.
    destruct (isActive u) eqn:Ha; simpl; [|discriminate].
    destruct (comparePassword u password_) eqn:Hp; simpl; [|discriminate].
    destruct (isVerified u) eqn:Hv; simpl.
    + intros _. exists before, u, after. repeat split; auto.
    + destruct production eqn:Hprod; simpl; [discriminate|].
      intros _. exists before, u, after. repeat split; auto.
  - intros (before & u & after & Husers & Hbefore & Hu & Ha & Hp & Hv).
    unfold login. rewrite (Hfirst before u after Husers Hbefore Hu).
    rewrite Ha, Hp. simpl.
    destruct Hv as [-> | ->]; simpl; [done|].
    by rewrite andb_false_r.
  - intros before u after Husers Hbefore Hu Hok.
    pose proof (Hfirst before u after Husers Hbefore Hu) as Hfound.
    rewrite (login_ok_response v password_ users u Hfound Hok).
    unfold public_user. do 3 f_equal.
    unfold login in Hok. rewrite Hfound in Hok.
    destruct (isActive u); [done | discriminate].
Qed.

(** A login with the voter identifier and password of an account; and a
    login that sends the operators [{ "$ne": "" }] in place of the voter
    identifier with the password of the first account, the admin. *)
Lemma login_succeeds_iff_witness :
  (login (H:=demo_users) "VOT654321" "secret" [demo_admin; demo_voter]).1 =
    200%Z /\
  (login (H:=demo_users)
     (VoterIDOperators (fun s => negb (bool_decide (s = ""))))
     "secret" [demo_admin; demo_voter]).1 = 200%Z.
Proof.
  split.
  - apply (login_succeeds_iff (H:=demo_users) "VOT654321" "secret"
             [demo_admin; demo_voter]).
    exists [demo_admin], demo_voter, [].
    split; [reflexivity|]. split.
    { constructor; [discriminate | constructor]. }
    split; [reflexivity|]. split; [reflexivity|]. split; [reflexivity|].
    by right.
  - apply (login_succeeds_iff (H:=demo_users)
             (VoterIDOperators (fun s => negb (bool_decide (s = ""))))
             "secret" [demo_admin; demo_voter]).
    exists [], demo_admin, [demo_voter].
    split; [reflexivity|]. split; [constructor|].
    split; [reflexivity|]. split; [reflexivity|]. split; [reflexivity|].
    by right.
Defined.

Lemma find_voterID_update_user (id : ObjectId) (v : string)
    (f : user -> user) (users : list user) (u : user) :
  (forall x, voterID (f x) = voterID x) ->
  List.find (fun x => bool_decide (voterID x = v)) users = Some u ->
  List.find (fun x => bool_decide (user_id x = id)) users = Some u ->
  List.find (fun x => bool_decide (voterID x = v)) (update_user id f users)
    = Some (f u).
Proof.
  intros Hf. induction users as [|x l IH]; [discriminate|].
  intros Hv Hi.
  pose proof (find_some _ _ Hv) as [_ Hv'].
  pose proof (find_some _ _ Hi) as [_ Hi'].
  apply bool_decide_eq_true in Hv', Hi'. simpl in *.
  case_bool_decide as Hxi; case_bool_decide as Hxv; simplify_eq; simpl.
  - rewrite Hf. by rewrite bool_decide_eq_true_2.
  - rewrite bool_decide_eq_false_2 by done. by apply IH.
Qed.

(** X15. Deactivate, then log in: once an account has deactivated itself,
    a login with its voter identifier is answered 403 "Account has been
    deleted", whatever the password. *)
Theorem deactivated_account_cannot_login `{UserModel} (users : list user)
    (u : user) (password_ : string) :
  User_findById (user_id u) users = Some u ->
  User_findOne_voterID (voterID u) users = Some u ->
  (deactivate (user_id u) users).1 =
    (200%Z, AuthOutcome true "Account has been Deleted successfully") /\
  login (voterID u) password_ (deactivate (user_id u) users).2 =
    (403%Z, AuthMessage "Account has been deleted").
Proof.
  intros Hid Hv. unfold deactivate. rewrite Hid. simpl. split; [done|].
  unfold login, User_findOne_voterID in *.
  change (voterID_selects (VoterIDString (voterID u)))
    with (fun x => bool_decide (voterID x = voterID u)) in *.
  rewrite (find_voterID_update_user (user_id u) (voterID u)
             (set_isActive false) users u); done.
Qed.

Lemma deactivated_account_cannot_login_witness :
  login (H:=demo_users) "VOT654321" "secret"
        (deactivate "222222222222222222222222" [demo_admin; demo_voter]).2 =
    (403%Z, AuthMessage "Account has been deleted").
Proof.
  apply (deactivated_account_cannot_login (H:=demo_users)
           [demo_admin; demo_voter] demo_voter "secret"); reflexivity.
Defined.

Lemma update_user_other (id : ObjectId) (f : user -> user) (users : list user)
    (w : user) :
  List.find (fun x => bool_decide (user_id x = id)) users = Some w ->
  forall i x, users !! i = Some x -> x <> w ->
    update_user id f users !! i = Some x.
Proof.
  induction users as [|y l IH]; simpl; [discriminate|].
  case_bool_decide as Hy.
  - intros [= ->] [|i] x Hx Hne; simpl in *; [congruence | done].
  - intros Hw [|i] x Hx Hne; simpl in *; [done|]. by apply (IH Hw).
Qed.

(** X16. The admin route never alters an admin account: whatever the
    target, every account whose role is admin is afterwards at its place
    in the collection, unchanged. *)
Theorem deactivate_voter_spares_admins `{UserModel} (voterId : ObjectId)
    (users : list user) (i : nat) (u : user) :
  users !! i = Some u -> user_role u = admin ->
  (deactivate_voter voterId users).2 !! i = Some u.
Proof.
  intros Hi Hrole. unfold deactivate_voter.
  destruct (User_findById voterId users) as [w|] eqn:Hw; [|done].
  case_bool_decide as Hadmin; [done|].
  destruct (User_validate _); simpl; [|done].
  apply (update_user_other voterId _ users w Hw); [done|].
  intros ->. done.
Qed.

Lemma deactivate_voter_spares_admins_witness :
  (deactivate_voter (H:=demo_users) "222222222222222222222222"
                    [demo_admin; demo_voter]).2 !! 0%nat = Some demo_admin.
Proof.
  apply (deactivate_voter_spares_admins (H:=demo_users)
           "222222222222222222222222" [demo_admin; demo_voter] 0 demo_admin);
    reflexivity.
Defined.

(** X17. A profile update whose age is a number other than 0 below 18
    or above 120 is answered 400 "Age must be between 18 and 120" before
    any other check, and nothing is written. *)
Theorem profile_age_out_of_range_rejected `{UserModel} (userId : ObjectId)
    (req : profile_body) (users : list user) (n : Z) :
  profile_age req = Some n -> n <> 0%Z -> (n < 18 \/ 120 < n)%Z ->
  put_profile userId req users =
    ((400%Z, AuthMessage "Age must be between 18 and 120"), users).
Proof. apply put_profile_age_guard. Qed.

Lemma profile_age_out_of_range_rejected_witness :
  put_profile (H:=demo_users) "222222222222222222222222"
    {| profile_fullName := "Jane Smith";
       profile_email := "jane.smith@example.com";
       profile_phone := None; profile_age := Some 121%Z;
       profile_voterID := "VOT654321" |} [demo_admin; demo_voter] =
    ((400%Z, AuthMessage "Age must be between 18 and 120"),
     [demo_admin; demo_voter]).
Proof.
  apply (profile_age_out_of_range_rejected (H:=demo_users)
           "222222222222222222222222" _ [demo_admin; demo_voter] 121);
    [reflexivity | lia | lia].
Defined.

(** ** Accounts: the keys stay distinct *)

Section UserKeys.

Context (g : user -> string).

Lemma update_user_keys (id : ObjectId) (f : user -> user) (l : list user) :
  (forall x, g (f x) = g x) -> g <$> update_user id f l = g <$> l.
Proof.
  intros Hf. induction l as [|x l IH]; csimpl; [done|].
  case_bool_decide; csimpl; [by rewrite Hf | by rewrite IH].
Qed.

Lemma update_user_found_keys (id : ObjectId) (f : user -> user)
    (l : list user) (w : user) :
  List.find (fun x => bool_decide (user_id x = id)) l = Some w ->
  g (f w) = g w -> g <$> update_user id f l = g <$> l.
Proof.
  intros Hw Hf. revert Hw. induction l as [|x l IH]; csimpl; [done|].
  case_bool_decide; csimpl.
  - intros [= ->]. by rewrite Hf.
  - intros Hw. by rewrite IH.
Qed.

Lemma elem_of_update_user (id : ObjectId) (f : user -> user) (l : list user)
    (z : user) :
  z ∈ update_user id f l ->
  z ∈ l \/ exists y, y ∈ l /\ user_id y = id /\ z = f y.
Proof.
  induction l as [|x l IH]; simpl; [by left|].
  case_bool_decide as Hx.
  - intros Hz. apply elem_of_cons in Hz as [->|Hz].
    + right. exists x. split; [by left | done].
    + left. by right.
  - intros Hz. apply elem_of_cons in Hz as [->|Hz]; [left; by left|].
    destruct (IH Hz) as [Hin | (y & Hy & Hid & ->)].
    + left. by right.
    + right. exists y. split; [by right | done].
Qed.

(** Setting the key of the document [id] to [k], a value that no other
    document has, keeps the keys distinct. *)
Lemma update_user_new_key (id : ObjectId) (f : user -> user) (k : string)
    (l : list user) :
  (forall x, g (f x) = k) ->
  NoDup (user_id <$> l) -> NoDup (g <$> l) ->
  (forall x, x ∈ l -> user_id x <> id -> g x <> k) ->
  NoDup (g <$> update_user id f l).
Proof.
  intros Hf. induction l as [|x l IH]; csimpl; intros Hids Hkeys Hother;
    [constructor|].
  apply NoDup_cons in Hids as [Hx Hids].
  apply NoDup_cons in Hkeys as [Hgx Hkeys].
  case_bool_decide as Hid; csimpl.
  - apply NoDup_cons. split; [|done].
    rewrite Hf. intros Hin. apply list_elem_of_fmap in Hin as (y & Hk & Hy).
    apply (Hother y); [by right | | done].
    intros Hyid. apply Hx. apply list_elem_of_fmap. exists y.
    split; [congruence | done].
  - apply NoDup_cons. split.
    + intros Hin. apply list_elem_of_fmap in Hin as (z & Hz & Hzin).
      apply elem_of_update_user in Hzin as [Hzin | (y & Hy & Hyid & ->)].
      * apply Hgx. apply list_elem_of_fmap. by exists z.
      * rewrite Hf in Hz. apply (Hother x); [by left | done | done].
    + apply IH; [done | done |]. intros y Hy. apply Hother. by right.
Qed.

End UserKeys.

Lemma find_none_other (id : ObjectId) (e v : string) (users : list user) :
  User_findOne_other id e v users = None ->
  forall x, x ∈ users -> user_id x <> id -> email x <> e /\ voterID x <> v.
Proof.
  intros Hnone x Hx Hid. unfold User_findOne_other in Hnone.
  apply list_elem_of_In in Hx.
  pose proof (find_none _ _ Hnone x Hx) as Hf. simpl in Hf.
  rewrite bool_decide_eq_false_2 in Hf by done. simpl in Hf.
  apply orb_false_iff in Hf as [He Hv].
  by apply bool_decide_eq_false in He, Hv.
Qed.

Lemma register_users_unique `{UserModel} (req : register_body)
    (newId : ObjectId) (now : Date) (users : list user) :
  users_unique users -> users_unique (register req newId now users).2.
Proof.
  intros (Hids & Hemails & Hvoters). unfold register, User_save.
  destruct (User_findOne_email_or_voterID _ _ users); simpl; [done|].
  destruct (User_validate _); simpl; [|done].
  destruct (existsb _ users) eqn:Hex; simpl; [done|].
  assert (forall x, x ∈ users ->
            user_id x <> newId /\ email x <> reg_email req /\
            voterID x <> reg_voterID req) as Hfresh.
  { intros x Hx. apply list_elem_of_In in Hx.
    destruct (decide (user_id x = newId \/ email x = reg_email req \/
                      voterID x = reg_voterID req)) as [Hbad|Hok]; [|tauto].
    exfalso. assert (existsb
      (fun x => bool_decide (user_id x = newId) ||
                bool_decide (email x = reg_email req) ||
                bool_decide (voterID x = reg_voterID req)) users = true)
      as Htrue; [|simpl in Hex; congruence].
    apply existsb_exists. exists x. split; [done|].
    destruct Hbad as [Hb|[Hb|Hb]]; rewrite (bool_decide_eq_true_2 _ Hb);
      by rewrite ?orb_true_r. }
  repeat split; rewrite fmap_app; apply NoDup_app; (split; [done|]);
    (split; [|apply NoDup_singleton]);
    intros k Hk Hk'; apply list_elem_of_singleton in Hk'; subst k;
    apply list_elem_of_fmap in Hk as (x & Hkx & Hx);
    destruct (Hfresh x Hx) as (? & ? & ?); simpl in Hkx; congruence.
Qed.

Lemma put_profile_users_unique `{UserModel} (userId : ObjectId)
    (req : profile_body) (users : list user) :
  users_unique users -> users_unique (put_profile userId req users).2.
Proof.
  intros (Hids & Hemails & Hvoters). unfold put_profile.
  destruct (age_rejected _); simpl; [done|].
  destruct (phone_rejected _); simpl; [done|].
  destruct (User_findOne_other _ _ _ users) eqn:Hother; simpl; [done|].
  pose proof (find_none_other _ _ _ _ Hother) as Hfree.
  unfold User_findByIdAndUpdate_set.
  destruct (User_validate_set req); simpl; [|done].
  destruct (User_findById userId users); simpl; [|done].
  destruct (existsb _ users); simpl; [done|].
  repeat split.
  - by rewrite update_user_keys.
  - apply (update_user_new_key email userId _ (profile_email req)); try done.
    intros x Hx Hid. by apply Hfree.
  - apply (update_user_new_key voterID userId _ (profile_voterID req));
      try done.
    intros x Hx Hid. by apply Hfree.
Qed.

Lemma deactivate_users_unique (userId : ObjectId) (users : list user) :
  users_unique users -> users_unique (deactivate userId users).2.
Proof.
  intros (Hids & Hemails & Hvoters). unfold deactivate.
  destruct (User_findById userId users); simpl; [|done].
  repeat split; by rewrite update_user_keys.
Qed.

Lemma deactivate_voter_users_unique `{UserModel} (voterId : ObjectId)
    (users : list user) :
  users_unique users -> users_unique (deactivate_voter voterId users).2.
Proof.
  intros (Hids & Hemails & Hvoters). unfold deactivate_voter.
  destruct (User_findById voterId users) as [w|] eqn:Hw; simpl; [|done].
  case_bool_decide; simpl; [done|].
  destruct (User_validate _); simpl; [|done].
  repeat split; by rewrite (update_user_found_keys _ voterId _ users w Hw).
Qed.

(** X18. The routes that write accounts keep the three keys of the user
    collection distinct: after a registration, a profile update, a
    self-service deactivation and a deactivation by an admin, whether
    they succeed or fail, no two accounts share an identifier, an email or
    a voter identifier if none did before. *)
Theorem user_keys_stay_unique `{UserModel} (users : list user) :
  users_unique users ->
  (forall req newId now, users_unique (register req newId now users).2) /\
  (forall userId req, users_unique (put_profile userId req users).2) /\
  (forall userId, users_unique (deactivate userId users).2) /\
  (forall voterId, users_unique (deactivate_voter voterId users).2).
Proof.
  intros Hu. split; [|split; [|split]]; intros.
  - by apply register_users_unique.
  - by apply put_profile_users_unique.
  - by apply deactivate_users_unique.
  - by apply deactivate_voter_users_unique.
Qed.

Lemma user_keys_stay_unique_witness :
  users_unique
    (register (H:=demo_users)
       {| reg_fullName := "Test User"; reg_email := "test@example.com";
          reg_voterID := "VOT123123"; reg_password := "password123";
          reg_age := Some 25%Z |}
       "333333333333333333333333" 20 [demo_admin; demo_voter]).2.
Proof.
  apply (user_keys_stay_unique (H:=demo_users) [demo_admin; demo_voter]).
  repeat split; simpl; (apply NoDup_cons; split; [|apply NoDup_singleton]);
    intros Hin; apply list_elem_of_singleton in Hin; discriminate.
Defined.

Lemma find_voterID_app_new (v : string) (users : list user) (u : user) :
  List.find (fun x => bool_decide (email x = email u) ||
                      bool_decide (voterID x = v)) users = None ->
  voterID u = v ->
  List.find (fun x => bool_decide (voterID x = v)) (users ++ [u]) = Some u.
Proof.
  intros Hnone Hv. rewrite find_app_None.
  - simpl. by rewrite bool_decide_eq_true_2.
  - destruct (List.find (fun x => bool_decide (voterID x = v)) users)
      as [x|] eqn:Hx; [|done].
    apply find_some in Hx as [Hin Hx]. apply bool_decide_eq_true in Hx.
    pose proof (find_none _ _ Hnone x Hin) as Hf. simpl in Hf.
    rewrite (bool_decide_eq_true_2 _ Hx), orb_true_r in Hf. discriminate.
Qed.

(** X19. Register, then log in: when the user model accepts the password
    it hashed itself and makes new accounts active, a registration that
    is answered 201 is followed by a successful login with the registered
    voter identifier and password, as a verified account with the model's
    default role. *)
Theorem registered_account_can_login `{UserModel} (req : register_body)
    (newId : ObjectId) (now : Date) (users : list user) :
  (forall u p, password u = hashPassword p -> comparePassword u p = true) ->
  default_isActive = true ->
  (register req newId now users).1.1 = 201%Z ->
  exists token u,
    login (reg_voterID req) (reg_password req)
          (register req newId now users).2 = (200%Z, LoginJson token u) /\
    login_id u = newId /\ login_voterID u = reg_voterID req /\
    login_email u = reg_email req /\ login_role u = default_role /\
    login_isVerified u = true.
Proof.
  intros Hhash Hactive. unfold register, User_save.
  destruct (User_findOne_email_or_voterID _ _ users) eqn:Hfree; simpl;
    [discriminate|].
  destruct (User_validate _); simpl; [|discriminate].
  destruct (existsb _ users); simpl; [discriminate|].
  intros _. unfold login, User_findOne_voterID.
  change (voterID_selects (VoterIDString (reg_voterID req)))
    with (fun x => bool_decide (voterID x = reg_voterID req)).
  erewrite find_voterID_app_new; [|exact Hfree | reflexivity].
  simpl. rewrite Hactive. simpl. rewrite Hhash by reflexivity. simpl.
  eexists _, _. split; [reflexivity|]. by repeat split.
Qed.

Lemma registered_account_can_login_witness :
  let req := {| reg_fullName := "Test User"; reg_email := "test@example.com";
                reg_voterID := "VOT123123"; reg_password := "password123";
                reg_age := Some 25%Z |} in
  exists token u,
    login (H:=demo_users) "VOT123123" "password123"
          (register (H:=demo_users) req "333333333333333333333333" 20
                    [demo_admin; demo_voter]).2 = (200%Z, LoginJson token u) /\
    login_id u = "333333333333333333333333".
Proof.
  intros req.
  destruct (registered_account_can_login (H:=demo_users) req
              "333333333333333333333333" 20 [demo_admin; demo_voter])
    as (token & u & Hlogin & Hid & _).
  - intros x p Hp. simpl. by apply bool_decide_eq_true.
  - reflexivity.
  - reflexivity.
  - exists token, u. split; [exact Hlogin | exact Hid].
Defined.

(** The update of the account found rewrites that account in place. *)
Lemma update_user_in_place (id : ObjectId) (f : user -> user)
    (l : list user) (u : user) :
  List.find (fun x => bool_decide (user_id x = id)) l = Some u ->
  exists before after,
    l = (before ++ u :: after)%list /\
    update_user id f l = (before ++ f u :: after)%list.
Proof.
  induction l as [|x l IH]; simpl; [discriminate|].
  case_bool_decide as Hx.
  - intros [= ->]. by exists [], l.
  - intros Hf. destruct (IH Hf) as (before & after & -> & ->).
    by exists (x :: before), after.
Qed.

(** X20. Update the profile, then read it: a profile update that is
    answered 200 rewrites the caller's account in place and leaves every
    other account as it was; the stored account has the name, email and
    voter identifier of the request, and the age and phone of the request
    where it has them; its identifier, role, flags, creation time and
    password are unchanged. The answer is that account with the password
    left out, and reading the profile afterwards gives the same. *)
Theorem profile_update_round_trip `{UserModel} (userId : ObjectId)
    (req : profile_body) (users : list user) :
  (put_profile userId req users).1.1 = 200%Z ->
  exists u u' before after,
    users = (before ++ u :: after)%list /\
    user_id u = userId /\
    (put_profile userId req users).2 = (before ++ u' :: after)%list /\
    user_id u' = userId /\ user_role u' = user_role u /\
    isActive u' = isActive u /\ isVerified u' = isVerified u /\
    user_createdAt u' = user_createdAt u /\
    password u' = password u /\
    fullName u' = profile_fullName req /\ email u' = profile_email req /\
    voterID u' = profile_voterID req /\
    age u' = match profile_age req with Some a => Some a | None => age u end /\
    phone u' =
      match profile_phone req with Some p => Some p | None => phone u end /\
    (put_profile userId req users).1 =
      (200%Z, UserJson
         {| user_id := userId; fullName := fullName u'; email := email u';
            voterID := voterID u'; password := ""; age := age u';
            phone := phone u'; user_role := user_role u';
            isVerified := isVerified u'; isActive := isActive u';
            user_createdAt := user_createdAt u' |}) /\
    get_profile userId (put_profile userId req users).2 =
      (put_profile userId req users).1.
Proof.
  unfold put_profile.
  destruct (age_rejected _); simpl; [discriminate|].
  destruct (phone_rejected _); simpl; [discriminate|].
  destruct (User_findOne_other _ _ _ users); simpl; [discriminate|].
  unfold User_findByIdAndUpdate_set.
  destruct (User_validate_set req); simpl; [|discriminate].
  destruct (User_findById userId users) as [u|] eqn:Hu; simpl; [|discriminate].
  destruct (existsb _ users); simpl; [discriminate|].
  intros _.
  assert (user_id u = userId) as Hid.
  { unfold User_findById in Hu. apply find_some in Hu as [_ Hu].
    by apply bool_decide_eq_true in Hu. }
  destruct (update_user_in_place userId (apply_profile req) users u Hu)
    as (before & after & Husers & Hupdated).
  exists u, (apply_profile req u), before, after.
  split; [done|]. split; [done|]. split; [done|].
  simpl. do 11 (split; [done|]).
  split.
  { unfold without_password. simpl. by rewrite Hid. }
  unfold get_profile, User_findById in *.
  by rewrite (find_update_user_same userId (apply_profile req) users u).
Qed.

Lemma profile_update_round_trip_witness :
  let req := {| profile_fullName := "Jane S. Smith";
                profile_email := "jane@example.com";
                profile_phone := Some "+4912345678901"; profile_age := None;
                profile_voterID := "VOT654321" |} in
  exists u',
    (put_profile (H:=demo_users) "222222222222222222222222" req
                 [demo_admin; demo_voter]).2 = [demo_admin; u'] /\
    email u' = "jane@example.com" /\ age u' = Some 45%Z /\
    password u' = "#secret" /\
    get_profile "222222222222222222222222"
      (put_profile (H:=demo_users) "222222222222222222222222" req
                   [demo_admin; demo_voter]).2 =
      (200%Z, UserJson
         {| user_id := "222222222222222222222222";
            fullName := "Jane S. Smith"; email := "jane@example.com";
            voterID := "VOT654321"; password := ""; age := Some 45%Z;
            phone := Some "+4912345678901"; user_role := voter;
            isVerified := true; isActive := true; user_createdAt := 10 |}).
Proof.
  intros req.
  destruct (profile_update_round_trip (H:=demo_users)
              "222222222222222222222222" req [demo_admin; demo_voter] eq_refl)
    as (u & u' & before & after & _ & _ & Hstored & _ & _ & _ & _ & _ & _ &
        _ & _ & _ & _ & _ & _ & Hget).
  exists (apply_profile req demo_voter).
  split; [reflexivity|]. split; [reflexivity|]. split; [reflexivity|].
  split; [reflexivity|]. exact Hget.
Defined.

(** ** Accounts: the list of voters *)

Lemma insert_by_created_perm (u : user) (l : list user) :
  insert_by_created u l ≡ₚ u :: l.
Proof.
  induction l as [|x l IH]; simpl; [done|].
  destruct (user_createdAt x <=? user_createdAt u)%Z; [done|].
  rewrite IH. apply Permutation_swap.
Qed.

Lemma User_find_voters_perm (q : age_condition) (users : list user) :
  User_find_voters q users ≡ₚ
  without_password <$> List.filter (voter_query q) users.
Proof.
  unfold User_find_voters.
  induction (without_password <$> List.filter (voter_query q) users)
    as [|u l IH]; simpl; [done|].
  rewrite insert_by_created_perm. by rewrite IH.
Qed.

Lemma length_User_find_voters (q : age_condition) (users : list user) :
  length (User_find_voters q users) = User_countDocuments q users.
Proof.
  rewrite User_find_voters_perm, length_fmap. reflexivity.
Qed.

Lemma filter_disjoint_le {A} (p q r : A -> bool) (l : list A) :
  (forall x, p x = true -> q x = false /\ r x = true) ->
  (forall x, q x = true -> r x = true) ->
  length (List.filter p l) + length (List.filter q l) <=
    length (List.filter r l).
Proof.
  intros Hp Hq. induction l as [|x l IH]; simpl; [lia|].
  destruct (p x) eqn:Hpx, (q x) eqn:Hqx, (r x) eqn:Hrx; simpl; try lia.
  all: try (destruct (Hp x Hpx); congruence).
  all: pose proof (Hq x Hqx); congruence.
Qed.

Lemma brackets_within_total (users : list user) :
  User_countDocuments (AgeBetween 18 60) users +
  User_countDocuments (AgeFrom 61) users <= User_countDocuments AnyAge users.
Proof.
  unfold User_countDocuments. apply filter_disjoint_le.
  - intros u. unfold voter_query, age_matches.
    destruct (bool_decide (user_role u = voter) && isActive u); simpl;
      [|discriminate].
    destruct (age u) as [a|]; [|discriminate].
    destruct (Z.leb_spec 18 a), (Z.leb_spec a 60), (Z.leb_spec 61 a);
      simpl; try discriminate; try lia; done.
  - intros u. unfold voter_query, age_matches.
    destruct (bool_decide (user_role u = voter) && isActive u); simpl; done.
Qed.

Lemma insert_by_created_sorted (u : user) (l : list user) :
  StronglySorted (fun a b => (user_createdAt b <= user_createdAt a)%Z) l ->
  StronglySorted (fun a b => (user_createdAt b <= user_createdAt a)%Z)
                 (insert_by_created u l).
Proof.
  induction 1 as [|x l Hl IH Hx]; simpl.
  - repeat constructor.
  - destruct (Z.leb_spec (user_createdAt x) (user_createdAt u)).
    + constructor; [by constructor|]. constructor; [done|].
      eapply Forall_impl; [exact Hx|]. intros y Hy. simpl in Hy. lia.
    + constructor; [done|]. rewrite insert_by_created_perm.
      constructor; [lia | done].
Qed.

Lemma User_find_voters_sorted (q : age_condition) (users : list user) :
  StronglySorted (fun a b => (user_createdAt b <= user_createdAt a)%Z)
                 (User_find_voters q users).
Proof.
  unfold User_find_voters.
  induction (without_password <$> List.filter (voter_query q) users)
    as [|u l IH]; simpl; [constructor|].
  by apply insert_by_created_sorted.
Qed.

(** X21. The list of voters and its counts. Whatever the age range asked
    for, the three counts are the number of the active accounts of role
    voter, the number of those whose age is at least 18 and at most 60,
    and the number of those whose age is at least 61; an account without
    age is in neither bracket, and the two brackets never hold more than
    the total. The list holds, latest created first and each without its
    password, exactly the active accounts of role voter whose age is in
    the range asked for: 18 to 60 for "18-60", 61 or more for "61+", and
    every age, none included, for any other range or none. *)
Theorem voters_list_and_counts (ageRange : option string) (users : list user) :
  let active_voter (u : user) :=
    bool_decide (user_role u = voter) && isActive u in
  let from_18_to_60 (u : user) :=
    match age u with
    | Some a => (18 <=? a)%Z && (a <=? 60)%Z
    | None => false
    end in
  let from_61 (u : user) :=
    match age u with
    | Some a => (61 <=? a)%Z
    | None => false
    end in
  let asked_for (u : user) :=
    if decide (ageRange = Some "18-60") then from_18_to_60 u
    else if decide (ageRange = Some "61+") then from_61 u
    else true in
  stats (get_voters ageRange users).2 =
    {| stats_total := length (List.filter active_voter users);
       age18To60 :=
         length (List.filter (fun u => active_voter u && from_18_to_60 u)
                             users);
       age61Plus :=
         length (List.filter (fun u => active_voter u && from_61 u) users) |} /\
  age18To60 (stats (get_voters ageRange users).2) +
  age61Plus (stats (get_voters ageRange users).2) <=
    stats_total (stats (get_voters ageRange users).2) /\
  (get_voters ageRange users).1 = 200%Z /\
  voters (get_voters ageRange users).2 ≡ₚ
    (fun u =>
       {| user_id := user_id u; fullName := fullName u; email := email u;
          voterID := voterID u; password := ""; age := age u;
          phone := phone u; user_role := user_role u;
          isVerified := isVerified u; isActive := isActive u;
          user_createdAt := user_createdAt u |}) <$>
      List.filter (fun u => active_voter u && asked_for u) users /\
  StronglySorted (fun a b => (user_createdAt b <= user_createdAt a)%Z)
                 (voters (get_voters ageRange users).2).
Proof.
  intros active_voter from_18_to_60 from_61 asked_for.
  split.
  { simpl. unfold User_countDocuments. f_equal; f_equal.
    apply filter_ext. intros u. unfold voter_query, active_voter. simpl.
    by rewrite andb_true_r. }
  split; [apply brackets_within_total|].
  split; [reflexivity|].
  split; [|apply User_find_voters_sorted].
  simpl. rewrite User_find_voters_perm.
  unfold without_password.
  replace (List.filter (voter_query (age_range_condition ageRange)) users)
    with (List.filter (fun u => active_voter u && asked_for u) users); [done|].
  apply filter_ext. intros u.
  unfold voter_query, active_voter, asked_for, age_range_condition.
  f_equal.
  destruct ageRange as [r|]; simpl.
  - repeat case_decide; repeat case_bool_decide; simplify_eq; try done.
  - repeat case_decide; simplify_eq; done.
Qed.

Lemma voters_list_and_counts_witness :
  let old_voter :=
    {| user_id := "333333333333333333333333"; fullName := "Old Voter";
       email := "old@example.com"; voterID := "VOT000061";
       password := "#secret"; age := Some 61%Z; phone := None;
       user_role := voter; isVerified := true; isActive := true;
       user_createdAt := 20 |} in
  stats (get_voters (Some "61+") [demo_admin; demo_voter; old_voter]).2 =
    {| stats_total := 2; age18To60 := 1; age61Plus := 1 |} /\
  voters (get_voters (Some "61+") [demo_admin; demo_voter; old_voter]).2 ≡ₚ
    [ {| user_id := "333333333333333333333333"; fullName := "Old Voter";
         email := "old@example.com"; voterID := "VOT000061";
         password := ""; age := Some 61%Z; phone := None;
         user_role := voter; isVerified := true; isActive := true;
         user_createdAt := 20 |} ].
Proof.
  intros old_voter.
  destruct (voters_list_and_counts (Some "61+")
              [demo_admin; demo_voter; old_voter])
    as (Hstats & _ & _ & Hlist & _).
  split; [exact Hstats | exact Hlist].
Defined.

(** * The client *)

(** ** The countdown *)

Lemma Qfloor_sub_Z (q : Q) (k : Z) : Qfloor (q - inject_Z k) = (Qfloor q - k)%Z.
Proof.
  destruct q as [n p]. unfold Qfloor, Qminus, Qplus, Qopp, inject_Z. simpl.
  rewrite Pos.mul_1_r, Z.mul_1_r.
  replace (n + - k * Z.pos p)%Z with (n + (- k) * Z.pos p)%Z by lia.
  rewrite Z.div_add by lia. lia.
Qed.

Lemma Qtrunc_nonneg (q : Q) : (0 <= q)%Q -> Qtrunc q = Qfloor q.
Proof. intros Hq. unfold Qtrunc. apply Qle_bool_iff in Hq. by rewrite Hq. Qed.

Lemma Qfloor_div_Z (q : Q) (m : positive) :
  Qfloor (q / inject_Z (Z.pos m)) = (Qfloor q / Z.pos m)%Z.
Proof.
  destruct q as [n p]. unfold Qfloor, Qdiv, Qmult, Qinv, inject_Z. simpl.
  rewrite Z.mul_1_r. rewrite Pos2Z.inj_mul. by rewrite Z.div_div by lia.
Qed.

Lemma Qdiv_nonneg (q : Q) (m : positive) :
  (0 <= q)%Q -> (0 <= q / inject_Z (Z.pos m))%Q.
Proof.
  intros Hq. apply Qle_shift_div_l; [reflexivity|]. by rewrite Qmult_0_l.
Qed.

(** The floor of a remainder is the remainder of the floor. *)
Lemma floor_js_rem (q : Q) (m : positive) :
  (0 <= q)%Q ->
  Qfloor (js_rem q (inject_Z (Z.pos m))) = (Qfloor q mod Z.pos m)%Z.
Proof.
  intros Hq. unfold js_rem.
  rewrite Qtrunc_nonneg by (by apply Qdiv_nonneg).
  rewrite <- inject_Z_mult, Qfloor_sub_Z, Qfloor_div_Z.
  rewrite Z.mod_eq by lia. lia.
Qed.

Lemma inject_Z_nonneg (d : Z) : (0 <= d)%Z -> (0 <= inject_Z d)%Q.
Proof. intros Hd. change 0%Q with (inject_Z 0). by rewrite <- Zle_Qle. Qed.

(** X22. The countdown of [CountdownTimer]. Once the end is reached the
    four parts are 0. Before it, with s the whole seconds that remain,
    the parts are the days, hours, minutes and seconds of s: they give s
    back (days * 86400 + hours * 3600 + minutes * 60 + seconds) and hours
    stay below 24, minutes and seconds below 60. *)
Theorem countdown_parts (finish now : Date) :
  (finish <= now)%Z /\
    calculateTimeLeft finish now =
      {| days := 0; hours := 0; minutes := 0; seconds := 0 |}
  \/
  (now < finish)%Z /\
    let s := ((finish - now) / 1000)%Z in
    let t := calculateTimeLeft finish now in
    days t = (s / 86400)%Z /\
    hours t = ((s / 3600) mod 24)%Z /\
    minutes t = ((s / 60) mod 60)%Z /\
    seconds t = (s mod 60)%Z /\
    (days t * 86400 + hours t * 3600 + minutes t * 60 + seconds t = s)%Z /\
    (0 <= days t)%Z /\ (0 <= hours t < 24)%Z /\ (0 <= minutes t < 60)%Z /\
    (0 <= seconds t < 60)%Z.
Proof.
  unfold calculateTimeLeft.
  destruct (Z.leb_spec (finish - now) 0) as [Hle|Hlt];
    [left; split; [lia | done]|].
  right. split; [lia|].
  set (d := (finish - now)%Z) in *.
  assert (0 <= inject_Z d)%Q as Hd by (apply inject_Z_nonneg; lia).
  cbn zeta. cbn [days hours minutes seconds].
  change (1000 * 60 * 60 * 24)%Q with (inject_Z (Z.pos 86400000)).
  change (1000 * 60 * 60)%Q with (inject_Z (Z.pos 3600000)).
  change 24%Q with (inject_Z (Z.pos 24)).
  change 60%Q with (inject_Z (Z.pos 60)).
  change 1000%Q with (inject_Z (Z.pos 1000)).
  rewrite !floor_js_rem by (repeat apply Qdiv_nonneg; exact Hd).
  rewrite !Qfloor_div_Z, Qfloor_Z.
  assert (0 <= d)%Z as Hd' by lia. clearbody d. clear Hd Hlt.
  Z.to_euclidean_division_equations. lia.
Qed.

(** ** The session *)

(** X23. Log in, then browse: when the server answers a login with 200
    and a token that is not empty, and the user object survives
    [JSON.stringify] then [JSON.parse], the client afterwards reads that
    user as the current one, sends "Bearer " followed by the token,
    passes the guard of the authenticated pages, and passes the guard of
    the admin pages exactly when the role of the account is admin. *)
Theorem session_after_login `{UserModel} `{JSON} (voterID_ : voterID_value)
    (password_ : string) (users : list user) (u : user)
    (localStorage : gmap string string) :
  User_findOne_voterID voterID_ users = Some u ->
  (login voterID_ password_ users).1 = 200%Z ->
  jwt_sign (user_id u) (user_role u) (voterID u) <> "" ->
  JSON_parse (JSON_stringify (public_user u)) = Value (Some (public_user u)) ->
  JSON_stringify (public_user u) <> "" ->
  let session := authService_login (login voterID_ password_ users) localStorage in
  getCurrentUser session = Value (Some (public_user u)) /\
  request_interceptor session =
    Some ("Bearer " +:+ jwt_sign (user_id u) (user_role u) (voterID u)) /\
  ProtectedRoute session = Render /\
  (AdminRoute session = Render <-> user_role u = admin).
Proof.
  intros Hu Hok Htoken Hjson Htext.
  rewrite (login_ok_response voterID_ password_ users u Hu Hok). simpl.
  unfold authService_login. simpl.
  rewrite bool_decide_eq_false_2 by done.
  assert (getCurrentUser
            (<["user" := JSON_stringify (public_user u)]>
               (<["token" := jwt_sign (user_id u) (user_role u) (voterID u)]>
                  localStorage)) = Value (Some (public_user u))) as Hcur.
  { unfold getCurrentUser. rewrite lookup_insert_eq.
    by rewrite bool_decide_eq_false_2. }
  split; [exact Hcur|]. split.
  { unfold request_interceptor.
    rewrite lookup_insert_ne by done. rewrite lookup_insert_eq.
    by rewrite bool_decide_eq_false_2. }
  unfold ProtectedRoute, AdminRoute. rewrite Hcur. split; [done|]. simpl.
  case_bool_decide; simpl; split; done.
Qed.

Lemma session_after_login_witness :
  let session :=
    authService_login (H:=demo_json)
      (login (H:=demo_users) "ADMIN001" "secret" [demo_admin; demo_voter]) ∅ in
  getCurrentUser (H:=demo_json) session = Value (Some (public_user demo_admin)) /\
  AdminRoute (H:=demo_json) session = Render.
Proof.
  intros session.
  destruct (session_after_login (H:=demo_users) (H0:=demo_json) "ADMIN001"
              "secret" [demo_admin; demo_voter] demo_admin ∅)
    as (Hcur & _ & _ & Hadmin); try reflexivity; try discriminate.
  split; [exact Hcur | by apply Hadmin].
Defined.

(** X24. The ways out of a session. After a logout, and after any request
    that the server answers 401 (which also sends the browser to the login
    page), the client has no current user, sends no Authorization header
    and both guards redirect to the login page. A login that the server
    refuses with another status leaves the storage as it was. *)
Theorem session_ends `{JSON} (localStorage : gmap string string) :
  (let after := authService_logout localStorage in
   getCurrentUser after = Value None /\ request_interceptor after = None /\
   ProtectedRoute after = Redirect /\ AdminRoute after = Redirect) /\
  (let after := (response_error_interceptor 401 localStorage).1 in
   (response_error_interceptor 401 localStorage).2 = true /\
   getCurrentUser after = Value None /\ request_interceptor after = None /\
   ProtectedRoute after = Redirect /\ AdminRoute after = Redirect) /\
  (forall r : auth_response,
     ~ (200 <= r.1 < 300)%Z -> r.1 <> 401%Z ->
     authService_login r localStorage = localStorage).
Proof.
  assert (forall ls : gmap string string,
            getCurrentUser (delete "user" (delete "token" ls)) = Value None /\
            request_interceptor (delete "user" (delete "token" ls)) = None)
    as Hcleared.
  { intros ls. unfold getCurrentUser, request_interceptor.
    rewrite lookup_delete_eq.
    rewrite lookup_delete_ne by done. by rewrite lookup_delete_eq. }
  split; [|split].
  - destruct (Hcleared localStorage) as [Hcur Hreq]. simpl.
    unfold authService_logout, ProtectedRoute, AdminRoute. by rewrite Hcur.
  - destruct (Hcleared localStorage) as [Hcur Hreq]. simpl.
    unfold ProtectedRoute, AdminRoute. by rewrite Hcur.
  - intros r Hnot H401. unfold authService_login, response_error_interceptor.
    rewrite bool_decide_eq_false_2 by done.
    destruct (Z.eqb_spec r.1 401); [done|]. reflexivity.
Qed.

Lemma session_ends_witness :
  authService_login (H:=demo_json)
    (login (H:=demo_users) "ADMIN001" "wrong" [demo_admin; demo_voter])
    {[ "token" := "t" ]} = {[ "token" := "t" ]}.
Proof.
  apply (session_ends (H:=demo_json) {[ "token" := "t" ]}); simpl; lia.
Defined.

(** * Reads in order, writes all or nothing *)

Lemma insert_by_start_sorted (e : election) (l : list election) :
  StronglySorted (fun a b => (startDate b <= startDate a)%Z) l ->
  StronglySorted (fun a b => (startDate b <= startDate a)%Z)
                 (insert_by_start e l).
Proof.
  induction 1 as [|x l Hl IH Hx]; simpl.
  - repeat constructor.
  - destruct (Z.leb_spec (startDate x) (startDate e)).
    + constructor; [by constructor|]. constructor; [done|].
      eapply Forall_impl; [exact Hx|]. intros y Hy. simpl in Hy. lia.
    + constructor; [done|]. rewrite insert_by_start_perm.
      constructor; [lia | done].
Qed.

Lemma Election_find_sorted_sorted (d : db) :
  StronglySorted (fun a b => (startDate b <= startDate a)%Z)
                 (Election_find_sorted d).
Proof.
  unfold Election_find_sorted.
  induction (elections d) as [|e l IH]; simpl; [constructor|].
  by apply insert_by_start_sorted.
Qed.

Lemma imap_summary_sorted (f : nat -> election -> status) (l : list election) :
  StronglySorted (fun a b => (startDate b <= startDate a)%Z) l ->
  StronglySorted starts_later (imap (fun i e => summary e (f i e)) l).
Proof.
  intros Hl. revert f. induction Hl as [|e l Hl IH He]; intros f; simpl.
  - constructor.
  - constructor; [apply (IH (fun i => f (S i)))|].
    apply Forall_forall. intros x Hx.
    apply elem_of_lookup_imap_1 in Hx as (i & y & Hxy & Hy). subst x.
    unfold starts_later. simpl. rewrite Forall_forall in He.
    apply He. by eapply list_elem_of_lookup_2.
Qed.

(** X25. List serves the elections latest start first: the list it
    answers with is in descending order of start date, has one entry for
    each stored election, with its identifier, and leaves the database as
    it was. *)
Theorem elections_listed_latest_first (clock : nat -> Date) (d : db) :
  exists l,
    get_elections clock d = ((200%Z, ElectionList l), d) /\
    StronglySorted starts_later l /\
    sum_id <$> l ≡ₚ election_id <$> elections d.
Proof.
  eexists. split; [reflexivity|]. split.
  - apply imap_summary_sorted, Election_find_sorted_sorted.
  - rewrite <- (Election_find_sorted_perm d).
    induction (Election_find_sorted d) as [|e l IH] using rev_ind; [done|].
    rewrite imap_app, !fmap_app. simpl. by rewrite IH.
Qed.

(** X26. What a refused request leaves behind. A create, an update or a
    vote that is not answered with a success status leaves the database as
    it was: elections, votes and the journal of writes; each makes one
    write, in its last database call. A delete makes two. One that is not
    answered with a success status leaves the elections as they were;
    it leaves the whole database as it was when its answer is below 500
    or its second deletion did not fail; otherwise the second deletion
    failed after the first was made: the answer is 500, the votes of the
    election are gone and the election is still there. *)
Theorem refused_requests_leave_behind `{Runtime} (d : db) :
  (forall req userId clock newId,
     is_success (post_election req userId clock newId d).1 = false ->
     (post_election req userId clock newId d).2 = d) /\
  (forall electionId req now newId,
     is_success (put_election electionId req now newId d).1 = false ->
     (put_election electionId req now newId d).2 = d) /\
  (forall req clock r,
     (post_vote req clock d).1 = Responded r -> is_success r = false ->
     (post_vote req clock d).2 = d) /\
  (forall electionId now thrown,
     is_success (delete_election electionId now thrown d).1 = false ->
     elections (delete_election electionId now thrown d).2 = elections d /\
     ((http_status (delete_election electionId now thrown d).1 < 500)%Z \/
      thrown 2%nat = None ->
      (delete_election electionId now thrown d).2 = d) /\
     ((delete_election electionId now thrown d).2 <> d ->
      (delete_election electionId now thrown d).1 =
        (500%Z, ServerError "Server error deleting election") /\
      (exists e, e ∈ elections d /\ election_id e = electionId) /\
      votes (delete_election electionId now thrown d).2 =
        List.filter (fun v => negb (bool_decide (vote_election v = electionId)))
                    (votes d))).
Proof.
  split; [|split; [|split]].
  - intros req userId clock newId.
    unfold post_election, Election_save, create_catch.
    repeat case_match; simplify_eq; simpl; try done; discriminate.
  - intros electionId req now newId Hno.
    destruct (put_election_cases electionId req now newId d)
      as [[Hd _] | (e & start & finish & cs & _ & _ & _ & _ & _ & _ & Hput)];
      [done|].
    rewrite Hput in Hno. discriminate Hno.
  - intros req clock r. unfold post_vote, vote_start.
    destruct (ObjectId_isValid (vote_electionId req)); simpl; [|done].
    destruct (ObjectId_isValid (vote_candidateId req)); simpl; [|done].
    destruct (Election_findById (vote_electionId req) d) as [e|]; simpl;
      [|done].
    destruct (_ || _); simpl; [done|].
    destruct (List.find _ (candidates e)); simpl; [|done].
    destruct (Vote_findOne _ _ d); simpl; [done|].
    unfold Vote_save. destruct (existsb _ (votes d)); simpl; [done|].
    intros [= <-] Hs. vm_compute in Hs. discriminate.
  - intros electionId now thrown Hno.
    destruct (delete_election_cases electionId now thrown d)
      as [[Hd _] | (e & Hfound & _ & _ & _ & _ &
                    [(error & Hthrown & Hdel) | [_ Hdel]])].
    + rewrite Hd. split; [done|]. split; [done|]. intros Hne. by destruct Hne.
    + rewrite Hdel. simpl. split; [done|]. split.
      * intros [Hlt | Hnone]; [unfold http_status in Hlt; simpl in Hlt; lia|].
        congruence.
      * intros _. split; [done|]. split; [|done].
        exists e. split.
        -- apply find_some in Hfound as [Hin _]. by apply list_elem_of_In.
        -- by apply Election_findById_id in Hfound.
    + rewrite Hdel in Hno. discriminate Hno.
Qed.

(** The delete of the demo election, with its two votes, when the
    deletion of the election fails: the votes are gone and the election
    is still there. *)
Lemma refused_requests_leave_behind_witness :
  let thrown (i : nat) :=
    if (i =? 2)%nat then Some (MongoServerError 89) else None in
  (delete_election (H:=demo_runtime) "eeeeeeeeeeeeeeeeeeeeeeee" 50 thrown
                   demo_db_two_votes).1 =
    (500%Z, ServerError "Server error deleting election") /\
  elections (delete_election (H:=demo_runtime) "eeeeeeeeeeeeeeeeeeeeeeee" 50
                             thrown demo_db_two_votes).2 = [demo_election] /\
  votes (delete_election (H:=demo_runtime) "eeeeeeeeeeeeeeeeeeeeeeee" 50
                         thrown demo_db_two_votes).2 = [].
Proof.
  intros thrown.
  destruct (refused_requests_leave_behind (H:=demo_runtime) demo_db_two_votes)
    as (_ & _ & _ & Hdel).
  destruct (Hdel "eeeeeeeeeeeeeeeeeeeeeeee" 50%Z thrown eq_refl)
    as (He & _ & Hgone).
  destruct Hgone as (Hr & _ & Hv); [discriminate|].
  split; [exact Hr|]. split; [exact He | exact Hv].
Defined.
